(** * image-to-tex: the LaTeX post-processing core, the image gate and the
      vision gateway, embedded from the Python sources

    - [PyStr]            the [str] and [re] operations the sources call
    - [LaTeXFormatter]   src/image_to_tex/utils/latex_formatter.py
    - [ImageHandler]     src/image_to_tex/utils/image_handler.py
    - [VisionClient]     src/image_to_tex/core/vision_client.py
    - [Converter]        src/image_to_tex/core/converter.py

    A Python [str] is a [string] whose characters are the code points
    below 256; the character classes ([str.isspace], [str.lower], the
    [\w] of [re]) are the ones CPython uses on that range. *)

From Stdlib Require Import Bool Arith Lia List ZArith.
From Stdlib Require Import Ascii String Permutation.
Import ListNotations.

Local Open Scope list_scope.
Local Open Scope string_scope.

(** The outcome of a call: it returns a value or raises an exception. *)
Inductive result (A E : Type) : Type :=
| Returns (a : A)
| Raises (e : E).
Arguments Returns {A E} a.
Arguments Raises {A E} e.

(* ===================================================================== *)
(** ** Python string operations *)
(* ===================================================================== *)

Module PyStr.

Definition nl_char : ascii := "010"%char.

(** The one-character string [\n]. *)
Definition nl : string := String nl_char "".

(** [len(s) == 0], i.e. [not s]. *)
Definition is_empty (s : string) : bool :=
  match s with
  | EmptyString => true
  | String _ _ => false
  end.

(** [str.isspace] on one code point: TAB LF VT FF CR, FS GS RS US,
    SPACE, NEL (0x85) and NBSP (0xA0). *)
Definition is_space (c : ascii) : bool :=
  let n := nat_of_ascii c in
  (((9 <=? n) && (n <=? 13)) || ((28 <=? n) && (n <=? 32))
   || (n =? 133) || (n =? 160))%nat.

(** [str.lower] on one code point: A-Z, and 0xC0-0xDE except the
    multiplication sign 0xD7, move up by 32. *)
Definition lower_char (c : ascii) : ascii :=
  let n := nat_of_ascii c in
  if (((65 <=? n) && (n <=? 90))
      || ((192 <=? n) && (n <=? 222) && negb (n =? 215)))%nat
  then ascii_of_nat (n + 32) else c.

(** [\w] of [re] on a [str] pattern: alphanumeric or underscore. *)
Definition is_word (c : ascii) : bool :=
  let n := nat_of_ascii c in
  (((48 <=? n) && (n <=? 57)) || ((65 <=? n) && (n <=? 90))
   || (n =? 95) || ((97 <=? n) && (n <=? 122))
   || (n =? 170) || (n =? 178) || (n =? 179) || (n =? 181)
   || (n =? 185) || (n =? 186) || ((188 <=? n) && (n <=? 190))
   || ((192 <=? n) && (n <=? 214)) || ((216 <=? n) && (n <=? 246))
   || (248 <=? n))%nat.

(** [s.lower()] *)
Fixpoint lower (s : string) : string :=
  match s with
  | EmptyString => EmptyString
  | String c s' => String (lower_char c) (lower s')
  end.

(** [s.lstrip()] *)
Fixpoint lstrip (s : string) : string :=
  match s with
  | EmptyString => EmptyString
  | String c s' => if is_space c then lstrip s' else s
  end.

(** [s.rstrip()]: a character is dropped when it is white and nothing
    after it is kept. *)
Fixpoint rstrip (s : string) : string :=
  match s with
  | EmptyString => EmptyString
  | String c s' =>
      let r := rstrip s' in
      if is_empty r && is_space c then EmptyString else String c r
  end.

(** [s.strip()] *)
Definition strip (s : string) : string := rstrip (lstrip s).

(** [s.startswith(p)] *)
Definition startswith (s p : string) : bool := String.prefix p s.

(** [needle in s] *)
Fixpoint contains (needle s : string) : bool :=
  String.prefix needle s
  || match s with
     | EmptyString => false
     | String _ s' => contains needle s'
     end.

(** [s.count(c)] for a one-character [c]. *)
Fixpoint count_char (c : ascii) (s : string) : nat :=
  match s with
  | EmptyString => 0
  | String d s' => (if Ascii.eqb c d then 1 else 0) + count_char c s'
  end.

(** The scan of [s.replace(old, new)] for a non-empty [old]: left to
    right, occurrences do not overlap.  [skip] is the number of
    characters of the occurrence just replaced that are still to be
    passed over. *)
Fixpoint replace_scan (old new : string) (skip : nat) (s : string)
  : string :=
  match s with
  | EmptyString => EmptyString
  | String c s' =>
      match skip with
      | S k => replace_scan old new k s'
      | O =>
          if String.prefix old s
          then new ++ replace_scan old new (String.length old - 1) s'
          else String c (replace_scan old new 0 s')
      end
  end.

(** [s.replace("", new)] puts [new] before every character and at the
    end. *)
Fixpoint intersperse (new s : string) : string :=
  match s with
  | EmptyString => new
  | String c s' => new ++ String c (intersperse new s')
  end.

(** [s.replace(old, new)]; also [re.sub(old, new, s)] when the pattern
    [old] has no metacharacter and [new] no backslash, which is the
    case at every [re.sub] of the sources. *)
Definition replace (old new s : string) : string :=
  if is_empty old then intersperse new s else replace_scan old new 0 s.

(** [s.split("\n")]: never empty. *)
Fixpoint split_nl (s : string) : list string :=
  match s with
  | EmptyString => [ "" ]
  | String c s' =>
      if Ascii.eqb c nl_char then "" :: split_nl s'
      else match split_nl s' with
           | h :: t => String c h :: t
           | [] => [ String c "" ]
           end
  end.

(** ["\n".join(lines)] *)
Definition join_nl (lines : list string) : string :=
  String.concat nl lines.

(** [x in xs] on a list of strings. *)
Definition mem (x : string) (xs : list string) : bool :=
  existsb (String.eqb x) xs.

(** The longest run of [\w] characters at the head of [s], and the
    rest: what a greedy [\w*] consumes. *)
Fixpoint span_word (s : string) : string * string :=
  match s with
  | EmptyString => (EmptyString, EmptyString)
  | String c s' =>
      if is_word c
      then let '(w, r) := span_word s' in (String c w, r)
      else (EmptyString, s)
  end.

(** [drop n s] is [s[n:]]. *)
Fixpoint drop (n : nat) (s : string) : string :=
  match n, s with
  | O, _ => s
  | S _, EmptyString => EmptyString
  | S k, String _ s' => drop k s'
  end.

(** One attempt of the pattern [kw\{(\w+)\}] at the head of [s], for a
    literal [kw]: the captured name.  The greedy [\w+] takes the whole
    run of word characters; the closing brace is not a word character,
    so giving characters back never helps. *)
Definition match_env (kw s : string) : option string :=
  if String.prefix (kw ++ "{") s then
    let '(name, rest) := span_word (drop (String.length kw + 1) s) in
    if negb (is_empty name) && String.prefix "}" rest
    then Some name else None
  else None.

(** The scan of [re.findall] for that pattern: matches are found left
    to right and do not overlap.  [skip] is the number of characters of
    the last match still to be passed over. *)
Fixpoint findall_scan (kw : string) (skip : nat) (s : string)
  : list string :=
  match s with
  | EmptyString => []
  | String _ s' =>
      match skip with
      | S k => findall_scan kw k s'
      | O =>
          match match_env kw s with
          | Some name =>
              name :: findall_scan kw
                        (String.length kw + String.length name + 1) s'
          | None => findall_scan kw 0 s'
          end
      end
  end.

(** [re.findall(kw + r"\{(\w+)\}", s)] *)
Definition findall_env (kw s : string) : list string :=
  findall_scan kw 0 s.

(** [str.isprintable] on one code point: the ASCII characters from the
    space to the tilde, and 0xA1-0xFF except the soft hyphen 0xAD. *)
Definition isprintable (c : ascii) : bool :=
  let n := nat_of_ascii c in
  (((32 <=? n) && (n <=? 126)) || ((161 <=? n) && negb (n =? 173)))%nat.

Definition squote : ascii := "039"%char.
Definition dquote : ascii := "034"%char.

(** The digit of [n] in lower-case hexadecimal. *)
Definition hex_digit (n : nat) : ascii :=
  nth n (list_ascii_of_string "0123456789abcdef") "0"%char.

(** What [repr] writes for one code point between the quotes [quote]:
    the quote and the backslash behind a backslash, [\t], [\n] and [\r]
    for TAB, LF and CR, [\xNN] for the other code points that are not
    printable, and the code point itself otherwise. *)
Definition repr_char (quote c : ascii) : string :=
  let n := nat_of_ascii c in
  if Ascii.eqb c quote || Ascii.eqb c "\" then String "\" (String c "")
  else if (n =? 9)%nat then "\t"
  else if (n =? 10)%nat then "\n"
  else if (n =? 13)%nat then "\r"
  else if isprintable c then String c ""
  else String "\" (String "x" (String (hex_digit (n / 16))
                                  (String (hex_digit (n mod 16)) ""))).

Fixpoint repr_chars (quote : ascii) (s : string) : string :=
  match s with
  | EmptyString => EmptyString
  | String c s' => repr_char quote c ++ repr_chars quote s'
  end.

(** [repr(s)]: single quotes, unless [s] holds a single quote and no
    double quote. *)
Definition repr (s : string) : string :=
  let quote :=
    if ((0 <? count_char squote s) && (count_char dquote s =? 0))%nat
    then dquote else squote in
  String quote (repr_chars quote s ++ String quote "").

End PyStr.

(* ===================================================================== *)
(** ** utils/latex_formatter.py *)
(* ===================================================================== *)

Module LaTeXFormatter.
Import PyStr.

(** [class ContentType(str, Enum)] *)
Inductive ContentType : Type :=
| EQUATION | TABLE | DIAGRAM | DOCUMENT | UNKNOWN.

(** [LaTeXFormatter.DOCUMENT_PACKAGES] *)
Definition DOCUMENT_PACKAGES : list string :=
  [ "\usepackage{amsmath}";
    "\usepackage{amssymb}";
    "\usepackage{amsfonts}";
    "\usepackage{graphicx}";
    "\usepackage{booktabs}";
    "\usepackage{tikz}" ].

(** Truth value of an [Optional[str]]: [None] and the empty string are
    false. *)
Definition truthy (o : option string) : bool :=
  match o with
  | Some s => negb (is_empty s)
  | None => false
  end.

(** The string an f-string prints for an optional argument that was
    tested true. *)
Definition text_of (o : option string) : string :=
  match o with
  | Some s => s
  | None => "None"
  end.

(** The delimiters [wrap_equation] removes, in the order of its loop. *)
Definition equation_delims : list string := [ "\["; "\]"; "$$"; "$" ].

(** The first lines of [wrap_equation]: strip, remove each delimiter in
    turn, strip again. *)
Definition clean_equation (latex_code : string) : string :=
  strip (fold_left (fun code delim => replace delim "" code)
                   equation_delims (strip latex_code)).

(** [LaTeXFormatter.wrap_equation(latex_code, inline)] *)
Definition wrap_equation (latex_code : string) (inline : bool) : string :=
  let latex_code := clean_equation latex_code in
  if inline then "$" ++ latex_code ++ "$"
  else if contains "\\" latex_code || contains "align" (lower latex_code)
  then
    if negb (startswith latex_code "\begin{align")
    then "\begin{align}" ++ nl ++ latex_code ++ nl ++ "\end{align}"
    else latex_code
  else
    if negb (startswith latex_code "\begin{equation")
    then "\begin{equation}" ++ nl ++ latex_code ++ nl ++ "\end{equation}"
    else latex_code.

(** The title block of [create_full_document]. *)
Definition title_block (title author : option string) : string :=
  if truthy title then
    "\title{" ++ text_of title ++ "}" ++ nl
    ++ (if truthy author
        then "\author{" ++ text_of author ++ "}" ++ nl else "")
    ++ "\maketitle" ++ nl ++ nl
  else "".

(** [LaTeXFormatter.create_full_document(latex_content, title, author,
    document_class)] *)
Definition create_full_document (latex_content : string)
    (title author : option string) (document_class : string) : string :=
  let doc := "\documentclass{" ++ document_class ++ "}" ++ nl ++ nl in
  let doc :=
    fold_left (fun doc package => doc ++ package ++ nl)
              DOCUMENT_PACKAGES doc in
  let doc := doc ++ nl ++ "\begin{document}" ++ nl ++ nl in
  let doc := doc ++ title_block title author in
  let doc := doc ++ latex_content ++ nl ++ nl in
  let doc := doc ++ "\end{document}" ++ nl in
  doc.

(** The four [re.sub] calls that open [extract_latex_code]. *)
Definition strip_fences (text : string) : string :=
  let text := replace ("```latex" ++ nl) "" text in
  let text := replace ("```tex" ++ nl) "" text in
  let text := replace ("```" ++ nl) "" text in
  replace "```" "" text.

Definition skip_phrases : list string :=
  [ "here is"; "here's"; "the latex"; "this is";
    "i've converted"; "converted to"; "latex code:";
    "explanation:"; "note:" ].

(** [line.strip().startswith("\\") or line.strip().startswith("$")] *)
Definition is_latex_start (line : string) : bool :=
  startswith (strip line) "\" || startswith (strip line) "$".

(** One turn of the loop over the lines; the state is
    [(started, latex_lines)]. *)
Definition scan_line (st : bool * list string) (line : string)
  : bool * list string :=
  let '(started, latex_lines) := st in
  let line_lower := strip (lower line) in
  if negb started
     && existsb (fun skip => contains skip line_lower) skip_phrases
  then st
  else
    let started := started || is_latex_start line in
    if started then (started, (latex_lines ++ [ line ])%list)
    else (started, latex_lines).

(** [LaTeXFormatter.extract_latex_code(text)] *)
Definition extract_latex_code (text : string) : string :=
  let text := strip_fences text in
  let lines := split_nl text in
  let '(_, latex_lines) := fold_left scan_line lines (false, []) in
  let result := strip (join_nl latex_lines) in
  if is_empty result then strip text else result.

(** [any(keyword in latex_lower for keyword in keywords)] *)
Definition any_in (keywords : list string) (latex_lower : string) : bool :=
  existsb (fun keyword => contains keyword latex_lower) keywords.

(** [LaTeXFormatter.detect_content_type(latex_code)] *)
Definition detect_content_type (latex_code : string) : ContentType :=
  let latex_lower := lower latex_code in
  if contains "\documentclass" latex_lower
     || contains "\maketitle" latex_lower
  then DOCUMENT
  else if contains "\begin{table" latex_lower
          || contains "\begin{tabular" latex_lower
  then TABLE
  else if any_in [ "\begin{tikz"; "\begin{figure"; "\includegraphics" ]
                 latex_lower
  then DIAGRAM
  else if any_in [ "\begin{equation"; "\begin{align"; "\["; "$";
                   "\frac"; "\int"; "\sum"; "\alpha" ] latex_lower
  then EQUATION
  else UNKNOWN.

Definition MSG_BRACES : string := "Unbalanced braces: {} count mismatch".
Definition MSG_BRACKETS : string :=
  "Unbalanced brackets: [] count mismatch".
Definition MSG_ENVIRONMENTS : string :=
  "Unbalanced environments: \begin{} and \end{} count mismatch".
Definition MSG_UNCLOSED (env : string) : string :=
  "Environment '" ++ env ++ "' opened but not closed".

(** The last loop of [validate_latex]: the first opened environment
    that no [\end] names. *)
Fixpoint first_unclosed (begins ends : list string) : option string :=
  match begins with
  | [] => None
  | env :: rest =>
      if negb (mem env ends) then Some env else first_unclosed rest ends
  end.

(** [re.findall(r"\\begin\{(\w+)\}", latex_code)] *)
Definition begins_of (latex_code : string) : list string :=
  findall_env "\begin" latex_code.

(** [re.findall(r"\\end\{(\w+)\}", latex_code)] *)
Definition ends_of (latex_code : string) : list string :=
  findall_env "\end" latex_code.

(** [LaTeXFormatter.validate_latex(latex_code)]: the pair
    [(is_valid, error_message)]. *)
Definition validate_latex (latex_code : string) : bool * option string :=
  if negb (count_char "{" latex_code =? count_char "}" latex_code)%nat
  then (false, Some MSG_BRACES)
  else if negb (count_char "[" latex_code =? count_char "]" latex_code)%nat
  then (false, Some MSG_BRACKETS)
  else
    let begins := begins_of latex_code in
    let ends := ends_of latex_code in
    if negb (List.length begins =? List.length ends)%nat
    then (false, Some MSG_ENVIRONMENTS)
    else match first_unclosed begins ends with
         | Some env => (false, Some (MSG_UNCLOSED env))
         | None => (true, None)
         end.

(** [LaTeXFormatter.wrap_table(latex_code, caption)] *)
Definition wrap_table (latex_code : string) (caption : option string)
  : string :=
  let latex_code := strip latex_code in
  if startswith latex_code "\begin{table" then latex_code
  else
    let result := "\begin{table}[htbp]" ++ nl ++ "\centering" ++ nl in
    let result :=
      if truthy caption
      then result ++ "\caption{" ++ text_of caption ++ "}" ++ nl
      else result in
    let result :=
      if negb (startswith latex_code "\begin{tabular")
      then ((result ++ "\begin{tabular}{c}" ++ nl) ++ latex_code ++ nl)
           ++ "\end{tabular}" ++ nl
      else result ++ latex_code ++ nl in
    result ++ "\end{table}".

(** [ContentType.value] *)
Definition value (content_type : ContentType) : string :=
  match content_type with
  | EQUATION => "equation"
  | TABLE => "table"
  | DIAGRAM => "diagram"
  | DOCUMENT => "document"
  | UNKNOWN => "unknown"
  end.

End LaTeXFormatter.

(* ===================================================================== *)
(** ** utils/image_handler.py *)
(* ===================================================================== *)

Module ImageHandler.

(** [ImageHandler.SUPPORTED_FORMATS] *)
Definition SUPPORTED_FORMATS : list string :=
  [ "PNG"; "JPEG"; "JPG"; "GIF"; "WEBP"; "BMP"; "TIFF" ].

(** [ImageHandler.MAX_SIZE_MB] *)
Definition MAX_SIZE_MB : Z := 20.

(** What [Image.open] yields: [img.format] (which may be [None]) and
    [img.size]. *)
Record Image : Type := {
  format : option string;
  size : Z * Z
}.

(** What the file system and PIL answer about one path:
    [Path.exists()], [Path.is_file()], [Path.stat().st_size] in bytes,
    and [Image.open], which reads the header of the file and either
    yields an image or raises (the text of the exception). *)
Record PathInfo : Type := {
  path_exists : bool;
  path_is_file : bool;
  st_size : Z;
  image_open : result Image string
}.

(** The file system: every path, whatever its name, has its answers. *)
Definition FileSystem : Type := string -> PathInfo.

(** [ImageHandlerError], one constructor per [raise] of
    [validate_image] with the values its message prints. *)
Inductive ImageHandlerError : Type :=
| ImageFileNotFound (image_path : string)
| PathIsNotAFile (image_path : string)
| ImageFileTooLarge (file_size_bytes : Z) (max_size_mb : Z)
| UnsupportedImageFormat (img_format : option string)
| FailedToOpenImage (cause : string).

(** [img.format not in SUPPORTED_FORMATS] *)
Definition unsupported (img_format : option string) : bool :=
  match img_format with
  | Some f => negb (PyStr.mem f SUPPORTED_FORMATS)
  | None => true
  end.

(** [file_size_mb > MAX_SIZE_MB] with
    [file_size_mb = st_size / (1024 * 1024)].  The quotient is a float;
    a division by a power of two is exact below 2^53 bytes and
    monotone above, so the test compares as the integers do. *)
Definition too_large (st_size : Z) : bool :=
  (MAX_SIZE_MB * (1024 * 1024) <? st_size)%Z.

(** [ImageHandler.validate_image(image_path)].  Inside the [try],
    the [ImageHandlerError] of the format test is raised again as it
    is, and any other exception becomes [FailedToOpenImage]. *)
Definition validate_image (fs : FileSystem) (image_path : string)
  : result bool ImageHandlerError :=
  let info := fs image_path in
  if negb (path_exists info) then Raises (ImageFileNotFound image_path)
  else if negb (path_is_file info) then Raises (PathIsNotAFile image_path)
  else if too_large (st_size info)
  then Raises (ImageFileTooLarge (st_size info) MAX_SIZE_MB)
  else
    match image_open info with
    | Returns img =>
        if unsupported (format img)
        then Raises (UnsupportedImageFormat (format img))
        else Returns true
    | Raises cause => Raises (FailedToOpenImage cause)
    end.

End ImageHandler.

(* ===================================================================== *)
(** ** core/vision_client.py *)
(* ===================================================================== *)

Module VisionClient.

(** [class ModelProvider(str, Enum)] *)
Inductive ModelProvider : Type := CLAUDE | OPENAI | NONE.

Definition provider_eqb (a b : ModelProvider) : bool :=
  match a, b with
  | CLAUDE, CLAUDE | OPENAI, OPENAI | NONE, NONE => true
  | _, _ => false
  end.

(** The classes of the exceptions that reach [analyze_image]:
    [VisionClientError], its subclass [NoAPIKeyError], and any other
    subclass of [Exception] (what the SDKs, PIL and the file system
    raise). *)
Inductive ExcClass : Type :=
| VisionClientError | NoAPIKeyError | OtherException.

(** An exception: its class and [str(e)]. *)
Record Exc : Type := {
  exc_class : ExcClass;
  exc_str : string
}.

(** The fields of a constructed [VisionClient] that [analyze_image]
    reads; a client object is present when its key was. *)
Record Client : Type := {
  primary_model : ModelProvider;
  fallback_model : ModelProvider;
  anthropic_client : bool;
  openai_client : bool
}.

(** The providers, outside the program: what the request number [n]
    of a run (counted from 0), sent to a provider with a prompt and an
    image, comes back with: the text, or an exception.  The answer
    is a text: a completion without content is outside the model. *)
Definition Providers : Type :=
  ModelProvider -> string -> string -> nat -> result string Exc.

(** Computations that send requests: the state is the number of
    requests sent so far; the result is a value or a raised
    exception. *)
Definition M (A : Type) : Type := nat -> result A Exc * nat.

Definition ret {A} (a : A) : M A := fun n => (Returns a, n).
Definition raise {A} (e : Exc) : M A := fun n => (Raises e, n).
Definition bind {A B} (m : M A) (k : A -> M B) : M B :=
  fun n => match m n with
           | (Returns a, n') => k a n'
           | (Raises e, n') => (Raises e, n')
           end.
(** [try: m except Exception as e: handler(e)] *)
Definition try_except {A} (m : M A) (handler : Exc -> M A) : M A :=
  fun n => match m n with
           | (Returns a, n') => (Returns a, n')
           | (Raises e, n') => handler e n'
           end.
(** One request to a provider. *)
Definition request (world : Providers) (p : ModelProvider)
    (prompt image_path : string) : M string :=
  fun n => (world p prompt image_path n, S n).

Notation "x <- m ;; k" := (bind m (fun x => k))
  (at level 61, m at next level, right associativity).

Definition vision_client_error (message : string) : Exc :=
  {| exc_class := VisionClientError; exc_str := message |}.

(** [VisionClient._call_claude(prompt, image_path)]: encoding the
    image and the SDK call are the request. *)
Definition _call_claude (self : Client) (world : Providers)
    (prompt image_path : string) : M string :=
  if negb (anthropic_client self)
  then raise {| exc_class := NoAPIKeyError;
                exc_str := "Anthropic API key not configured" |}
  else request world CLAUDE prompt image_path.

(** [VisionClient._call_openai(prompt, image_path)] *)
Definition _call_openai (self : Client) (world : Providers)
    (prompt image_path : string) : M string :=
  if negb (openai_client self)
  then raise {| exc_class := NoAPIKeyError;
                exc_str := "OpenAI API key not configured" |}
  else request world OPENAI prompt image_path.

(** The [if model == CLAUDE: return ... elif model == OPENAI:
    return ...] of both attempts: [None] when neither branch is taken
    and control falls through. *)
Definition call_model (self : Client) (world : Providers)
    (model : ModelProvider) (prompt image_path : string)
  : M (option string) :=
  match model with
  | CLAUDE => text <- _call_claude self world prompt image_path ;;
              ret (Some text)
  | OPENAI => text <- _call_openai self world prompt image_path ;;
              ret (Some text)
  | NONE => ret None
  end.

Definition fallback_enabled (self : Client) (use_fallback : bool) : bool :=
  use_fallback && negb (provider_eqb (fallback_model self) NONE).

(** [VisionClient.analyze_image(image_path, prompt, use_fallback)] *)
Definition analyze_image (self : Client) (world : Providers)
    (image_path prompt : string) (use_fallback : bool) : M string :=
  returned <-
    try_except
      (call_model self world (primary_model self) prompt image_path)
      (fun e =>
         if negb use_fallback
            || provider_eqb (fallback_model self) NONE
         then raise (vision_client_error
                ("Primary model failed and no fallback configured: "
                 ++ exc_str e))
         else ret None) ;;
  match returned with
  | Some text => ret text
  | None =>
      returned <-
        (if fallback_enabled self use_fallback then
           try_except
             (call_model self world (fallback_model self)
                         prompt image_path)
             (fun e =>
                raise (vision_client_error
                  ("Both primary and fallback models failed. Last error: "
                   ++ exc_str e)))
         else ret None) ;;
      match returned with
      | Some text => ret text
      | None =>
          raise (vision_client_error
                   "No models available or all attempts failed")
      end
  end.

(** [os.getenv]: the environment of the process. *)
Definition Env : Type := string -> option string.

(** [os.getenv(name, default)] *)
Definition getenv_default (env : Env) (name default : string) : string :=
  match env name with
  | Some v => v
  | None => default
  end.

(** [a or b] on two optional strings, [None] and the empty string being
    false. *)
Definition or_else (a b : option string) : option string :=
  match a with
  | Some s => if PyStr.is_empty s then b else a
  | None => b
  end.

(** [if key:] on an optional string. *)
Definition has_key (key : option string) : bool :=
  match key with
  | Some s => negb (PyStr.is_empty s)
  | None => false
  end.

(** [ModelProvider(text)]: the member of that value, or the
    [ValueError] of [Enum], whose message is
    ["%r is not a valid %s" % (value, cls.__qualname__)]. *)
Definition ModelProvider_of (text : string) : result ModelProvider Exc :=
  if String.eqb text "claude" then Returns CLAUDE
  else if String.eqb text "openai" then Returns OPENAI
  else if String.eqb text "none" then Returns NONE
  else Raises {| exc_class := OtherException;
                 exc_str := PyStr.repr text ++ " is not a valid ModelProvider" |}.

(** Everything [VisionClient.__init__] stores. *)
Record Constructed : Type := {
  client : Client;
  anthropic_api_key : option string;
  openai_api_key : option string;
  claude_model : string;
  openai_model : string
}.

(** [VisionClient.__init__(primary_model, fallback_model,
    anthropic_api_key, openai_api_key, claude_model, openai_model)];
    the SDK client objects are built when their key is present. *)
Definition __init__ (env : Env)
    (primary_model fallback_model : option ModelProvider)
    (anthropic_api_key openai_api_key : option string)
    (claude_model openai_model : string) : result Constructed Exc :=
  let anthropic_api_key := or_else anthropic_api_key (env "ANTHROPIC_API_KEY") in
  let openai_api_key := or_else openai_api_key (env "OPENAI_API_KEY") in
  match
    match primary_model with
    | Some p => Returns p
    | None => ModelProvider_of (getenv_default env "PRIMARY_MODEL" "claude")
    end
  with
  | Raises e => Raises e
  | Returns primary =>
      let fallback_env := getenv_default env "FALLBACK_MODEL" "openai" in
      match
        match fallback_model with
        | Some f => Returns f
        | None =>
            if negb (String.eqb fallback_env "none")
            then ModelProvider_of fallback_env
            else Returns NONE
        end
      with
      | Raises e => Raises e
      | Returns fallback =>
          let claude_model := getenv_default env "CLAUDE_MODEL" claude_model in
          let openai_model := getenv_default env "OPENAI_MODEL" openai_model in
          let anthropic_client := has_key anthropic_api_key in
          let openai_client := has_key openai_api_key in
          if negb anthropic_client && negb openai_client
          then Raises
                 {| exc_class := NoAPIKeyError;
                    exc_str :=
                      "No API keys provided. Set ANTHROPIC_API_KEY or OPENAI_API_KEY "
                      ++ "environment variable, or pass keys to the constructor." |}
          else Returns
                 {| client :=
                      {| primary_model := primary;
                         fallback_model := fallback;
                         anthropic_client := anthropic_client;
                         openai_client := openai_client |};
                    anthropic_api_key := anthropic_api_key;
                    openai_api_key := openai_api_key;
                    claude_model := claude_model;
                    openai_model := openai_model |}
      end
  end.

(** The defaults of the two model arguments of [__init__]. *)
Definition DEFAULT_CLAUDE_MODEL : string := "claude-sonnet-4-5-20250929".
Definition DEFAULT_OPENAI_MODEL : string := "gpt-4-vision-preview".

(** [media_type_map.get(format_lower, "image/png")] of [_encode_image]. *)
Definition media_type_map_get (format_lower : string) : string :=
  if String.eqb format_lower "jpeg" then "image/jpeg"
  else if String.eqb format_lower "jpg" then "image/jpeg"
  else if String.eqb format_lower "png" then "image/png"
  else if String.eqb format_lower "gif" then "image/gif"
  else if String.eqb format_lower "webp" then "image/webp"
  else "image/png".

(** [VisionClient._encode_image(image_path)]: the pair
    [(image_data, media_type)].  [b64_of_file] gives, for a path, what
    [base64.b64encode(f.read()).decode("utf-8")] yields on that file. *)
Definition _encode_image (fs : ImageHandler.FileSystem)
    (b64_of_file : string -> string) (image_path : string)
  : result (string * string) Exc :=
  let info := fs image_path in
  if negb (ImageHandler.path_exists info)
  then Raises {| exc_class := OtherException;
                 exc_str := "Image file not found: " ++ image_path |}
  else
    match ImageHandler.image_open info with
    | Raises cause =>
        Raises {| exc_class := OtherException; exc_str := cause |}
    | Returns img =>
        let format_lower :=
          match ImageHandler.format img with
          | Some f => if PyStr.is_empty f then "png" else PyStr.lower f
          | None => "png"
          end in
        let media_type := media_type_map_get format_lower in
        Returns (b64_of_file image_path, media_type)
    end.

End VisionClient.

(* ===================================================================== *)
(** ** core/converter.py *)
(* ===================================================================== *)

Module Converter.
Import PyStr LaTeXFormatter.

(** [class ConverterResult] *)
Record ConverterResult : Type := {
  latex_code : string;
  content_type : ContentType;
  raw_response : string;
  is_valid : bool;
  validation_error : option string
}.

(** What [convert] can raise: a [ConversionError], one constructor per
    [raise ... from e] with its cause, or an exception of the gateway
    that [except VisionClientError] does not catch. *)
Inductive ConvertExc : Type :=
| ImageValidationFailed (cause : ImageHandler.ImageHandlerError)
| VisionModelFailed (cause : VisionClient.Exc)
| Uncaught (e : VisionClient.Exc).

(** [isinstance(e, VisionClientError)] *)
Definition is_vision_client_error (e : VisionClient.Exc) : bool :=
  match VisionClient.exc_class e with
  | VisionClient.VisionClientError | VisionClient.NoAPIKeyError => true
  | VisionClient.OtherException => false
  end.

(** [PROMPTS[ContentType.EQUATION]] *)
Definition PROMPT_EQUATION : string :=
  join_nl
    [ "Analyze this image and convert any mathematical equations or formulas to LaTeX code.";
      "";
      "Instructions:";
      "- Extract all visible equations and mathematical notation";
      "- Use proper LaTeX math syntax (e.g., \frac, \int, \sum, etc.)";
      "- For multiple equations, use appropriate environments (align, gather, etc.)";
      "- Include any subscripts, superscripts, and special symbols";
      "- Return ONLY the LaTeX code, no explanations";
      "";
      "If the image contains multiple equations, separate them appropriately." ].

(** [PROMPTS[ContentType.TABLE]] *)
Definition PROMPT_TABLE : string :=
  join_nl
    [ "Analyze this image and convert any tables to LaTeX code.";
      "";
      "Instructions:";
      "- Extract the table structure with all rows and columns";
      "- Use the tabular environment";
      "- Use \hline for horizontal lines and & for column separators";
      "- Preserve alignment (l, c, r) based on the table layout";
      "- Include any headers or special formatting";
      "- Return ONLY the LaTeX code, no explanations";
      "";
      "If the table has headers, make them bold using \textbf{}." ].

(** [PROMPTS[ContentType.DIAGRAM]] *)
Definition PROMPT_DIAGRAM : string :=
  join_nl
    [ "Analyze this image and describe how to recreate this diagram in LaTeX.";
      "";
      "Instructions:";
      "- If it's a simple geometric diagram, provide TikZ code";
      "- If it's a complex image, provide a figure environment with description";
      "- Include any labels, annotations, or text visible in the diagram";
      "- Return ONLY the LaTeX code, no explanations";
      "";
      "Prefer TikZ for simple diagrams (shapes, arrows, nodes). For complex diagrams, provide a figure environment with a detailed caption." ].

(** [PROMPTS[ContentType.DOCUMENT]] *)
Definition PROMPT_DOCUMENT : string :=
  join_nl
    [ "Analyze this image and convert the entire document content to LaTeX.";
      "";
      "Instructions:";
      "- Extract all text, maintaining structure (sections, paragraphs, etc.)";
      "- Convert any equations to LaTeX math mode";
      "- Convert any tables to LaTeX tables";
      "- Identify document structure (title, sections, subsections)";
      "- Return ONLY the LaTeX code, no explanations";
      "";
      "Maintain the original document hierarchy and formatting as closely as possible." ].

(** [ImageToLaTeXConverter.GENERAL_PROMPT] *)
Definition GENERAL_PROMPT : string :=
  join_nl
    [ "Analyze this image containing scientific or mathematical content and convert it to LaTeX code.";
      "";
      "Instructions:";
      "- Identify the type of content (equation, table, diagram, or text)";
      "- Convert the content to proper LaTeX syntax";
      "- Use appropriate LaTeX environments and commands";
      "- Be precise with mathematical notation, table structure, or text formatting";
      "- Return ONLY the LaTeX code without any explanations or markdown formatting";
      "";
      "Provide clean, compilable LaTeX code." ].

(** [self.PROMPTS.get(content_type, self.GENERAL_PROMPT)] *)
Definition PROMPTS_get (content_type : ContentType) : string :=
  match content_type with
  | EQUATION => PROMPT_EQUATION
  | TABLE => PROMPT_TABLE
  | DIAGRAM => PROMPT_DIAGRAM
  | DOCUMENT => PROMPT_DOCUMENT
  | UNKNOWN => GENERAL_PROMPT
  end.

(** The fields of an [ImageToLaTeXConverter]. *)
Record ImageToLaTeXConverter : Type := {
  vision_client : VisionClient.Client;
  validate_output : bool
}.

(** The prompt [convert] selects. *)
Definition select_prompt (content_type : option ContentType) : string :=
  match content_type with
  | Some UNKNOWN | None => GENERAL_PROMPT
  | Some c => PROMPTS_get c
  end.

(** [ImageToLaTeXConverter.convert(image_path, content_type,
    auto_detect)], in a world made of the file system and the
    providers. *)
Definition convert (self : ImageToLaTeXConverter)
    (fs : ImageHandler.FileSystem) (world : VisionClient.Providers)
    (image_path : string) (content_type : option ContentType)
    (auto_detect : bool) : result ConverterResult ConvertExc :=
  match ImageHandler.validate_image fs image_path with
  | Raises e => Raises (ImageValidationFailed e)
  | Returns _ =>
      let prompt := select_prompt content_type in
      match VisionClient.analyze_image (vision_client self) world
              image_path prompt true 0 with
      | (Raises e, _) =>
          if is_vision_client_error e
          then Raises (VisionModelFailed e) else Raises (Uncaught e)
      | (Returns raw_response, _) =>
          let latex_code := extract_latex_code raw_response in
          let detected_type :=
            match content_type with
            | Some c => if auto_detect
                        then detect_content_type latex_code else c
            | None => detect_content_type latex_code
            end in
          let '(is_valid, validation_error) :=
            if validate_output self then validate_latex latex_code
            else (true, None) in
          Returns {| latex_code := latex_code;
                     content_type := detected_type;
                     raw_response := raw_response;
                     is_valid := is_valid;
                     validation_error := validation_error |}
      end
  end.

(** [ImageToLaTeXConverter.convert_equation(image_path, inline)] *)
Definition convert_equation (self : ImageToLaTeXConverter)
    (fs : ImageHandler.FileSystem) (world : VisionClient.Providers)
    (image_path : string) (inline : bool) : result string ConvertExc :=
  match convert self fs world image_path (Some EQUATION) true with
  | Returns r => Returns (wrap_equation (latex_code r) inline)
  | Raises e => Raises e
  end.

(** [ImageToLaTeXConverter.convert_table(image_path, caption)] *)
Definition convert_table (self : ImageToLaTeXConverter)
    (fs : ImageHandler.FileSystem) (world : VisionClient.Providers)
    (image_path : string) (caption : option string)
  : result string ConvertExc :=
  match convert self fs world image_path (Some TABLE) true with
  | Returns r => Returns (wrap_table (latex_code r) caption)
  | Raises e => Raises e
  end.

(** [ImageToLaTeXConverter.convert_to_document(image_path, title,
    author)] *)
Definition convert_to_document (self : ImageToLaTeXConverter)
    (fs : ImageHandler.FileSystem) (world : VisionClient.Providers)
    (image_path : string) (title author : option string)
  : result string ConvertExc :=
  match convert self fs world image_path (Some DOCUMENT) true with
  | Returns r =>
      Returns (create_full_document (latex_code r) title author "article")
  | Raises e => Raises e
  end.

End Converter.

(* ===================================================================== *)
(** ** api/models.py and api/routes.py *)
(* ===================================================================== *)

Module Api.

(** [class ContentTypeEnum(str, Enum)] *)
Inductive ContentTypeEnum : Type :=
| EQUATION | TABLE | DIAGRAM | DOCUMENT | AUTO.

(** [class ConversionResponse(BaseModel)] *)
Record ConversionResponse : Type := {
  latex_code : string;
  content_type : string;
  is_valid : bool;
  validation_error : option string
}.

(** The fields of the [UploadFile] that [convert_image] reads. *)
Record UploadFile : Type := {
  file_content_type : option string;
  filename : option string
}.

(** The [detail] of an [HTTPException]: a text, [str(e)] of a
    [ConversionError] or of an [ImageHandlerError], or
    [f"Unexpected error: {e}"]. *)
Inductive Detail : Type :=
| Text (text : string)
| ConversionErrorText (e : Converter.ConvertExc)
| ImageHandlerErrorText (e : ImageHandler.ImageHandlerError)
| UnexpectedError (e : VisionClient.Exc).

(** [HTTPException(status_code, detail)] *)
Record HTTPException : Type := {
  status_code : Z;
  detail : Detail
}.

(** What the [try] block of [convert_image] can raise. *)
Inductive Raised : Type :=
| RaisedImageHandlerError (e : ImageHandler.ImageHandlerError)
| RaisedConversionError (e : Converter.ConvertExc)
| RaisedException (e : VisionClient.Exc).

(** An exception leaving a method of the converter, by its class. *)
Definition raised_of (e : Converter.ConvertExc) : Raised :=
  match e with
  | Converter.Uncaught e' => RaisedException e'
  | _ => RaisedConversionError e
  end.

(** [content_type_map[content_type]] *)
Definition content_type_map (content_type : ContentTypeEnum)
  : option LaTeXFormatter.ContentType :=
  match content_type with
  | EQUATION => Some LaTeXFormatter.EQUATION
  | TABLE => Some LaTeXFormatter.TABLE
  | DIAGRAM => Some LaTeXFormatter.DIAGRAM
  | DOCUMENT => Some LaTeXFormatter.DOCUMENT
  | AUTO => None
  end.

(** The [try] block of [convert_image].  [saved] is the outcome of
    writing the upload to a temporary file: its path, or the exception
    raised on the way; [fs] is the file system after it. *)
Definition convert_image_try (converter : Converter.ImageToLaTeXConverter)
    (fs : ImageHandler.FileSystem) (world : VisionClient.Providers)
    (saved : result string VisionClient.Exc)
    (content_type : ContentTypeEnum) (inline : bool)
    (caption title author : option string)
  : result ConversionResponse Raised :=
  match saved with
  | Raises e => Raises (RaisedException e)
  | Returns temp_file_path =>
      match content_type with
      | EQUATION =>
          match Converter.convert_equation converter fs world
                  temp_file_path inline with
          | Raises e => Raises (raised_of e)
          | Returns code =>
              Returns {| latex_code := code; content_type := "equation";
                         is_valid := true; validation_error := None |}
          end
      | TABLE =>
          match Converter.convert_table converter fs world
                  temp_file_path caption with
          | Raises e => Raises (raised_of e)
          | Returns code =>
              Returns {| latex_code := code; content_type := "table";
                         is_valid := true; validation_error := None |}
          end
      | DOCUMENT =>
          match Converter.convert_to_document converter fs world
                  temp_file_path title author with
          | Raises e => Raises (raised_of e)
          | Returns code =>
              Returns {| latex_code := code; content_type := "document";
                         is_valid := true; validation_error := None |}
          end
      | _ =>
          match Converter.convert converter fs world temp_file_path
                  (content_type_map content_type) true with
          | Raises e => Raises (raised_of e)
          | Returns r =>
              Returns {| latex_code := Converter.latex_code r;
                         content_type :=
                           LaTeXFormatter.value (Converter.content_type r);
                         is_valid := Converter.is_valid r;
                         validation_error := Converter.validation_error r |}
          end
      end
  end.

(** The three [except] clauses of [convert_image], in their order. *)
Definition convert_image_except (e : Raised) : HTTPException :=
  match e with
  | RaisedImageHandlerError e' =>
      {| status_code := 400; detail := ImageHandlerErrorText e' |}
  | RaisedConversionError e' =>
      {| status_code := 500; detail := ConversionErrorText e' |}
  | RaisedException e' =>
      {| status_code := 500; detail := UnexpectedError e' |}
  end.

(** [convert_image(file, content_type, inline, caption, title, author)]
    of the route [POST /convert]; [converter] is the global of the
    module, [None] when the start-up found no key.  This is the body
    of the handler: FastAPI runs it once it has parsed the form, and
    answers by itself, without running it, a request whose form it
    refuses (no file, a [content_type] outside the enumeration). *)
Definition convert_image
    (converter : option Converter.ImageToLaTeXConverter)
    (fs : ImageHandler.FileSystem) (world : VisionClient.Providers)
    (file : UploadFile) (saved : result string VisionClient.Exc)
    (content_type : ContentTypeEnum) (inline : bool)
    (caption title author : option string)
  : result ConversionResponse HTTPException :=
  match converter with
  | None =>
      Raises {| status_code := 503;
                detail := Text "API not initialized. Check API keys configuration." |}
  | Some converter =>
      if negb (LaTeXFormatter.truthy (file_content_type file))
         || negb (PyStr.startswith
                    (LaTeXFormatter.text_of (file_content_type file))
                    "image/")
      then Raises {| status_code := 400;
                     detail :=
                       Text ("Invalid file type: "
                             ++ LaTeXFormatter.text_of (file_content_type file)
                             ++ ". Must be an image.") |}
      else
        match convert_image_try converter fs world saved content_type
                inline caption title author with
        | Returns response => Returns response
        | Raises e => Raises (convert_image_except e)
        end
  end.

End Api.

(* ===================================================================== *)
(** ** cli/commands.py *)
(* ===================================================================== *)

Module Cli.

(** A line that the command writes to the standard error, with
    [click.echo(..., err=True)] or [traceback.print_exc()]: a text, or
    a line whose text prints a path or an exception of the
    converter. *)
Inductive Line : Type :=
| Plain (text : string)
| SavedTo (output_path : string)
| ConversionErrorLine (e : Converter.ConvertExc)
| Traceback.

(** What a run of the function leaves: the exit status, what
    [click.echo] sent to the standard output, the lines the function
    itself wrote to the standard error, and the file written with its
    text.  The records that the handler of [logging.basicConfig] writes
    to the standard error for the loggers of the package are not part
    of [echoed_err]. *)
Record Outcome : Type := {
  exit_code : Z;
  stdout : list string;
  echoed_err : list Line;
  written : option (string * string)
}.

(** The three [except] clauses of [convert], each ending in
    [sys.exit(1)]. *)
Definition exit_NoAPIKeyError (e : VisionClient.Exc) (said : list Line)
  : Outcome :=
  {| exit_code := 1; stdout := [];
     echoed_err :=
       (said ++
        [ Plain ("Error: " ++ VisionClient.exc_str e);
          Plain (PyStr.nl ++ "Please set ANTHROPIC_API_KEY or OPENAI_API_KEY environment variable.");
          Plain "See .env.example for configuration options." ])%list;
     written := None |}.

Definition exit_ConversionError (e : Converter.ConvertExc) (said : list Line)
  : Outcome :=
  {| exit_code := 1; stdout := [];
     echoed_err := (said ++ [ ConversionErrorLine e ])%list;
     written := None |}.

Definition exit_Exception (e : VisionClient.Exc) (verbose : bool)
    (said : list Line) : Outcome :=
  {| exit_code := 1; stdout := [];
     echoed_err :=
       (said ++ Plain ("Unexpected error: " ++ VisionClient.exc_str e)
             :: (if verbose then [ Traceback ] else []))%list;
     written := None |}.

(** The exception of the converter, sent to the clause of its class. *)
Definition exit_of (e : Converter.ConvertExc) (verbose : bool)
    (said : list Line) : Outcome :=
  match e with
  | Converter.Uncaught e' => exit_Exception e' verbose said
  | _ => exit_ConversionError e said
  end.

(** The end of the [try] block: the code goes to the file when
    [--output] is given, to the standard output otherwise.
    [write_text_raises] is the exception [Path.write_text] raises, if
    it does. *)
Definition emit (output : option string)
    (write_text_raises : option VisionClient.Exc) (verbose : bool)
    (said : list Line) (latex_code : string) : Outcome :=
  if LaTeXFormatter.truthy output then
    match write_text_raises with
    | Some e => exit_Exception e verbose said
    | None =>
        {| exit_code := 0; stdout := [];
           echoed_err := (said ++ [ SavedTo (LaTeXFormatter.text_of output) ])%list;
           written := Some (LaTeXFormatter.text_of output, latex_code) |}
    end
  else
    {| exit_code := 0; stdout := [ latex_code ]; echoed_err := said;
       written := None |}.

(** [content_type_map[type]]; [type] is one of the five choices. *)
Definition content_type_map (type : string)
  : option LaTeXFormatter.ContentType :=
  if String.eqb type "equation" then Some LaTeXFormatter.EQUATION
  else if String.eqb type "table" then Some LaTeXFormatter.TABLE
  else if String.eqb type "diagram" then Some LaTeXFormatter.DIAGRAM
  else if String.eqb type "document" then Some LaTeXFormatter.DOCUMENT
  else None.

(** The function [convert(image_path, output, type, inline, caption,
    title, author, verbose)] of the command; the converter is built
    from the environment with the defaults of its constructors.  This
    is the body that click calls once it has parsed the command line:
    click ends the run by itself, without calling it, when
    [IMAGE_PATH] does not exist or [--type] is none of the five
    choices. *)
Definition convert (env : VisionClient.Env) (fs : ImageHandler.FileSystem)
    (world : VisionClient.Providers)
    (write_text_raises : option VisionClient.Exc)
    (image_path : string) (output : option string) (type : string)
    (inline : bool) (caption title author : option string) (verbose : bool)
  : Outcome :=
  match VisionClient.__init__ env None None None None
          VisionClient.DEFAULT_CLAUDE_MODEL VisionClient.DEFAULT_OPENAI_MODEL
  with
  | Raises e =>
      match VisionClient.exc_class e with
      | VisionClient.NoAPIKeyError => exit_NoAPIKeyError e []
      | _ => exit_Exception e verbose []
      end
  | Returns constructed =>
      let converter :=
        {| Converter.vision_client := VisionClient.client constructed;
           Converter.validate_output := true |} in
      if String.eqb type "equation" then
        match Converter.convert_equation converter fs world image_path
                inline with
        | Raises e => exit_of e verbose []
        | Returns latex_code =>
            emit output write_text_raises verbose [] latex_code
        end
      else if String.eqb type "table" then
        match Converter.convert_table converter fs world image_path
                caption with
        | Raises e => exit_of e verbose []
        | Returns latex_code =>
            emit output write_text_raises verbose [] latex_code
        end
      else if String.eqb type "document" then
        match Converter.convert_to_document converter fs world image_path
                title author with
        | Raises e => exit_of e verbose []
        | Returns latex_code =>
            emit output write_text_raises verbose [] latex_code
        end
      else
        match Converter.convert converter fs world image_path
                (content_type_map type) true with
        | Raises e => exit_of e verbose []
        | Returns result =>
            let said :=
              if verbose then
                (Plain ("Detected content type: "
                        ++ LaTeXFormatter.value
                             (Converter.content_type result))
                 :: (if negb (Converter.is_valid result)
                     then [ Plain ("Warning: "
                                   ++ LaTeXFormatter.text_of
                                        (Converter.validation_error result)) ]
                     else []))%list
              else [] in
            emit output write_text_raises verbose said
              (Converter.latex_code result)
        end
  end.

End Cli.

(* ===================================================================== *)
(** ** Vocabulary of the statements *)
(* ===================================================================== *)

Module Vocabulary.
Import PyStr LaTeXFormatter.

(** The markers of each rank of [detect_content_type], tested on the
    lowered text as the function tests them. *)
Definition document_marked (s : string) : bool :=
  contains "\documentclass" (lower s) || contains "\maketitle" (lower s).
Definition table_marked (s : string) : bool :=
  contains "\begin{table" (lower s) || contains "\begin{tabular" (lower s).
Definition diagram_marked (s : string) : bool :=
  any_in [ "\begin{tikz"; "\begin{figure"; "\includegraphics" ] (lower s).
Definition equation_marked (s : string) : bool :=
  any_in [ "\begin{equation"; "\begin{align"; "\["; "$";
           "\frac"; "\int"; "\sum"; "\alpha" ] (lower s).

(** The two delimiter tests of [validate_latex]. *)
Definition braces_balanced (s : string) : bool :=
  (count_char "{" s =? count_char "}" s)%nat.
Definition brackets_balanced (s : string) : bool :=
  (count_char "[" s =? count_char "]" s)%nat.

(** Every character of [s] is a [\w] character. *)
Fixpoint all_word (s : string) : bool :=
  match s with
  | EmptyString => true
  | String c s' => is_word c && all_word s'
  end.

(** What is left of [s] after the first occurrence of [needle]. *)
Fixpoint after (needle s : string) : option string :=
  if String.prefix needle s then Some (drop (String.length needle) s)
  else match s with
       | EmptyString => None
       | String _ s' => after needle s'
       end.

(** The pieces occur in [s] one after the other, without overlap. *)
Fixpoint in_order (pieces : list string) (s : string) : bool :=
  match pieces with
  | [] => true
  | piece :: rest =>
      match after piece s with
      | Some s' => in_order rest s'
      | None => false
      end
  end.

(** What [create_full_document] writes before the title block and after
    the content. *)
Definition document_head (document_class : string) : string :=
  "\documentclass{" ++ document_class ++ "}" ++ nl ++ nl
  ++ "\usepackage{amsmath}" ++ nl
  ++ "\usepackage{amssymb}" ++ nl
  ++ "\usepackage{amsfonts}" ++ nl
  ++ "\usepackage{graphicx}" ++ nl
  ++ "\usepackage{booktabs}" ++ nl
  ++ "\usepackage{tikz}" ++ nl
  ++ nl ++ "\begin{document}" ++ nl ++ nl.
Definition document_foot : string := nl ++ nl ++ "\end{document}" ++ nl.

(** A converter whose two providers are configured, Claude first. *)
Definition demo_client : VisionClient.Client :=
  {| VisionClient.primary_model := VisionClient.CLAUDE;
     VisionClient.fallback_model := VisionClient.OPENAI;
     VisionClient.anthropic_client := true;
     VisionClient.openai_client := true |}.

Definition demo_converter : Converter.ImageToLaTeXConverter :=
  {| Converter.vision_client := demo_client;
     Converter.validate_output := true |}.

(** A file system in which every path is a file of [st_size] bytes whose
    header says [img_format]. *)
Definition fs_of (size_bytes : Z) (img_format : option string)
  : ImageHandler.FileSystem :=
  fun _ =>
    {| ImageHandler.path_exists := true;
       ImageHandler.path_is_file := true;
       ImageHandler.st_size := size_bytes;
       ImageHandler.image_open :=
         Returns {| ImageHandler.format := img_format;
                    ImageHandler.size := (640, 480)%Z |} |}.

(** Providers that answer every request with the same text. *)
Definition answering (text : string) : VisionClient.Providers :=
  fun _ _ _ _ => Returns text.


(** The provider has its SDK client; [NONE] is never called. *)
Definition configured (self : VisionClient.Client)
    (provider : VisionClient.ModelProvider) : bool :=
  match provider with
  | VisionClient.CLAUDE => VisionClient.anthropic_client self
  | VisionClient.OPENAI => VisionClient.openai_client self
  | VisionClient.NONE => false
  end.

(** The providers [analyze_image] may turn to: the primary one, and the
    fallback one when the fallback is allowed. *)
Definition consulted (self : VisionClient.Client) (use_fallback : bool)
    (provider : VisionClient.ModelProvider) : bool :=
  VisionClient.provider_eqb provider (VisionClient.primary_model self)
  || (use_fallback
      && VisionClient.provider_eqb provider (VisionClient.fallback_model self)).

(** Providers of which Claude fails every request with [claude_says]
    and OpenAI answers [text]. *)
Definition claude_down (claude_says text : string) : VisionClient.Providers :=
  fun provider _ _ _ =>
    match provider with
    | VisionClient.CLAUDE =>
        Raises {| VisionClient.exc_class := VisionClient.OtherException;
                  VisionClient.exc_str := claude_says |}
    | _ => Returns text
    end.

(** A client built with the OpenAI key only, the settings being the
    default ones. *)
Definition openai_only_client : VisionClient.Client :=
  {| VisionClient.primary_model := VisionClient.CLAUDE;
     VisionClient.fallback_model := VisionClient.OPENAI;
     VisionClient.anthropic_client := false;
     VisionClient.openai_client := true |}.

(** An environment that sets the given variables and no other. *)
Fixpoint env_of (vars : list (string * string)) : VisionClient.Env :=
  fun name =>
    match vars with
    | [] => None
    | (k, v) :: rest => if String.eqb name k then Some v else env_of rest name
    end.

(** A client with both keys whose two provider settings are [NONE]. *)
Definition no_provider_client : VisionClient.Client :=
  {| VisionClient.primary_model := VisionClient.NONE;
     VisionClient.fallback_model := VisionClient.NONE;
     VisionClient.anthropic_client := true;
     VisionClient.openai_client := true |}.

(** The test of [extract_latex_code] on a line before the start: the
    lowered, trimmed line holds one of the explanatory phrases. *)
Definition is_explanatory (line : string) : bool :=
  existsb (fun skip => contains skip (strip (lower line))) skip_phrases.

(** The line starts the capture: it is not explanatory and begins, once
    trimmed, with a backslash or a dollar. *)
Definition triggers (line : string) : bool :=
  negb (is_explanatory line) && is_latex_start line.

(** The characters [repr] leaves as they are between single quotes:
    printable, and neither the single quote nor the backslash. *)
Definition plain_char (c : ascii) : bool :=
  isprintable c && negb (Ascii.eqb c squote) && negb (Ascii.eqb c "\").

Fixpoint plain (s : string) : bool :=
  match s with
  | EmptyString => true
  | String c s' => plain_char c && plain s'
  end.

(** The five values [click.Choice] lets through as [--type]. *)
Definition type_choices : list string :=
  [ "equation"; "table"; "diagram"; "document"; "auto" ].

(** What the command makes of the code of a conversion, by [--type]:
    the output of the wrapper of that type, or the code itself. *)
Definition shaped (type : string) (inline : bool)
    (caption title author : option string) (latex_code : string) : string :=
  if String.eqb type "equation" then wrap_equation latex_code inline
  else if String.eqb type "table" then wrap_table latex_code caption
  else if String.eqb type "document"
  then create_full_document latex_code title author "article"
  else latex_code.

(** The number of backquotes at the head of [s]. *)
Fixpoint run (s : string) : nat :=
  match s with
  | EmptyString => 0
  | String c s' => if Ascii.eqb c "`" then S (run s') else 0
  end.

End Vocabulary.

(* ===================================================================== *)
(** * Properties *)
(* ===================================================================== *)

Import PyStr.

(** ** Strings: append, prefix, substring *)

Section StringFacts.

Lemma append_nil_r (s : string) : s ++ "" = s.
Proof. induction s as [| c s IH]; simpl; [ | rewrite IH ]; reflexivity. Qed.

Lemma append_assoc (a b c : string) : (a ++ b) ++ c = a ++ (b ++ c).
Proof. induction a as [| x a IH]; simpl; [ | rewrite IH ]; reflexivity. Qed.

Lemma prefix_nil (s : string) : String.prefix "" s = true.
Proof. destruct s; reflexivity. Qed.

Lemma prefix_cons (c d : ascii) (p s : string) :
  String.prefix (String c p) (String d s)
  = if ascii_dec c d then String.prefix p s else false.
Proof. reflexivity. Qed.

Lemma prefix_append (p s : string) : String.prefix p (p ++ s) = true.
Proof.
  induction p as [| c p IH]; simpl.
  - apply prefix_nil.
  - destruct (ascii_dec c c); [ exact IH | congruence ].
Qed.

Lemma prefix_append_r (p s t : string) :
  String.prefix p s = true -> String.prefix p (s ++ t) = true.
Proof.
  revert s; induction p as [| c p IH]; intros s H.
  - apply prefix_nil.
  - destruct s as [| d s]; [ discriminate | ].
    simpl in *. destruct (ascii_dec c d); [ auto | discriminate ].
Qed.

Lemma prefix_split (p s : string) :
  String.prefix p s = true -> exists t, s = p ++ t.
Proof.
  revert s; induction p as [| c p IH]; intros s H.
  - exists s; reflexivity.
  - destruct s as [| d s]; [ discriminate | ].
    simpl in H. destruct (ascii_dec c d) as [-> |]; [ | discriminate ].
    destruct (IH s H) as [t ->]. exists t; reflexivity.
Qed.

Lemma contains_prefix (n s : string) :
  String.prefix n s = true -> contains n s = true.
Proof. intros H; destruct s; cbn [contains]; rewrite H; reflexivity. Qed.

Lemma contains_cons (n : string) (c : ascii) (s : string) :
  contains n s = true -> contains n (String c s) = true.
Proof. intros H; cbn [contains]; rewrite H; apply orb_true_r. Qed.

Lemma contains_append_l (n a s : string) :
  contains n s = true -> contains n (a ++ s) = true.
Proof.
  intros H; induction a as [| c a IH]; simpl append; auto using contains_cons.
Qed.

Lemma contains_append_r (n s b : string) :
  contains n s = true -> contains n (s ++ b) = true.
Proof.
  induction s as [| c s IH]; cbn [contains]; intros H.
  - rewrite orb_false_r in H. destruct n; [ | discriminate ].
    apply contains_prefix, prefix_nil.
  - apply orb_true_iff in H as [H | H].
    + apply contains_prefix, prefix_append_r, H.
    + apply (contains_cons n c (s ++ b)), IH, H.
Qed.

(** A substring of the middle of three pieces is a substring of the
    whole. *)
Lemma contains_middle (n a s b : string) :
  contains n s = true -> contains n (a ++ s ++ b) = true.
Proof. intros H; apply contains_append_l, contains_append_r, H. Qed.

Lemma contains_spec (n s : string) :
  contains n s = true <-> exists a b, s = a ++ n ++ b.
Proof.
  split.
  - induction s as [| c s IH]; cbn [contains]; intros H.
    + rewrite orb_false_r in H. destruct n; [ | discriminate ].
      exists "", ""; reflexivity.
    + apply orb_true_iff in H as [H | H].
      * destruct (prefix_split _ _ H) as [t Ht].
        exists "", t; exact Ht.
      * destruct (IH H) as (a & b & ->).
        exists (String c a), b; reflexivity.
  - intros (a & b & ->).
    apply contains_append_l, contains_prefix, prefix_append.
Qed.

Lemma lower_append (a b : string) : lower (a ++ b) = lower a ++ lower b.
Proof. induction a as [| c a IH]; simpl; [ | rewrite IH ]; reflexivity. Qed.

(** Lowering keeps every occurrence: lowering is character by
    character. *)
Lemma contains_lower (n s : string) :
  contains n s = true -> contains (lower n) (lower s) = true.
Proof.
  intros H. apply contains_spec in H as (a & b & ->).
  rewrite !lower_append. apply contains_spec; eauto.
Qed.

End StringFacts.


(** ** The content-type classifier *)

Section Classifier.
Import LaTeXFormatter Vocabulary.

(** The document test of [detect_content_type] comes first: a document
    marker decides, whatever else the text holds. *)
Lemma detect_document_marker (s : string) :
  contains "\documentclass" s = true \/ contains "\maketitle" s = true ->
  detect_content_type s = DOCUMENT.
Proof.
  intros H. unfold detect_content_type.
  destruct H as [H | H]; apply contains_lower in H;
    change (lower "\documentclass") with "\documentclass" in H;
    change (lower "\maketitle") with "\maketitle" in H;
    rewrite H; rewrite ?orb_true_r; reflexivity.
Qed.

(** C5.  [detect_content_type] tests document, table, diagram and
    equation markers in that order and the first rank that matches
    wins, [UNKNOWN] being left when none does; so every string that
    contains both [\documentclass] and [\begin{tabular}] is classified
    [DOCUMENT], and not [TABLE].  A rank of several markers matches as
    soon as one of them occurs in the lowered text. *)
Theorem detect_content_type_precedence :
  (forall s, document_marked s = true ->
             detect_content_type s = DOCUMENT)
  /\ (forall s, document_marked s = false -> table_marked s = true ->
                detect_content_type s = TABLE)
  /\ (forall s, document_marked s = false -> table_marked s = false ->
                diagram_marked s = true ->
                detect_content_type s = DIAGRAM)
  /\ (forall s, document_marked s = false -> table_marked s = false ->
                diagram_marked s = false -> equation_marked s = true ->
                detect_content_type s = EQUATION)
  /\ (forall s, document_marked s = false -> table_marked s = false ->
                diagram_marked s = false -> equation_marked s = false ->
                detect_content_type s = UNKNOWN)
  /\ (forall s, contains "\documentclass" s = true ->
                contains "\begin{tabular}" s = true ->
                detect_content_type s = DOCUMENT
                /\ detect_content_type s <> TABLE)
  /\ (forall s, diagram_marked s = true
                <-> exists keyword,
                      In keyword [ "\begin{tikz"; "\begin{figure";
                                   "\includegraphics" ]
                      /\ contains keyword (lower s) = true)
  /\ (forall s, equation_marked s = true
                <-> exists keyword,
                      In keyword [ "\begin{equation"; "\begin{align"; "\[";
                                   "$"; "\frac"; "\int"; "\sum"; "\alpha" ]
                      /\ contains keyword (lower s) = true).
Proof.
  split; [ | split; [ | split; [ | split; [ | split; [ | split;
    [ | split ] ] ] ] ] ].
  1-5: unfold document_marked, table_marked, diagram_marked, equation_marked;
    intros s; unfold detect_content_type; intros;
    repeat match goal with
           | H : _ = _ :> bool |- _ => rewrite H; clear H
           end; reflexivity.
  - intros s Hdoc _. rewrite (detect_document_marker s) by auto.
    split; [ reflexivity | discriminate ].
  - intros s. unfold diagram_marked, any_in. apply existsb_exists.
  - intros s. unfold equation_marked, any_in. apply existsb_exists.
Qed.

End Classifier.

(** ** The structural validator *)

Section Validator.
Import LaTeXFormatter Vocabulary.

Lemma mem_In (x : string) (xs : list string) : mem x xs = true <-> In x xs.
Proof.
  unfold mem. rewrite existsb_exists. split.
  - intros (y & Hy & E). apply String.eqb_eq in E. subst; assumption.
  - intros H. exists x. split; [ assumption | apply String.eqb_refl ].
Qed.

Lemma first_unclosed_None (begins ends : list string) :
  first_unclosed begins ends = None
  <-> (forall env, In env begins -> In env ends).
Proof.
  induction begins as [| b begins IH]; simpl.
  - split; [ intros _ env [] | reflexivity ].
  - destruct (mem b ends) eqn:E; simpl.
    + apply mem_In in E. rewrite IH. split.
      * intros H env [<- | Hin]; auto.
      * intros H env Hin. apply H. right; assumption.
    + split; [ discriminate | ]. intros H.
      assert (mem b ends = true) by (apply mem_In, H; left; reflexivity).
      congruence.
Qed.

Lemma first_unclosed_Some (begins ends : list string) (env : string) :
  first_unclosed begins ends = Some env ->
  In env begins /\ ~ In env ends.
Proof.
  induction begins as [| b begins IH]; simpl; [ discriminate | ].
  destruct (mem b ends) eqn:E; simpl.
  - intros H. destruct (IH H). split; [ right | ]; assumption.
  - intros [= <-]. split; [ left; reflexivity | ].
    intros Hin. apply mem_In in Hin. congruence.
Qed.

(** The verdict of [validate_latex] from its four tests. *)
Lemma validate_latex_valid (s : string) :
  braces_balanced s = true -> brackets_balanced s = true ->
  List.length (begins_of s) = List.length (ends_of s) ->
  (forall env, In env (begins_of s) -> In env (ends_of s)) ->
  validate_latex s = (true, None).
Proof.
  unfold braces_balanced, brackets_balanced, validate_latex.
  intros -> -> Hlen Hincl. simpl.
  rewrite Hlen, Nat.eqb_refl. simpl.
  apply first_unclosed_None in Hincl. rewrite Hincl. reflexivity.
Qed.

Lemma validate_latex_verdict (s : string) :
  fst (validate_latex s)
  = braces_balanced s && brackets_balanced s
    && (List.length (begins_of s) =? List.length (ends_of s))%nat
    && forallb (fun env => mem env (ends_of s)) (begins_of s).
Proof.
  unfold braces_balanced, brackets_balanced, validate_latex.
  destruct (count_char "{" s =? count_char "}" s)%nat; [ | reflexivity ].
  destruct (count_char "[" s =? count_char "]" s)%nat; [ | reflexivity ].
  destruct (List.length (begins_of s) =? List.length (ends_of s))%nat;
    [ | reflexivity ].
  simpl. generalize (ends_of s) as ends. intros ends.
  induction (begins_of s) as [| b begins IH]; simpl; [ reflexivity | ].
  destruct (mem b ends); simpl; [ exact IH | reflexivity ].
Qed.

(** Equal numbers of [\begin] and [\end] for every name make the two
    lists permutations of each other, whatever the order. *)
Lemma counts_permutation (begins ends : list string) :
  (forall name, count_occ string_dec begins name
                = count_occ string_dec ends name) ->
  Permutation begins ends.
Proof. intros H. apply (Permutation_count_occ string_dec); exact H. Qed.

Lemma mem_permutation (x : string) (l1 l2 : list string) :
  Permutation l1 l2 -> mem x l1 = mem x l2.
Proof.
  intros P. apply eq_true_iff_eq. rewrite !mem_In.
  split; apply Permutation_in; [ | symmetry ]; exact P.
Qed.

Lemma all_closed_permutation (b1 b2 e1 e2 : list string) :
  Permutation b1 b2 -> Permutation e1 e2 ->
  forallb (fun env => mem env e1) b1 = forallb (fun env => mem env e2) b2.
Proof.
  intros Pb Pe. apply eq_true_iff_eq. rewrite !forallb_forall. split.
  - intros H env Hin. rewrite <- (mem_permutation env e1 e2 Pe).
    apply H. apply Permutation_in with b2; [ symmetry | ]; assumption.
  - intros H env Hin. rewrite (mem_permutation env e1 e2 Pe).
    apply H. apply Permutation_in with b1; assumption.
Qed.

(** C4.  [validate_latex] accepts environments whose [\begin] and [\end]
    numbers agree name by name even when they are wrongly nested: it
    returns (valid, no error) on [\begin{a}\begin{b}\end{a}\end{b}], as
    on the rightly nested text; it accepts every text with balanced
    braces and brackets whose per-name counts match; and its verdict is
    the same on two texts that differ only by the order of their
    [\begin]s and of their [\end]s. *)
Theorem validate_latex_ignores_nesting_order :
  validate_latex "\begin{a}\begin{b}\end{a}\end{b}" = (true, None)
  /\ validate_latex "\begin{a}\begin{b}\end{b}\end{a}" = (true, None)
  /\ (forall s,
        braces_balanced s = true -> brackets_balanced s = true ->
        (forall name, count_occ string_dec (begins_of s) name
                      = count_occ string_dec (ends_of s) name) ->
        validate_latex s = (true, None))
  /\ (forall s1 s2,
        braces_balanced s1 = braces_balanced s2 ->
        brackets_balanced s1 = brackets_balanced s2 ->
        Permutation (begins_of s1) (begins_of s2) ->
        Permutation (ends_of s1) (ends_of s2) ->
        fst (validate_latex s1) = fst (validate_latex s2)).
Proof.
  do 2 (split; [ reflexivity | ]).
  split.
  - intros s Hbraces Hbrackets Hcounts.
    apply counts_permutation in Hcounts.
    apply validate_latex_valid; auto.
    + apply Permutation_length, Hcounts.
    + intros env. apply Permutation_in, Hcounts.
  - intros s1 s2 Hbraces Hbrackets Pb Pe.
    rewrite !validate_latex_verdict, Hbraces, Hbrackets.
    rewrite (Permutation_length Pb), (Permutation_length Pe).
    f_equal. apply all_closed_permutation; assumption.
Qed.

(** *** Only names made of word characters are captured *)

Lemma span_word_spec (s : string) :
  all_word (fst (span_word s)) = true
  /\ s = fst (span_word s) ++ snd (span_word s).
Proof.
  induction s as [| c s [IHw IHs]]; simpl; [ split; reflexivity | ].
  destruct (is_word c) eqn:E; [ | split; reflexivity ].
  destruct (span_word s) as [w r]; simpl in *.
  rewrite E, IHw. split; [ reflexivity | congruence ].
Qed.

(** The run stops at the first character that is not a word character. *)
Lemma span_word_stop (w : string) (c : ascii) (t : string) :
  all_word w = true -> is_word c = false ->
  span_word (w ++ String c t) = (w, String c t).
Proof.
  intros Hw Hc. induction w as [| d w IH]; simpl in *.
  - rewrite Hc. reflexivity.
  - apply andb_true_iff in Hw as [Hd Hw].
    rewrite Hd, (IH Hw). reflexivity.
Qed.

Lemma drop_append (a b : string) : drop (String.length a) (a ++ b) = b.
Proof. induction a as [| c a IH]; simpl; [ destruct b | ]; auto. Qed.

Lemma length_append (a b : string) :
  String.length (a ++ b) = String.length a + String.length b.
Proof. induction a as [| c a IH]; simpl; [ | rewrite IH ]; reflexivity. Qed.

Lemma match_env_Some (kw s name : string) :
  match_env kw s = Some name ->
  is_empty name = false /\ all_word name = true.
Proof.
  unfold match_env. destruct (String.prefix (kw ++ "{") s); [ | discriminate ].
  pose proof (span_word_spec (drop (String.length kw + 1) s)) as [Hw _].
  destruct (span_word (drop (String.length kw + 1) s)) as [w r]; simpl in Hw.
  destruct (is_empty w) eqn:E; simpl; [ discriminate | ].
  destruct (String.prefix "}" r); [ | discriminate ].
  intros [= <-]. split; assumption.
Qed.

Lemma findall_scan_names (kw : string) (s : string) :
  forall skip name,
    In name (findall_scan kw skip s) ->
    is_empty name = false /\ all_word name = true.
Proof.
  induction s as [| c s IH]; intros skip name; simpl; [ intros [] | ].
  destruct skip as [| k]; [ | apply IH ].
  destruct (match_env kw (String c s)) as [found |] eqn:E; [ | apply IH ].
  intros [<- | Hin]; [ apply (match_env_Some _ _ _ E) | apply (IH _ _ Hin) ].
Qed.

(** The pattern matches at the head of a well-formed [kw{name}]. *)
Lemma match_env_hit (kw w rest : string) :
  all_word w = true -> is_empty w = false ->
  match_env kw (kw ++ "{" ++ w ++ "}" ++ rest) = Some w.
Proof.
  intros Hw Hne. unfold match_env.
  rewrite <- (append_assoc kw "{"), prefix_append.
  replace (String.length kw + 1) with (String.length (kw ++ "{"))
    by (rewrite length_append; reflexivity).
  rewrite drop_append.
  change ("}" ++ rest) with (String "}" rest).
  rewrite (span_word_stop w "}" rest Hw eq_refl), Hne.
  rewrite prefix_cons, prefix_nil.
  destruct (ascii_dec "}" "}"); [ reflexivity | congruence ].
Qed.

(** The characters of a match are passed over before the scan resumes. *)
Lemma findall_scan_skip (kw a t : string) :
  findall_scan kw (String.length a) (a ++ t) = findall_scan kw 0 t.
Proof. induction a as [| c a IH]; simpl; [ reflexivity | exact IH ]. Qed.

Lemma findall_env_hit (k : ascii) (kw w rest : string) :
  all_word w = true -> is_empty w = false ->
  findall_env (String k kw) (String k kw ++ "{" ++ w ++ "}" ++ rest)
  = w :: findall_env (String k kw) rest.
Proof.
  intros Hw Hne. unfold findall_env.
  pose proof (match_env_hit (String k kw) w rest Hw Hne) as Hhit.
  change (String k kw ++ "{" ++ w ++ "}" ++ rest)
    with (String k (kw ++ "{" ++ w ++ "}" ++ rest)) in *.
  cbn [findall_scan]. rewrite Hhit. f_equal.
  replace (kw ++ "{" ++ w ++ "}" ++ rest)
    with ((kw ++ "{" ++ w ++ "}") ++ rest)
    by (rewrite !append_assoc; reflexivity).
  replace (String.length (String k kw) + String.length w + 1)
    with (String.length (kw ++ "{" ++ w ++ "}")).
  - apply findall_scan_skip.
  - rewrite !length_append. cbn [String.length]. lia.
Qed.

(** No match begins at a character that is not the first of [kw]. *)
Lemma findall_env_pass (k c : ascii) (kw rest : string) :
  c <> k ->
  findall_env (String k kw) (String c rest) = findall_env (String k kw) rest.
Proof.
  intros Hc. unfold findall_env. cbn [findall_scan].
  replace (match_env (String k kw) (String c rest)) with (@None string);
    [ reflexivity | ].
  unfold match_env. change (String k kw ++ "{") with (String k (kw ++ "{")).
  rewrite prefix_cons.
  destruct (ascii_dec k c); [ congruence | reflexivity ].
Qed.

(** A name opened and never closed is found by the last loop. *)
Lemma first_unclosed_found (begins ends : list string) (name : string) :
  In name begins -> ~ In name ends ->
  exists env, first_unclosed begins ends = Some env.
Proof.
  intros Hin Hout.
  destruct (first_unclosed begins ends) as [env |] eqn:E;
    [ exists env; reflexivity | ].
  exfalso. apply Hout. apply (proj1 (first_unclosed_None begins ends) E).
  exact Hin.
Qed.

(** C6.  [validate_latex] tests the braces, then the brackets, then the
    numbers of [\begin] and [\end], then that each opened name is closed
    somewhere, and returns at the first test that fails with the message
    of that test, the four messages being different; [\frac{a}{b}] is
    valid, [\frac{a}{b] is invalid with the braces message, and
    [\begin{equation} E=mc^2] is invalid with an environment message.
    The text is valid exactly when the four tests pass: a name that is
    opened and closed nowhere makes it invalid with the message of the
    first such name, as [\begin{a}\end{b}] shows.  The two scans take
    every well-formed [\begin{name}] and [\end{name}] they meet and
    pass over the characters that are not a backslash. *)
Theorem validate_latex_checks_in_order :
  validate_latex "\frac{a}{b}" = (true, None)
  /\ validate_latex "\frac{a}{b" = (false, Some MSG_BRACES)
  /\ validate_latex "\begin{equation} E=mc^2"
     = (false, Some MSG_ENVIRONMENTS)
  /\ contains "braces" (lower MSG_BRACES) = true
  /\ contains "environment" (lower MSG_ENVIRONMENTS) = true
  /\ (forall s, braces_balanced s = false ->
                validate_latex s = (false, Some MSG_BRACES))
  /\ (forall s, braces_balanced s = true -> brackets_balanced s = false ->
                validate_latex s = (false, Some MSG_BRACKETS))
  /\ (forall s, braces_balanced s = true -> brackets_balanced s = true ->
                List.length (begins_of s) <> List.length (ends_of s) ->
                validate_latex s = (false, Some MSG_ENVIRONMENTS))
  /\ (forall s env,
        braces_balanced s = true -> brackets_balanced s = true ->
        List.length (begins_of s) = List.length (ends_of s) ->
        first_unclosed (begins_of s) (ends_of s) = Some env ->
        validate_latex s = (false, Some (MSG_UNCLOSED env))
        /\ In env (begins_of s) /\ ~ In env (ends_of s))
  /\ (forall s, braces_balanced s = true -> brackets_balanced s = true ->
                List.length (begins_of s) = List.length (ends_of s) ->
                (forall env, In env (begins_of s) -> In env (ends_of s)) ->
                validate_latex s = (true, None))
  /\ MSG_BRACES <> MSG_BRACKETS
  /\ MSG_BRACES <> MSG_ENVIRONMENTS
  /\ MSG_BRACKETS <> MSG_ENVIRONMENTS
  /\ (forall env, MSG_UNCLOSED env <> MSG_BRACES
                  /\ MSG_UNCLOSED env <> MSG_BRACKETS
                  /\ MSG_UNCLOSED env <> MSG_ENVIRONMENTS)
  /\ (forall s name,
        braces_balanced s = true -> brackets_balanced s = true ->
        List.length (begins_of s) = List.length (ends_of s) ->
        In name (begins_of s) -> ~ In name (ends_of s) ->
        exists env,
          validate_latex s = (false, Some (MSG_UNCLOSED env))
          /\ In env (begins_of s) /\ ~ In env (ends_of s))
  /\ (forall s,
        validate_latex s = (true, None)
        <-> (braces_balanced s = true /\ brackets_balanced s = true
             /\ List.length (begins_of s) = List.length (ends_of s)
             /\ (forall env, In env (begins_of s) -> In env (ends_of s))))
  /\ (forall s, fst (validate_latex s) = true
                <-> validate_latex s = (true, None))
  /\ validate_latex "\begin{a}\end{b}"
     = (false, Some "Environment 'a' opened but not closed")
  /\ validate_latex "\begin{a}\begin{b}\end{b}\end{c}"
     = (false, Some "Environment 'a' opened but not closed")
  /\ validate_latex "\begin{a}\end{a}" = (true, None)
  /\ validate_latex "\end{a}" = (false, Some MSG_ENVIRONMENTS)
  /\ validate_latex "x[1" = (false, Some MSG_BRACKETS)
  /\ validate_latex "{[" = (false, Some MSG_BRACES)
  /\ validate_latex "[\begin{a}" = (false, Some MSG_BRACKETS)
  /\ (forall w rest,
        all_word w = true -> is_empty w = false ->
        begins_of ("\begin{" ++ w ++ "}" ++ rest) = w :: begins_of rest
        /\ ends_of ("\end{" ++ w ++ "}" ++ rest) = w :: ends_of rest)
  /\ (forall c rest,
        c <> "\"%char ->
        begins_of (String c rest) = begins_of rest
        /\ ends_of (String c rest) = ends_of rest).
Proof.
  do 5 (split; [ reflexivity | ]).
  split.
  { intros s H. unfold validate_latex. fold (braces_balanced s).
    rewrite H. reflexivity. }
  split.
  { intros s H1 H2. unfold validate_latex.
    fold (braces_balanced s) (brackets_balanced s).
    rewrite H1, H2. reflexivity. }
  split.
  { intros s H1 H2 Hlen. unfold validate_latex.
    fold (braces_balanced s) (brackets_balanced s).
    rewrite H1, H2. simpl.
    apply Nat.eqb_neq in Hlen. rewrite Hlen. reflexivity. }
  split.
  { intros s env H1 H2 Hlen Hfirst. split.
    - unfold validate_latex.
      fold (braces_balanced s) (brackets_balanced s).
      rewrite H1, H2, Hlen, Nat.eqb_refl, Hfirst. reflexivity.
    - apply first_unclosed_Some, Hfirst. }
  split.
  { intros s. apply validate_latex_valid. }
  do 3 (split; [ discriminate | ]).
  split.
  { intros env. repeat split; discriminate. }
  split.
  { intros s name H1 H2 Hlen Hin Hout.
    destruct (first_unclosed_found _ _ _ Hin Hout) as [env Hfirst].
    exists env. split.
    - unfold validate_latex.
      fold (braces_balanced s) (brackets_balanced s).
      rewrite H1, H2, Hlen, Nat.eqb_refl, Hfirst. reflexivity.
    - apply first_unclosed_Some, Hfirst. }
  split.
  { intros s. split.
    - unfold validate_latex.
      fold (braces_balanced s) (brackets_balanced s).
      destruct (braces_balanced s); [ | discriminate ].
      destruct (brackets_balanced s); [ | discriminate ].
      cbn [negb].
      destruct (List.length (begins_of s) =? List.length (ends_of s))%nat
        eqn:Hlen; [ | discriminate ].
      cbn [negb].
      destruct (first_unclosed (begins_of s) (ends_of s)) eqn:Hfirst;
        [ discriminate | ].
      intros _. repeat split.
      + apply Nat.eqb_eq, Hlen.
      + apply first_unclosed_None, Hfirst.
    - intros (H1 & H2 & Hlen & Hall). apply validate_latex_valid; assumption. }
  split.
  { intros s. split.
    - unfold validate_latex.
      destruct (negb _); [ discriminate | ].
      destruct (negb _); [ discriminate | ].
      cbv zeta. destruct (negb _); [ discriminate | ].
      destruct (first_unclosed _ _); [ discriminate | reflexivity ].
    - intros ->. reflexivity. }
  do 7 (split; [ reflexivity | ]).
  split.
  { intros w rest Hw Hne. split.
    - apply (findall_env_hit "\" "begin" w rest Hw Hne).
    - apply (findall_env_hit "\" "end" w rest Hw Hne). }
  intros c rest Hc. split.
  - apply (findall_env_pass "\" c "begin" rest Hc).
  - apply (findall_env_pass "\" c "end" rest Hc).
Qed.

(** C10.  The scans of [validate_latex] capture only names made of word
    characters: an attempt at [\begin{name}] or [\end{name}] whose name
    holds another character (before any closing brace) matches nothing,
    as [align*] shows, so [\begin{align*} x = y], whose braces and
    brackets are balanced, opens an environment that is never closed
    and is reported valid. *)
Theorem validate_latex_skips_non_word_names :
  validate_latex "\begin{align*} x = y" = (true, None)
  /\ begins_of "\begin{align*} x = y" = []
  /\ ends_of "\end{align*}" = []
  /\ (forall s name,
        In name (begins_of s) \/ In name (ends_of s) ->
        is_empty name = false /\ all_word name = true)
  /\ (forall kw w c t rest,
        all_word w = true -> is_word c = false -> c <> "}"%char ->
        match_env kw (kw ++ "{" ++ (w ++ String c t) ++ "}" ++ rest)
        = None).
Proof.
  do 3 (split; [ reflexivity | ]).
  split.
  - intros s name [H | H]; exact (findall_scan_names _ _ _ _ H).
  - intros kw w c t rest Hw Hc Hbrace. unfold match_env.
    rewrite <- (append_assoc kw "{"), prefix_append.
    replace (String.length kw + 1) with (String.length (kw ++ "{"))
      by (rewrite length_append; reflexivity).
    rewrite drop_append, append_assoc.
    change (String c t ++ "}" ++ rest) with (String c (t ++ "}" ++ rest)).
    rewrite (span_word_stop w c _ Hw Hc).
    replace (String.prefix "}" (String c (t ++ "}" ++ rest))) with false.
    + rewrite andb_false_r. reflexivity.
    + rewrite prefix_cons.
      destruct (ascii_dec "}" c); [ congruence | reflexivity ].
Qed.

End Validator.

(** ** The document wrapper *)

Section Document.
Import LaTeXFormatter Vocabulary.

Lemma create_full_document_eq (content : string) (title author : option string)
    (cls : string) :
  create_full_document content title author cls
  = document_head cls ++ title_block title author ++ content ++ document_foot.
Proof.
  unfold create_full_document, document_head, document_foot,
    DOCUMENT_PACKAGES.
  cbn [fold_left]. rewrite !append_assoc. reflexivity.
Qed.

(** C8.  [create_full_document("Body", title="T", author="A")] holds, in
    this order, the [\documentclass] declaration, the six package lines
    (amsmath, amssymb, amsfonts, graphicx, booktabs, tikz),
    [\begin{document}], [\title{T}], [\author{A}], [\maketitle], [Body]
    and [\end{document}]; and for every content and author the
    [\author] and [\maketitle] lines are written only when a title is
    present: without one the content follows [\begin{document}]
    directly, with one [\title] and [\maketitle] are written and
    [\author] between them when an author is present. *)
Theorem create_full_document_layout :
  create_full_document "Body" (Some "T") (Some "A") "article"
  = "\documentclass{article}" ++ nl ++ nl
    ++ "\usepackage{amsmath}" ++ nl
    ++ "\usepackage{amssymb}" ++ nl
    ++ "\usepackage{amsfonts}" ++ nl
    ++ "\usepackage{graphicx}" ++ nl
    ++ "\usepackage{booktabs}" ++ nl
    ++ "\usepackage{tikz}" ++ nl ++ nl
    ++ "\begin{document}" ++ nl ++ nl
    ++ "\title{T}" ++ nl
    ++ "\author{A}" ++ nl
    ++ "\maketitle" ++ nl ++ nl
    ++ "Body" ++ nl ++ nl
    ++ "\end{document}" ++ nl
  /\ in_order
       [ "\documentclass"; "\usepackage{amsmath}"; "\usepackage{amssymb}";
         "\usepackage{amsfonts}"; "\usepackage{graphicx}";
         "\usepackage{booktabs}"; "\usepackage{tikz}"; "\begin{document}";
         "\title{T}"; "\author{A}"; "\maketitle"; "Body"; "\end{document}" ]
       (create_full_document "Body" (Some "T") (Some "A") "article")
     = true
  /\ (forall content title author cls,
        truthy title = false ->
        create_full_document content title author cls
        = document_head cls ++ content ++ document_foot)
  /\ (forall content title author cls,
        truthy title = true ->
        create_full_document content title author cls
        = document_head cls
          ++ "\title{" ++ text_of title ++ "}" ++ nl
          ++ (if truthy author
              then "\author{" ++ text_of author ++ "}" ++ nl else "")
          ++ "\maketitle" ++ nl ++ nl
          ++ content ++ document_foot)
  /\ contains "\author"
       (create_full_document "Body" None (Some "A") "article") = false
  /\ contains "\maketitle"
       (create_full_document "Body" None (Some "A") "article") = false.
Proof.
  do 2 (split; [ reflexivity | ]).
  split.
  { intros content title author cls H.
    rewrite create_full_document_eq. unfold title_block. rewrite H.
    reflexivity. }
  split.
  { intros content title author cls H.
    rewrite create_full_document_eq. unfold title_block. rewrite H.
    rewrite !append_assoc. reflexivity. }
  split; reflexivity.
Qed.

End Document.

(** ** The image gate *)

Section ImageGate.
Import ImageHandler Vocabulary.

Lemma unsupported_iff (img_format : option string) :
  unsupported img_format = true
  <-> (forall f, img_format = Some f -> ~ In f SUPPORTED_FORMATS).
Proof.
  destruct img_format as [f |]; cbn [unsupported].
  - rewrite negb_true_iff. split.
    + intros H g [= <-] Hin. apply mem_In in Hin. congruence.
    + intros H. destruct (mem f SUPPORTED_FORMATS) eqn:E; [ | reflexivity ].
      apply mem_In in E. destruct (H f eq_refl E).
  - split; [ intros _ f; discriminate | reflexivity ].
Qed.

(** [validate_image] returns only when every test passed. *)
Lemma validate_image_returns (fs : FileSystem) (image_path : string) (b : bool) :
  validate_image fs image_path = Returns b ->
  too_large (st_size (fs image_path)) = false
  /\ exists img, image_open (fs image_path) = Returns img
                 /\ unsupported (format img) = false.
Proof.
  unfold validate_image.
  destruct (path_exists (fs image_path)); [ | discriminate ].
  destruct (path_is_file (fs image_path)); [ | discriminate ]. simpl.
  destruct (too_large (st_size (fs image_path))); [ discriminate | ].
  destruct (image_open (fs image_path)) as [img | cause]; [ | discriminate ].
  destruct (unsupported (format img)) eqn:E; [ discriminate | ].
  intros _. split; [ reflexivity | exists img; split; auto ].
Qed.

(** C9.  [validate_image] raises an [ImageHandlerError] for every path
    whose file is larger than [MAX_SIZE_MB] = 20 megabytes (of 1024 *
    1024 bytes), and for every path whose format, as [Image.open] reads
    it from the file, is outside PNG, JPEG, JPG, GIF, WEBP, BMP, TIFF,
    whatever the name of the path: a file named [photo.png] whose
    header says ICO is rejected for its format. *)
Theorem validate_image_rejects :
  MAX_SIZE_MB = 20%Z
  /\ SUPPORTED_FORMATS = [ "PNG"; "JPEG"; "JPG"; "GIF"; "WEBP"; "BMP"; "TIFF" ]
  /\ (forall fs image_path,
        (st_size (fs image_path) > MAX_SIZE_MB * (1024 * 1024))%Z ->
        (exists e, validate_image fs image_path = Raises e)
        /\ (path_exists (fs image_path) = true ->
            path_is_file (fs image_path) = true ->
            validate_image fs image_path
            = Raises (ImageFileTooLarge (st_size (fs image_path)) 20)))
  /\ (forall fs image_path img,
        image_open (fs image_path) = Returns img ->
        (forall f, format img = Some f -> ~ In f SUPPORTED_FORMATS) ->
        (exists e, validate_image fs image_path = Raises e)
        /\ (path_exists (fs image_path) = true ->
            path_is_file (fs image_path) = true ->
            (st_size (fs image_path) <= MAX_SIZE_MB * (1024 * 1024))%Z ->
            validate_image fs image_path
            = Raises (UnsupportedImageFormat (format img))))
  /\ validate_image (fs_of 4096 (Some "ICO")) "photo.png"
     = Raises (UnsupportedImageFormat (Some "ICO"))
  /\ validate_image (fs_of (20 * 1024 * 1024 + 1) (Some "PNG")) "photo.png"
     = Raises (ImageFileTooLarge (20 * 1024 * 1024 + 1) 20)
  /\ validate_image (fs_of (20 * 1024 * 1024) (Some "PNG")) "photo.ico"
     = Returns true.
Proof.
  do 2 (split; [ reflexivity | ]).
  split.
  { intros fs image_path Hsize.
    assert (Hlarge : too_large (st_size (fs image_path)) = true)
      by (unfold too_large; apply Z.ltb_lt; lia).
    split.
    - destruct (validate_image fs image_path) as [b | e] eqn:E; [ | eauto ].
      apply validate_image_returns in E as [E _]. congruence.
    - intros Hex Hfile. unfold validate_image.
      rewrite Hex, Hfile, Hlarge. reflexivity. }
  split.
  { intros fs image_path img Hopen Hformat.
    apply unsupported_iff in Hformat. split.
    - destruct (validate_image fs image_path) as [b | e] eqn:E; [ | eauto ].
      apply validate_image_returns in E as [_ (img' & E1 & E2)]. congruence.
    - intros Hex Hfile Hsize. unfold validate_image.
      assert (Hsmall : too_large (st_size (fs image_path)) = false)
        by (unfold too_large; apply Z.ltb_ge; lia).
      rewrite Hex, Hfile, Hsmall, Hopen, Hformat. reflexivity. }
  repeat split; reflexivity.
Qed.

End ImageGate.

(** ** The vision gateway *)

Section Gateway.
Import VisionClient Vocabulary.

Lemma provider_eqb_eq (a b : ModelProvider) :
  provider_eqb a b = true <-> a = b.
Proof. destruct a, b; simpl; split; congruence. Qed.

(** Whatever [analyze_image] raises is a [VisionClientError]. *)
Lemma analyze_image_raises_vision_client_error
    (self : Client) (world : Providers) (image_path prompt : string)
    (use_fallback : bool) (n n' : nat) (e : Exc) :
  analyze_image self world image_path prompt use_fallback n = (Raises e, n') ->
  exc_class e = VisionClientError.
Proof.
  unfold analyze_image, bind, try_except, ret, raise.
  destruct (call_model self world (primary_model self) prompt image_path n)
    as [[[text |] | e1] n1].
  - discriminate.
  - destruct (fallback_enabled self use_fallback).
    + destruct (call_model self world (fallback_model self) prompt
                  image_path n1) as [[[text |] | e2] n2];
        [ discriminate | | ]; intros [= <- _]; reflexivity.
    + intros [= <- _]; reflexivity.
  - destruct (negb use_fallback || provider_eqb (fallback_model self) NONE).
    + intros [= <- _]; reflexivity.
    + destruct (fallback_enabled self use_fallback).
      * destruct (call_model self world (fallback_model self) prompt
                    image_path n1) as [[[text |] | e2] n2];
          [ discriminate | | ]; intros [= <- _]; reflexivity.
      * intros [= <- _]; reflexivity.
Qed.




End Gateway.

(** ** The orchestrator *)

Section Orchestrator.
Import LaTeXFormatter Converter Vocabulary.

(** The two results of [validate_latex]: valid without a message, or
    invalid with a message that is not empty. *)
Lemma validate_latex_message (s : string) :
  (fst (validate_latex s) = true /\ snd (validate_latex s) = None)
  \/ (fst (validate_latex s) = false
      /\ exists message, snd (validate_latex s) = Some message
                         /\ is_empty message = false).
Proof.
  unfold validate_latex.
  repeat match goal with
         | |- context [ if ?b then _ else _ ] => destruct b
         | |- context [ match ?o with Some _ => _ | None => _ end ] =>
             destruct o
         end; simpl; eauto.
Qed.

(** C3.  In every [ConverterResult] that [convert] returns, whatever the
    providers answered and whether [validate_output] is set or not,
    [is_valid] false comes with a [validation_error] that is a string
    and is not empty, and [is_valid] true with no [validation_error]. *)
Theorem convert_validity_invariant
    (self : ImageToLaTeXConverter) (fs : ImageHandler.FileSystem)
    (world : VisionClient.Providers) (image_path : string)
    (content_type : option ContentType) (auto_detect : bool)
    (r : ConverterResult) :
  convert self fs world image_path content_type auto_detect = Returns r ->
  (is_valid r = false ->
   exists message, validation_error r = Some message
                   /\ is_empty message = false)
  /\ (is_valid r = true -> validation_error r = None).
Proof.
  unfold convert.
  destruct (ImageHandler.validate_image fs image_path); [ | discriminate ].
  destruct (VisionClient.analyze_image _ _ _ _ _ _) as [[raw | e] n'];
    [ | destruct (is_vision_client_error e); discriminate ].
  destruct (validate_output self).
  - pose proof (validate_latex_message (extract_latex_code raw)) as H.
    destruct (validate_latex (extract_latex_code raw)) as [valid message].
    intros [= <-]. simpl in *.
    destruct H as [[-> ->] | [-> (m & -> & Hm)]]; split;
      solve [ discriminate | reflexivity | eauto ].
  - intros [= <-]. simpl. split; [ discriminate | reflexivity ].
Qed.

(** A conversion whose answer lacks a closing brace: the result is
    returned, invalid, with the braces message. *)
Lemma convert_validity_invariant_witness :
  convert demo_converter (fs_of 4096 (Some "PNG")) (answering "\frac{a}{b")
    "eq.png" None true
  = Returns {| latex_code := "\frac{a}{b";
               content_type := EQUATION;
               raw_response := "\frac{a}{b";
               is_valid := false;
               validation_error := Some MSG_BRACES |}
  /\ ((false = false ->
       exists message, Some MSG_BRACES = Some message
                       /\ is_empty message = false)
      /\ (false = true -> Some MSG_BRACES = None)).
Proof.
  split; [ reflexivity | ].
  apply (convert_validity_invariant demo_converter (fs_of 4096 (Some "PNG"))
           (answering "\frac{a}{b") "eq.png" None true
           {| latex_code := "\frac{a}{b";
              content_type := EQUATION;
              raw_response := "\frac{a}{b";
              is_valid := false;
              validation_error := Some MSG_BRACES |}).
  reflexivity.
Defined.

End Orchestrator.

(** ** Replacement and trimming *)

Section ReplaceStrip.

Lemma contains_needle_prefix (n m s : string) :
  contains (n ++ m) s = true -> contains n s = true.
Proof.
  intros H. apply contains_spec in H as (a & b & ->).
  rewrite append_assoc. apply contains_spec. eauto.
Qed.

Lemma contains_false_cons (n : string) (c : ascii) (s : string) :
  contains n (String c s) = false ->
  String.prefix n (String c s) = false /\ contains n s = false.
Proof. cbn [contains]. apply orb_false_iff. Qed.

(** Replacing what does not occur changes nothing. *)
Lemma replace_absent (old new s : string) :
  contains old s = false -> replace old new s = s.
Proof.
  unfold replace. destruct old as [| o old]; simpl is_empty; cbv iota.
  - destruct s; discriminate.
  - induction s as [| c s IH]; [ reflexivity | ].
    intros H. apply contains_false_cons in H as [Hp Hc].
    cbn [replace_scan]. rewrite Hp, (IH Hc). reflexivity.
Qed.

Lemma lstrip_suffix (s : string) : exists a, s = a ++ lstrip s.
Proof.
  induction s as [| c s [a IH]]; simpl.
  - exists "". reflexivity.
  - destruct (is_space c).
    + exists (String c a). simpl. congruence.
    + exists "". reflexivity.
Qed.

Lemma rstrip_prefix (s : string) : exists b, s = rstrip s ++ b.
Proof.
  induction s as [| c s [b IH]]; simpl.
  - exists "". reflexivity.
  - destruct (is_empty (rstrip s) && is_space c).
    + exists (String c s). reflexivity.
    + exists b. simpl. congruence.
Qed.

(** What [strip] returns is a piece of its argument. *)
Lemma strip_piece (s : string) : exists a b, s = a ++ strip s ++ b.
Proof.
  unfold strip.
  destruct (lstrip_suffix s) as [a Ha].
  destruct (rstrip_prefix (lstrip s)) as [b Hb].
  exists a, b. rewrite <- Hb. exact Ha.
Qed.

Lemma lstrip_fixed (c : ascii) (s : string) :
  is_space c = false -> lstrip (String c s) = String c s.
Proof. intros H. simpl. rewrite H. reflexivity. Qed.

Lemma rstrip_nonempty_append (a b : string) :
  is_empty (rstrip b) = false -> rstrip (a ++ b) = a ++ rstrip b.
Proof.
  intros H. induction a as [| c a IH]; simpl; [ reflexivity | ].
  rewrite IH. destruct (a ++ rstrip b) eqn:E; [ | reflexivity ].
  destruct a; simpl in E; [ rewrite E in H | ]; discriminate.
Qed.

Lemma rstrip_idempotent (s : string) : rstrip (rstrip s) = rstrip s.
Proof.
  induction s as [| c s IH]; simpl; [ reflexivity | ].
  destruct (is_empty (rstrip s) && is_space c) eqn:E; [ reflexivity | ].
  simpl. rewrite IH, E. reflexivity.
Qed.

(** A stripped string is empty or starts with a character that is not
    white. *)
Lemma lstrip_head (s : string) :
  lstrip s = "" \/ exists c t, lstrip s = String c t /\ is_space c = false.
Proof.
  induction s as [| c s IH]; simpl; [ left; reflexivity | ].
  destruct (is_space c) eqn:E; [ exact IH | right; eauto ].
Qed.

Lemma strip_idempotent (s : string) : strip (strip s) = strip s.
Proof.
  unfold strip. destruct (lstrip_head s) as [-> | (c & t & -> & Hc)].
  - reflexivity.
  - assert (E : rstrip (String c t) = String c (rstrip t)).
    { simpl. rewrite Hc, andb_false_r. reflexivity. }
    rewrite E, (lstrip_fixed _ _ Hc), <- E. apply rstrip_idempotent.
Qed.

End ReplaceStrip.

(** ** The extractor *)

Section Extractor.
Import LaTeXFormatter Vocabulary.

(** While no line starts LaTeX, the scan keeps nothing. *)
Lemma scan_never_starts (lines acc : list string) :
  (forall line, In line lines -> is_latex_start line = false) ->
  fold_left scan_line lines (false, acc) = (false, acc).
Proof.
  induction lines as [| line lines IH]; intros H; [ reflexivity | ].
  cbn [fold_left].
  assert (E : scan_line (false, acc) line = (false, acc)).
  { unfold scan_line. rewrite (H line) by (left; reflexivity).
    destruct (negb false && _); reflexivity. }
  rewrite E. apply IH. intros l Hl. apply H. right. exact Hl.
Qed.

(** Without a fence marker the four substitutions change nothing. *)
Lemma strip_fences_absent (text : string) :
  contains "```" text = false -> strip_fences text = text.
Proof.
  intros H. unfold strip_fences.
  assert (Hn : forall m, contains ("```" ++ m) text = false).
  { intros m. destruct (contains ("```" ++ m) text) eqn:E; [ | reflexivity ].
    apply contains_needle_prefix in E. congruence. }
  rewrite (replace_absent ("```latex" ++ nl)) by apply (Hn ("latex" ++ nl)).
  rewrite (replace_absent ("```tex" ++ nl)) by apply (Hn ("tex" ++ nl)).
  rewrite (replace_absent ("```" ++ nl)) by apply (Hn nl).
  apply replace_absent, H.
Qed.

(** C2, as the code has it.  When no line of the text left by the fence
    substitutions begins, after its leading white space, with a
    backslash or a dollar, [extract_latex_code] returns that
    fence-stripped text trimmed of white space; it is the original
    input trimmed when the input holds no fence marker. *)
Theorem extract_latex_code_nothing_survives (text : string) :
  (forall line, In line (split_nl (strip_fences text)) ->
                is_latex_start line = false) ->
  extract_latex_code text = strip (strip_fences text)
  /\ (contains "```" text = false -> extract_latex_code text = strip text).
Proof.
  intros H.
  assert (E : extract_latex_code text = strip (strip_fences text)).
  { unfold extract_latex_code. rewrite (scan_never_starts _ [] H).
    reflexivity. }
  split; [ exact E | ].
  intros Hfence. rewrite E, (strip_fences_absent _ Hfence). reflexivity.
Qed.

(** A fenced answer without any LaTeX line. *)
Lemma extract_latex_code_nothing_survives_witness :
  extract_latex_code ("```" ++ nl ++ "hello" ++ nl ++ "```")
  = strip (strip_fences ("```" ++ nl ++ "hello" ++ nl ++ "```"))
  /\ (contains "```" ("```" ++ nl ++ "hello" ++ nl ++ "```") = false ->
      extract_latex_code ("```" ++ nl ++ "hello" ++ nl ++ "```")
      = strip ("```" ++ nl ++ "hello" ++ nl ++ "```")).
Proof.
  apply (extract_latex_code_nothing_survives
           ("```" ++ nl ++ "hello" ++ nl ++ "```")).
  intros line Hin. vm_compute in Hin.
  destruct Hin as [<- | [<- | []]]; reflexivity.
Defined.

(** C2, as the claim has it, fails: in the text made of a fence, the
    line [hello] and a fence, no line begins with a backslash or a
    dollar, before or after the fences are removed; the function
    returns [hello], which is not the original input trimmed. *)
Lemma extract_latex_code_drops_fences :
  (forall line,
      In line (split_nl ("```" ++ nl ++ "hello" ++ nl ++ "```")) ->
      is_latex_start line = false)
  /\ (forall line,
        In line (split_nl
                   (strip_fences ("```" ++ nl ++ "hello" ++ nl ++ "```"))) ->
        is_latex_start line = false)
  /\ extract_latex_code ("```" ++ nl ++ "hello" ++ nl ++ "```") = "hello"
  /\ strip ("```" ++ nl ++ "hello" ++ nl ++ "```")
     = "```" ++ nl ++ "hello" ++ nl ++ "```"
  /\ extract_latex_code ("```" ++ nl ++ "hello" ++ nl ++ "```")
     <> strip ("```" ++ nl ++ "hello" ++ nl ++ "```").
Proof.
  split.
  { intros line Hin. vm_compute in Hin.
    destruct Hin as [<- | [<- | [<- | []]]]; reflexivity. }
  split.
  { intros line Hin. vm_compute in Hin.
    destruct Hin as [<- | [<- | []]]; reflexivity. }
  repeat split; try reflexivity. discriminate.
Qed.

End Extractor.

(** ** The equation wrapper *)

Section EquationWrapper.
Import LaTeXFormatter Vocabulary.

Lemma count_char_append (c : ascii) (a b : string) :
  count_char c (a ++ b) = count_char c a + count_char c b.
Proof. induction a as [| d a IH]; simpl; [ | rewrite IH ]; lia. Qed.

(** A needle that occurs brings its first character with it. *)
Lemma contains_count_char (c : ascii) (p s : string) :
  count_char c s = 0 -> contains (String c p) s = false.
Proof.
  intros H. destruct (contains (String c p) s) eqn:E; [ | reflexivity ].
  apply contains_spec in E as (a & b & ->).
  rewrite count_char_append in H. simpl in H.
  rewrite Ascii.eqb_refl in H. lia.
Qed.

(** Removing a one-character string removes every occurrence of it. *)
Lemma replace_char_removed (c : ascii) (s : string) :
  count_char c (replace (String c "") "" s) = 0.
Proof.
  unfold replace. simpl is_empty. cbv iota.
  induction s as [| d s IH]; [ reflexivity | ].
  cbn [replace_scan]. rewrite prefix_cons, prefix_nil.
  destruct (ascii_dec c d) as [-> | Hne]; simpl.
  - exact IH.
  - apply Ascii.eqb_neq in Hne. rewrite Hne, IH. reflexivity.
Qed.

Lemma count_char_strip (c : ascii) (s : string) :
  count_char c s = 0 -> count_char c (strip s) = 0.
Proof.
  intros H. destruct (strip_piece s) as (a & b & E).
  rewrite E, !count_char_append in H. lia.
Qed.

(** [clean_equation] leaves no dollar and a trimmed text. *)
Lemma clean_equation_no_dollar (s : string) :
  count_char "$" (clean_equation s) = 0.
Proof.
  unfold clean_equation, equation_delims. cbn [fold_left].
  apply count_char_strip, replace_char_removed.
Qed.

Lemma clean_equation_stripped (s : string) :
  strip (clean_equation s) = clean_equation s.
Proof. unfold clean_equation. apply strip_idempotent. Qed.

(** A trimmed text without any delimiter is left as it is. *)
Lemma clean_equation_fixed (x : string) :
  strip x = x ->
  contains "\[" x = false -> contains "\]" x = false ->
  count_char "$" x = 0 ->
  clean_equation x = x.
Proof.
  intros Hstrip Hopen Hclose Hdollar.
  unfold clean_equation, equation_delims. cbn [fold_left].
  rewrite Hstrip.
  rewrite (replace_absent "\[" "" x Hopen).
  rewrite (replace_absent "\]" "" x Hclose).
  rewrite (replace_absent "$$" "" x (contains_count_char _ _ _ Hdollar)).
  rewrite (replace_absent "$" "" x (contains_count_char _ _ _ Hdollar)).
  exact Hstrip.
Qed.

(** The text put around a single-line equation. *)
Lemma equation_wrapped_stripped (body : string) :
  strip ("\begin{equation}" ++ nl ++ body ++ nl ++ "\end{equation}")
  = "\begin{equation}" ++ nl ++ body ++ nl ++ "\end{equation}".
Proof.
  unfold strip.
  change ("\begin{equation}" ++ nl ++ body ++ nl ++ "\end{equation}")
    with (String "\" ("begin{equation}" ++ nl ++ body ++ nl
                       ++ "\end{equation}")).
  rewrite lstrip_fixed by reflexivity.
  change (String "\" ("begin{equation}" ++ nl ++ body ++ nl
                      ++ "\end{equation}"))
    with ("\begin{equation}" ++ nl ++ body ++ nl ++ "\end{equation}").
  rewrite <- !append_assoc.
  rewrite rstrip_nonempty_append by reflexivity. reflexivity.
Qed.

Lemma lower_begin_align (t : string) :
  contains "align" (lower ("\begin{align" ++ t)) = true.
Proof.
  rewrite lower_append. apply contains_append_r. reflexivity.
Qed.

(** An output without the word align comes from the equation branch. *)
Lemma wrap_equation_equation_branch (s : string) :
  contains "align" (lower (wrap_equation s false)) = false ->
  wrap_equation s false
  = if negb (startswith (clean_equation s) "\begin{equation")
    then "\begin{equation}" ++ nl ++ clean_equation s ++ nl
         ++ "\end{equation}"
    else clean_equation s.
Proof.
  unfold wrap_equation.
  destruct (contains "\\" (clean_equation s)
            || contains "align" (lower (clean_equation s)));
    [ | reflexivity ].
  destruct (startswith (clean_equation s) "\begin{align") eqn:E;
    cbn [negb]; cbv iota.
  - apply prefix_split in E as [t E]. rewrite E, lower_begin_align.
    discriminate.
  - change ("\begin{align}" ++ nl ++ clean_equation s ++ nl ++ "\end{align}")
      with ("\begin{align" ++ "}" ++ nl ++ clean_equation s ++ nl
            ++ "\end{align}").
    rewrite lower_begin_align. discriminate.
Qed.

(** C7, as the code has it.  For every input that holds no double
    backslash and no word align, whose display output holds neither of
    them and no [\[] or [\]] delimiter either, [wrap_equation] with
    [inline] false applied to its own output gives that output again. *)
Theorem wrap_equation_display_idempotent (s : string) :
  contains "\\" s = false ->
  contains "align" (lower s) = false ->
  contains "\\" (wrap_equation s false) = false ->
  contains "align" (lower (wrap_equation s false)) = false ->
  contains "\[" (wrap_equation s false) = false ->
  contains "\]" (wrap_equation s false) = false ->
  wrap_equation (wrap_equation s false) false = wrap_equation s false.
Proof.
  intros _ _ Hbs Halign Hopen Hclose.
  pose proof (wrap_equation_equation_branch s Halign) as Hout.
  remember (wrap_equation s false) as out eqn:Hdef. clear Hdef.
  remember (clean_equation s) as body eqn:Hbody.
  assert (Hstrip : strip out = out).
  { rewrite Hout. destruct (negb _).
    - apply equation_wrapped_stripped.
    - rewrite Hbody. apply clean_equation_stripped. }
  assert (Hdollar : count_char "$" out = 0).
  { assert (count_char "$" body = 0)
      by (rewrite Hbody; apply clean_equation_no_dollar).
    rewrite Hout. destruct (negb _); [ | assumption ].
    rewrite !count_char_append. cbn [count_char Ascii.eqb]. simpl. lia. }
  assert (Hstart : startswith out "\begin{equation" = true).
  { rewrite Hout.
    destruct (startswith body "\begin{equation") eqn:E; cbn [negb]; cbv iota.
    - exact E.
    - reflexivity. }
  unfold wrap_equation.
  rewrite (clean_equation_fixed out Hstrip Hopen Hclose Hdollar).
  rewrite Hbs, Halign, Hstart. reflexivity.
Qed.

(** The equation of the tests, wrapped once and twice. *)
Lemma wrap_equation_display_idempotent_witness :
  wrap_equation (wrap_equation "E = mc^2" false) false
  = wrap_equation "E = mc^2" false.
Proof.
  apply (wrap_equation_display_idempotent "E = mc^2"); reflexivity.
Defined.

(** C7, as the claim has it, fails: the input [\$[] holds no double
    backslash and no align, nor does its display output, yet removing
    the dollar leaves a [\[] in the output, which the second
    application removes. *)
Lemma wrap_equation_display_not_idempotent :
  contains "\\" "\$[" = false
  /\ contains "align" (lower "\$[") = false
  /\ contains "\\" (wrap_equation "\$[" false) = false
  /\ contains "align" (lower (wrap_equation "\$[" false)) = false
  /\ wrap_equation "\$[" false
     = "\begin{equation}" ++ nl ++ "\[" ++ nl ++ "\end{equation}"
  /\ wrap_equation (wrap_equation "\$[" false) false
     = "\begin{equation}" ++ nl ++ nl ++ "\end{equation}"
  /\ wrap_equation (wrap_equation "\$[" false) false
     <> wrap_equation "\$[" false.
Proof. repeat split; try reflexivity. discriminate. Qed.

End EquationWrapper.

(** ** The gateway: its policy, request by request *)

Section GatewayPolicy.
Import VisionClient Vocabulary.

Lemma call_model_requests (self : Client) (world : Providers)
    (model : ModelProvider) (prompt image_path : string) (n : nat) :
  n <= snd (call_model self world model prompt image_path n) <= n + 1.
Proof.
  unfold call_model, _call_claude, _call_openai, bind, raise, ret, request.
  destruct model; [ destruct (anthropic_client self)
                  | destruct (openai_client self) | ]; simpl;
    try destruct (world _ _ _ _); simpl; lia.
Qed.

(** X13.  One call of [analyze_image] sends at most two requests, and at
    most one when the fallback is not allowed or is [NONE]. *)
Theorem analyze_image_at_most_two_requests
    (self : Client) (world : Providers) (image_path prompt : string)
    (use_fallback : bool) (n : nat) :
  n <= snd (analyze_image self world image_path prompt use_fallback n)
    <= n + 2
  /\ (fallback_enabled self use_fallback = false ->
      snd (analyze_image self world image_path prompt use_fallback n)
      <= n + 1).
Proof.
  pose proof (call_model_requests self world (primary_model self) prompt
                image_path n) as H1.
  unfold analyze_image, bind, try_except, ret, raise.
  destruct (call_model self world (primary_model self) prompt image_path n)
    as [[[text |] | e1] n1]; simpl in H1.
  - simpl. split; [ | intros _ ]; lia.
  - pose proof (call_model_requests self world (fallback_model self) prompt
                  image_path n1) as H2.
    destruct (fallback_enabled self use_fallback).
    + destruct (call_model self world (fallback_model self) prompt
                  image_path n1) as [[[text |] | e2] n2]; simpl in *;
        (split; [ lia | discriminate ]).
    + simpl. split; [ | intros _ ]; lia.
  - pose proof (call_model_requests self world (fallback_model self) prompt
                  image_path n1) as H2.
    unfold fallback_enabled.
    destruct use_fallback; simpl; [ | split; [ | intros _ ]; lia ].
    destruct (provider_eqb (fallback_model self) NONE); simpl;
      [ split; [ | intros _ ]; lia | ].
    destruct (call_model self world (fallback_model self) prompt
                image_path n1) as [[[text |] | e2] n2]; simpl in *;
      (split; [ lia | discriminate ]).
Qed.

(** X14.  When the primary provider answers, [analyze_image] returns its
    text and asks nobody else, whatever the fallback settings. *)
Theorem analyze_image_primary_answers
    (self : Client) (world : Providers) (image_path prompt text : string)
    (use_fallback : bool) (n n1 : nat) :
  call_model self world (primary_model self) prompt image_path n
  = (Returns (Some text), n1) ->
  analyze_image self world image_path prompt use_fallback n
  = (Returns text, n1)
  /\ n1 <= n + 1.
Proof.
  intros H. split.
  - unfold analyze_image, bind, try_except. rewrite H. reflexivity.
  - pose proof (call_model_requests self world (primary_model self) prompt
                  image_path n) as Hn. rewrite H in Hn. simpl in Hn. lia.
Qed.

Lemma analyze_image_primary_answers_witness :
  analyze_image demo_client (answering "\alpha") "eq.png" "prompt" true 0
  = (Returns "\alpha", 1)
  /\ 1 <= 0 + 1.
Proof.
  apply (analyze_image_primary_answers demo_client (answering "\alpha")
           "eq.png" "prompt" "\alpha" true 0 1).
  reflexivity.
Defined.

(** X15.  When the call of the primary provider raises, the fallback is
    allowed and configured, and the fallback provider answers,
    [analyze_image] returns the text of the fallback and the failure of
    the primary is not reported. *)
Theorem analyze_image_fallback_answers
    (self : Client) (world : Providers) (image_path prompt text : string)
    (n n1 n2 : nat) (e1 : Exc) :
  call_model self world (primary_model self) prompt image_path n
  = (Raises e1, n1) ->
  fallback_model self <> NONE ->
  call_model self world (fallback_model self) prompt image_path n1
  = (Returns (Some text), n2) ->
  analyze_image self world image_path prompt true n = (Returns text, n2).
Proof.
  intros Hprimary Hconfigured Hfallback.
  assert (Hnone : provider_eqb (fallback_model self) NONE = false).
  { destruct (provider_eqb (fallback_model self) NONE) eqn:E; [ | reflexivity ].
    apply provider_eqb_eq in E. contradiction. }
  unfold analyze_image, bind, try_except, fallback_enabled.
  rewrite Hprimary, Hnone. cbn [negb orb andb ret].
  rewrite Hfallback. reflexivity.
Qed.

Lemma analyze_image_fallback_answers_witness :
  analyze_image demo_client (claude_down "rate limit" "\alpha")
    "eq.png" "prompt" true 0
  = (Returns "\alpha", 2).
Proof.
  apply (analyze_image_fallback_answers demo_client
           (claude_down "rate limit" "\alpha") "eq.png" "prompt" "\alpha"
           0 1 2 {| exc_class := OtherException; exc_str := "rate limit" |}).
  - reflexivity.
  - discriminate.
  - reflexivity.
Defined.

(** X16.  When the call of the primary provider raises and the fallback
    is not allowed by the caller or is [NONE], [analyze_image] raises a
    [VisionClientError] whose message is [Primary model failed and no
    fallback configured: ] followed by the text of that failure, and
    asks nobody else. *)
Theorem analyze_image_no_fallback
    (self : Client) (world : Providers) (image_path prompt : string)
    (use_fallback : bool) (n n1 : nat) (e1 : Exc) :
  call_model self world (primary_model self) prompt image_path n
  = (Raises e1, n1) ->
  use_fallback = false \/ fallback_model self = NONE ->
  analyze_image self world image_path prompt use_fallback n
  = (Raises (vision_client_error
               ("Primary model failed and no fallback configured: "
                ++ exc_str e1)), n1).
Proof.
  intros Hprimary Hoff.
  assert (E : negb use_fallback || provider_eqb (fallback_model self) NONE
              = true).
  { destruct Hoff as [-> | ->]; [ reflexivity | ].
    simpl. apply orb_true_r. }
  unfold analyze_image, bind, try_except.
  rewrite Hprimary, E. reflexivity.
Qed.

Lemma analyze_image_no_fallback_witness :
  analyze_image demo_client (claude_down "rate limit" "\alpha")
    "eq.png" "prompt" false 0
  = (Raises (vision_client_error
       "Primary model failed and no fallback configured: rate limit"), 1).
Proof.
  apply (analyze_image_no_fallback demo_client
           (claude_down "rate limit" "\alpha") "eq.png" "prompt" false 0 1
           {| exc_class := OtherException; exc_str := "rate limit" |}).
  - reflexivity.
  - left. reflexivity.
Defined.

End GatewayPolicy.

(** ** The gateway: who is asked *)

Section GatewayProviders.
Import VisionClient Vocabulary.

Lemma call_model_agree (self : Client) (world1 world2 : Providers)
    (model : ModelProvider) (prompt image_path : string) (n : nat) :
  (forall k, configured self model = true ->
             world1 model prompt image_path k
             = world2 model prompt image_path k) ->
  call_model self world1 model prompt image_path n
  = call_model self world2 model prompt image_path n.
Proof.
  intros H. unfold call_model, _call_claude, _call_openai, bind, request.
  destruct model; simpl in H; [ | | reflexivity ].
  - destruct (anthropic_client self); [ | reflexivity ].
    simpl. rewrite (H n eq_refl). reflexivity.
  - destruct (openai_client self); [ | reflexivity ].
    simpl. rewrite (H n eq_refl). reflexivity.
Qed.

Lemma provider_eqb_refl (p : ModelProvider) : provider_eqb p p = true.
Proof. destruct p; reflexivity. Qed.

(** X17.  [analyze_image] asks only the primary provider and, when the
    fallback is allowed, the fallback provider, and only those of them
    whose API key was given: what the other providers would answer
    changes nothing. *)
Theorem analyze_image_asks_only_configured
    (self : Client) (world1 world2 : Providers) (image_path prompt : string)
    (use_fallback : bool) (n : nat) :
  (forall provider k,
      configured self provider && consulted self use_fallback provider = true ->
      world1 provider prompt image_path k
      = world2 provider prompt image_path k) ->
  analyze_image self world1 image_path prompt use_fallback n
  = analyze_image self world2 image_path prompt use_fallback n.
Proof.
  intros H. unfold analyze_image, bind, try_except.
  rewrite (call_model_agree self world1 world2 (primary_model self)).
  2:{ intros k Hc. apply H. unfold consulted.
      rewrite Hc, provider_eqb_refl. reflexivity. }
  destruct (call_model self world2 (primary_model self) prompt image_path n)
    as [[[text |] | e1] n1]; [ reflexivity | | ].
  - unfold fallback_enabled.
    destruct use_fallback; [ | reflexivity ].
    destruct (provider_eqb (fallback_model self) NONE); [ reflexivity | ].
    cbn [negb andb].
    rewrite (call_model_agree self world1 world2 (fallback_model self));
      [ reflexivity | ].
    intros k Hc. apply H. unfold consulted.
    rewrite Hc, provider_eqb_refl. simpl. apply orb_true_r.
  - unfold fallback_enabled.
    destruct use_fallback; [ | reflexivity ].
    destruct (provider_eqb (fallback_model self) NONE); [ reflexivity | ].
    cbn [negb andb orb ret].
    rewrite (call_model_agree self world1 world2 (fallback_model self));
      [ reflexivity | ].
    intros k Hc. apply H. unfold consulted.
    rewrite Hc, provider_eqb_refl. simpl. apply orb_true_r.
Qed.

(** With the OpenAI key only, whether Claude would fail or answer makes
    no difference. *)
Lemma analyze_image_asks_only_configured_witness :
  analyze_image openai_only_client (claude_down "rate limit" "\alpha")
    "eq.png" "prompt" true 0
  = analyze_image openai_only_client (answering "\alpha")
      "eq.png" "prompt" true 0.
Proof.
  apply (analyze_image_asks_only_configured openai_only_client
           (claude_down "rate limit" "\alpha") (answering "\alpha")
           "eq.png" "prompt" true 0).
  intros provider k H. destruct provider; [ discriminate | | ]; reflexivity.
Defined.

(** X18.  With no primary provider ([NONE]) and the fallback not allowed
    or [NONE], [analyze_image] raises the [VisionClientError] [No models
    available or all attempts failed] without sending a request. *)
Theorem analyze_image_without_primary
    (self : Client) (world : Providers) (image_path prompt : string)
    (use_fallback : bool) (n : nat) :
  primary_model self = NONE ->
  fallback_enabled self use_fallback = false ->
  analyze_image self world image_path prompt use_fallback n
  = (Raises (vision_client_error
               "No models available or all attempts failed"), n).
Proof.
  intros Hnone Hoff. unfold analyze_image, bind, try_except.
  rewrite Hnone, Hoff. reflexivity.
Qed.

Lemma analyze_image_without_primary_witness :
  analyze_image no_provider_client (answering "\alpha")
    "eq.png" "prompt" true 0
  = (Raises (vision_client_error
               "No models available or all attempts failed"), 0).
Proof.
  apply (analyze_image_without_primary no_provider_client
           (answering "\alpha") "eq.png" "prompt" true 0); reflexivity.
Defined.

End GatewayProviders.

(** ** Building the client *)

Section Construction.
Import VisionClient Vocabulary.

(** X19.  A [VisionClient] that [__init__] returns has the SDK client
    of at least one provider, and has the client of a provider exactly
    when a key for it, not empty, was passed or is in the environment;
    when neither key is there [__init__] never returns, and raises
    [NoAPIKeyError] when the two provider settings are passed. *)
Theorem init_needs_a_key
    (env : Env) (primary_model fallback_model : option ModelProvider)
    (anthropic_api_key openai_api_key : option string)
    (claude_model openai_model : string) :
  (forall c,
      __init__ env primary_model fallback_model anthropic_api_key
        openai_api_key claude_model openai_model = Returns c ->
      (VisionClient.anthropic_client (client c)
       || VisionClient.openai_client (client c) = true)
      /\ VisionClient.anthropic_client (client c)
         = has_key (or_else anthropic_api_key (env "ANTHROPIC_API_KEY"))
      /\ VisionClient.openai_client (client c)
         = has_key (or_else openai_api_key (env "OPENAI_API_KEY")))
  /\ (has_key (or_else anthropic_api_key (env "ANTHROPIC_API_KEY")) = false ->
      has_key (or_else openai_api_key (env "OPENAI_API_KEY")) = false ->
      (exists e,
          __init__ env primary_model fallback_model anthropic_api_key
            openai_api_key claude_model openai_model = Raises e)
      /\ (primary_model <> None -> fallback_model <> None ->
          exists message,
            __init__ env primary_model fallback_model anthropic_api_key
              openai_api_key claude_model openai_model
            = Raises {| exc_class := NoAPIKeyError; exc_str := message |})).
Proof.
  unfold __init__. split.
  - intros c.
    destruct (match primary_model with
              | Some p => Returns p
              | None => _ end) as [primary | e]; [ | discriminate ].
    destruct (match fallback_model with
              | Some f => Returns f
              | None => _ end) as [fallback | e]; [ | discriminate ].
    destruct (has_key (or_else anthropic_api_key (env "ANTHROPIC_API_KEY")));
      destruct (has_key (or_else openai_api_key (env "OPENAI_API_KEY")));
      simpl; try discriminate; intros [= <-]; simpl; auto.
  - intros -> ->. split.
    + destruct (match primary_model with
                | Some p => Returns p
                | None => _ end) as [primary | e]; [ | eauto ].
      destruct (match fallback_model with
                | Some f => Returns f
                | None => _ end) as [fallback | e]; simpl; eauto.
    + intros Hp Hf.
      destruct primary_model as [p |]; [ | contradiction ].
      destruct fallback_model as [f |]; [ | contradiction ].
      simpl. eauto.
Qed.

(** [repr] of a text of plain characters is the text between single
    quotes. *)
Lemma repr_char_plain (c : ascii) :
  plain_char c = true ->
  repr_char squote c = String c "" /\ Ascii.eqb squote c = false.
Proof.
  destruct c as [[] [] [] [] [] [] [] []]; intros H;
    solve [ discriminate H | repeat split ].
Qed.

Lemma repr_plain (text : string) :
  plain text = true -> repr text = "'" ++ text ++ "'".
Proof.
  intros H.
  assert (Hchars : repr_chars squote text = text
                   /\ count_char squote text = 0).
  { induction text as [| c text IH]; [ split; reflexivity | ].
    cbn [plain] in H. apply andb_true_iff in H as [Hc Ht].
    destruct (IH Ht) as [IH1 IH2].
    destruct (repr_char_plain c Hc) as [Hr Hq].
    cbn [repr_chars count_char]. rewrite Hr, IH1, Hq, IH2.
    split; reflexivity. }
  destruct Hchars as [Hchars Hcount].
  unfold repr. rewrite Hcount. cbn [Nat.ltb Nat.leb andb].
  rewrite Hchars. reflexivity.
Qed.

(** X20.  Without provider arguments the settings come from the
    environment: [PRIMARY_MODEL] defaults to Claude and [FALLBACK_MODEL]
    to OpenAI, [FALLBACK_MODEL=none] turns the fallback off, and a
    [PRIMARY_MODEL] that is none of [claude], [openai], [none] makes
    [__init__] raise the [ValueError] of the enumeration, key or no
    key, whose message is the [repr] of the value followed by
    [ is not a valid ModelProvider]; for a value of plain characters
    that [repr] is the value between single quotes, and the value
    [it's] is written between double quotes.  A provider passed as
    argument is taken as it is and the variable is not read.  With a
    key and without the two variables [__init__] returns. *)
Theorem init_reads_the_settings
    (env : Env) (anthropic_api_key openai_api_key : option string)
    (claude_model openai_model : string) :
  (forall c,
      env "PRIMARY_MODEL" = None -> env "FALLBACK_MODEL" = None ->
      __init__ env None None anthropic_api_key openai_api_key
        claude_model openai_model = Returns c ->
      VisionClient.primary_model (client c) = CLAUDE
      /\ VisionClient.fallback_model (client c) = OPENAI)
  /\ (forall c,
        env "FALLBACK_MODEL" = Some "none" ->
        __init__ env None None anthropic_api_key openai_api_key
          claude_model openai_model = Returns c ->
        VisionClient.fallback_model (client c) = NONE)
  /\ (forall text fallback_model,
        env "PRIMARY_MODEL" = Some text ->
        text <> "claude" -> text <> "openai" -> text <> "none" ->
        __init__ env None fallback_model anthropic_api_key openai_api_key
          claude_model openai_model
        = Raises {| exc_class := OtherException;
                    exc_str := repr text ++ " is not a valid ModelProvider" |})
  /\ (forall c p f,
        __init__ env (Some p) (Some f) anthropic_api_key openai_api_key
          claude_model openai_model = Returns c ->
        VisionClient.primary_model (client c) = p
        /\ VisionClient.fallback_model (client c) = f)
  /\ (forall text, plain text = true -> repr text = "'" ++ text ++ "'")
  /\ ModelProvider_of "Claude"
     = Raises {| exc_class := OtherException;
                 exc_str := "'Claude' is not a valid ModelProvider" |}
  /\ ModelProvider_of "it's"
     = Raises {| exc_class := OtherException;
                 exc_str :=
                   String dquote
                     ("it's" ++ String dquote " is not a valid ModelProvider") |}
  /\ (has_key (or_else anthropic_api_key (env "ANTHROPIC_API_KEY")) = true
      \/ has_key (or_else openai_api_key (env "OPENAI_API_KEY")) = true ->
      env "PRIMARY_MODEL" = None -> env "FALLBACK_MODEL" = None ->
      exists c,
        __init__ env None None anthropic_api_key openai_api_key
          claude_model openai_model = Returns c).
Proof.
  split; [ | split; [ | split; [ | split; [ | split; [ | split;
    [ | split ] ] ] ] ] ].
  - unfold __init__, getenv_default. intros c -> ->. simpl.
    destruct (negb _ && negb _); [ discriminate | ].
    intros [= <-]. split; reflexivity.
  - unfold __init__, getenv_default. intros c ->.
    destruct (match env "PRIMARY_MODEL" with
              | Some v => v
              | None => "claude" end) as [| ? ?] eqn:E;
      destruct (ModelProvider_of _) as [primary | e]; try discriminate;
      simpl; destruct (negb _ && negb _); try discriminate;
      intros [= <-]; reflexivity.
  - unfold __init__, getenv_default.
    intros text fallback_model -> H1 H2 H3. unfold ModelProvider_of.
    apply String.eqb_neq in H1, H2, H3. rewrite H1, H2, H3. reflexivity.
  - unfold __init__, getenv_default. intros c p f. simpl.
    destruct (negb _ && negb _); [ discriminate | ].
    intros [= <-]. split; reflexivity.
  - exact repr_plain.
  - reflexivity.
  - reflexivity.
  - unfold __init__, getenv_default. intros Hkey -> ->. simpl.
    destruct Hkey as [-> | ->]; rewrite ?andb_false_r; simpl; eauto.
Qed.

End Construction.

(** ** The orchestrator: errors and results *)

Section OrchestratorFlow.
Import LaTeXFormatter Converter Vocabulary.

(** X21.  The two [except] clauses of [convert].  An image that fails
    [validate_image] is refused with a [ConversionError] whose cause is
    the error of the validator, whatever the providers would answer;
    every exception that [analyze_image] raises is a
    [VisionClientError], so the second clause catches it and [convert]
    raises a [ConversionError] whose cause is that exception.
    Conversely a [ConversionError] of the first kind comes from the
    validator only, and one of the second kind from the gateway only,
    on an image that the validator has accepted. *)
Theorem convert_raises_conversion_errors
    (self : ImageToLaTeXConverter) (fs : ImageHandler.FileSystem)
    (world : VisionClient.Providers) (image_path : string)
    (declared : option ContentType) (auto_detect : bool) :
  (forall e world',
      ImageHandler.validate_image fs image_path = Raises e ->
      convert self fs world' image_path declared auto_detect
      = Raises (ImageValidationFailed e))
  /\ (forall b e n',
        ImageHandler.validate_image fs image_path = Returns b ->
        VisionClient.analyze_image (vision_client self) world image_path
          (select_prompt declared) true 0 = (Raises e, n') ->
        VisionClient.exc_class e = VisionClient.VisionClientError
        /\ convert self fs world image_path declared auto_detect
           = Raises (VisionModelFailed e))
  /\ (forall e,
        convert self fs world image_path declared auto_detect
        = Raises (ImageValidationFailed e) ->
        ImageHandler.validate_image fs image_path = Raises e)
  /\ (forall e,
        convert self fs world image_path declared auto_detect
        = Raises (VisionModelFailed e) ->
        exists b n',
          ImageHandler.validate_image fs image_path = Returns b
          /\ VisionClient.analyze_image (vision_client self) world
               image_path (select_prompt declared) true 0 = (Raises e, n')).
Proof.
  split; [ | split; [ | split ] ].
  - intros e world' H. unfold convert. rewrite H. reflexivity.
  - intros b e n' H E. unfold convert. rewrite H, E.
    apply analyze_image_raises_vision_client_error in E.
    unfold is_vision_client_error. rewrite E. split; reflexivity.
  - intros e. unfold convert.
    destruct (ImageHandler.validate_image fs image_path) as [b | e0];
      [ | intros [= <-]; reflexivity ].
    destruct (VisionClient.analyze_image _ _ _ _ _ _) as [[raw | e'] n'].
    + destruct (if validate_output self then _ else _). discriminate.
    + destruct (is_vision_client_error e'); discriminate.
  - intros e. unfold convert.
    destruct (ImageHandler.validate_image fs image_path) as [b | e0];
      [ | discriminate ].
    destruct (VisionClient.analyze_image _ _ _ _ _ _) as [[raw | e'] n'].
    + destruct (if validate_output self then _ else _). discriminate.
    + destruct (is_vision_client_error e'); [ | discriminate ].
      intros [= <-]. exists b, n'. split; reflexivity.
Qed.

(** X22.  In every result of [convert] the LaTeX code is the extraction
    of the raw response; the content type is the one detected in that
    code unless automatic detection is off and a type was declared,
    which is then kept as declared; the verdict and its message are
    those of [validate_latex] on that code, and with validation off the
    result is reported valid whatever the code is. *)
Theorem convert_result_from_response
    (self : ImageToLaTeXConverter) (fs : ImageHandler.FileSystem)
    (world : VisionClient.Providers) (image_path : string)
    (declared : option ContentType) (auto_detect : bool)
    (r : ConverterResult) :
  convert self fs world image_path declared auto_detect = Returns r ->
  latex_code r = extract_latex_code (raw_response r)
  /\ (auto_detect = true \/ declared = None ->
      content_type r = detect_content_type (latex_code r))
  /\ (forall c, auto_detect = false -> declared = Some c ->
                content_type r = c)
  /\ (validate_output self = true ->
      (is_valid r, validation_error r) = validate_latex (latex_code r))
  /\ (validate_output self = false ->
      is_valid r = true /\ validation_error r = None).
Proof.
  unfold convert.
  destruct (ImageHandler.validate_image fs image_path); [ | discriminate ].
  destruct (VisionClient.analyze_image _ _ _ _ _ _) as [[raw | e] n'];
    [ | destruct (is_vision_client_error e); discriminate ].
  destruct (validate_output self);
    [ destruct (validate_latex (extract_latex_code raw)) as [valid message]
        eqn:E | ];
    intros [= <-]; cbn [latex_code content_type raw_response is_valid
                        validation_error];
    (split; [ reflexivity | ]);
    (split; [ intros [-> | ->]; [ destruct declared | ]; reflexivity | ]);
    (split; [ intros c -> ->; reflexivity | ]);
    (split; [ intros H; try discriminate; auto | intros H; try discriminate;
                                                 auto ]).
Qed.

(** Validation off: an answer with a brace left open, which
    [validate_latex] refuses, is returned as valid. *)
Lemma convert_result_from_response_witness :
  convert {| vision_client := demo_client; validate_output := false |}
    (fs_of 4096 (Some "PNG")) (answering "\frac{a}{b") "eq.png"
    (Some TABLE) true
  = Returns {| latex_code := "\frac{a}{b";
               content_type := EQUATION;
               raw_response := "\frac{a}{b";
               is_valid := true;
               validation_error := None |}
  /\ validate_latex "\frac{a}{b" = (false, Some MSG_BRACES)
  /\ EQUATION = detect_content_type "\frac{a}{b".
Proof.
  split; [ reflexivity | ]. split; [ reflexivity | ].
  refine (proj1 (proj2 (convert_result_from_response
           {| vision_client := demo_client; validate_output := false |}
           (fs_of 4096 (Some "PNG")) (answering "\frac{a}{b") "eq.png"
           (Some TABLE) true
           {| latex_code := "\frac{a}{b";
              content_type := EQUATION;
              raw_response := "\frac{a}{b";
              is_valid := true;
              validation_error := None |} _)) _);
    [ reflexivity | left; reflexivity ].
Defined.

End OrchestratorFlow.

(** ** Encoding the image for a provider *)

Section Encoding.
Import VisionClient Vocabulary.

(** X23.  For an image that [validate_image] accepts, [_encode_image]
    returns the base64 text of the file with a media type that is one
    of [image/jpeg], [image/png], [image/gif], [image/webp]: the type of
    the format for JPEG, PNG, GIF and WEBP, and [image/png] for the two
    other accepted formats, BMP and TIFF. *)
Theorem encode_image_after_validation
    (fs : ImageHandler.FileSystem) (b64_of_file : string -> string)
    (image_path : string) (b : bool) :
  ImageHandler.validate_image fs image_path = Returns b ->
  exists img media_type,
    ImageHandler.image_open (fs image_path) = Returns img
    /\ _encode_image fs b64_of_file image_path
       = Returns (b64_of_file image_path, media_type)
    /\ In media_type [ "image/jpeg"; "image/png"; "image/gif"; "image/webp" ]
    /\ (ImageHandler.format img = Some "JPEG"
        \/ ImageHandler.format img = Some "JPG" ->
        media_type = "image/jpeg")
    /\ (ImageHandler.format img = Some "GIF" -> media_type = "image/gif")
    /\ (ImageHandler.format img = Some "WEBP" -> media_type = "image/webp")
    /\ (ImageHandler.format img = Some "PNG"
        \/ ImageHandler.format img = Some "BMP"
        \/ ImageHandler.format img = Some "TIFF" ->
        media_type = "image/png").
Proof.
  unfold ImageHandler.validate_image, _encode_image.
  destruct (ImageHandler.path_exists (fs image_path)); [ | discriminate ].
  destruct (ImageHandler.path_is_file (fs image_path)); [ | discriminate ].
  cbn [negb].
  destruct (ImageHandler.too_large _); [ discriminate | ].
  destruct (ImageHandler.image_open (fs image_path)) as [img | cause];
    [ | discriminate ].
  destruct (ImageHandler.unsupported (ImageHandler.format img)) eqn:E;
    [ discriminate | ].
  intros _. exists img.
  unfold ImageHandler.unsupported in E.
  destruct (ImageHandler.format img) as [f |]; [ | discriminate ].
  apply negb_false_iff, mem_In in E.
  repeat destruct E as [<- | E]; try destruct E;
    eexists; (split; [ reflexivity | ]); (split; [ reflexivity | ]);
    (split; [ simpl; tauto | ]);
    repeat split; intros H; repeat destruct H as [H | H];
    solve [ discriminate | reflexivity ].
Qed.

Lemma encode_image_after_validation_witness :
  exists img media_type,
    ImageHandler.image_open (fs_of 4096 (Some "TIFF") "scan.tiff")
    = Returns img
    /\ _encode_image (fs_of 4096 (Some "TIFF")) (fun _ => "AAAA") "scan.tiff"
       = Returns ("AAAA", media_type)
    /\ In media_type [ "image/jpeg"; "image/png"; "image/gif"; "image/webp" ]
    /\ (ImageHandler.format img = Some "JPEG"
        \/ ImageHandler.format img = Some "JPG" ->
        media_type = "image/jpeg")
    /\ (ImageHandler.format img = Some "GIF" -> media_type = "image/gif")
    /\ (ImageHandler.format img = Some "WEBP" -> media_type = "image/webp")
    /\ (ImageHandler.format img = Some "PNG"
        \/ ImageHandler.format img = Some "BMP"
        \/ ImageHandler.format img = Some "TIFF" ->
        media_type = "image/png").
Proof.
  apply (encode_image_after_validation (fs_of 4096 (Some "TIFF"))
           (fun _ => "AAAA") "scan.tiff" true).
  reflexivity.
Defined.

End Encoding.

(** ** The route [POST /convert] *)

Section Route.
Import Api Vocabulary.

Lemma raised_of_status (e : Converter.ConvertExc) :
  status_code (convert_image_except (raised_of e)) = 500%Z.
Proof. destruct e; reflexivity. Qed.

(** The [try] block never raises an [ImageHandlerError]: the converter
    has wrapped it. *)
Lemma convert_image_try_status
    (converter : Converter.ImageToLaTeXConverter)
    (fs : ImageHandler.FileSystem) (world : VisionClient.Providers)
    (saved : result string VisionClient.Exc)
    (content_type : ContentTypeEnum) (inline : bool)
    (caption title author : option string) (e : Raised) :
  convert_image_try converter fs world saved content_type inline caption
    title author = Raises e ->
  status_code (convert_image_except e) = 500%Z.
Proof.
  unfold convert_image_try.
  destruct saved as [temp_file_path | e0]; [ | intros [= <-]; reflexivity ].
  destruct content_type;
    [ destruct (Converter.convert_equation _ _ _ _ _)
    | destruct (Converter.convert_table _ _ _ _ _)
    | destruct (Converter.convert _ _ _ _ _ _)
    | destruct (Converter.convert_to_document _ _ _ _ _ _)
    | destruct (Converter.convert _ _ _ _ _ _) ];
    try discriminate; intros [= <-]; apply raised_of_status.
Qed.

(** X24.  For the content types [equation], [table] and [document] every
    response of the route says [is_valid] true with no
    [validation_error] and repeats the requested type, whatever the
    validator found in the answer of the model. *)
Theorem convert_image_explicit_types_report_valid
    (converter : option Converter.ImageToLaTeXConverter)
    (fs : ImageHandler.FileSystem) (world : VisionClient.Providers)
    (file : UploadFile) (saved : result string VisionClient.Exc)
    (content_type : ContentTypeEnum) (inline : bool)
    (caption title author : option string) (response : ConversionResponse) :
  content_type = EQUATION \/ content_type = TABLE \/ content_type = DOCUMENT ->
  convert_image converter fs world file saved content_type inline caption
    title author = Returns response ->
  is_valid response = true
  /\ validation_error response = None
  /\ Api.content_type response
     = match content_type with
       | EQUATION => "equation"
       | TABLE => "table"
       | _ => "document"
       end.
Proof.
  intros Htype. unfold convert_image.
  destruct converter as [c |]; [ | discriminate ].
  destruct (negb _ || negb _); [ discriminate | ].
  unfold convert_image_try.
  destruct saved as [temp_file_path | e0]; [ | discriminate ].
  destruct Htype as [-> | [-> | ->]];
    [ destruct (Converter.convert_equation c fs world temp_file_path inline)
    | destruct (Converter.convert_table c fs world temp_file_path caption)
    | destruct (Converter.convert_to_document c fs world temp_file_path
                  title author) ];
    try discriminate; intros [= <-]; repeat split.
Qed.

(** An equation whose answer lacks a closing brace: the converter finds
    it invalid, the route reports it valid. *)
Lemma convert_image_explicit_types_report_valid_witness :
  Converter.convert demo_converter (fs_of 4096 (Some "PNG"))
    (answering "\frac{a}{b") "upload.png" (Some LaTeXFormatter.EQUATION) true
  = Returns {| Converter.latex_code := "\frac{a}{b";
               Converter.content_type := LaTeXFormatter.EQUATION;
               Converter.raw_response := "\frac{a}{b";
               Converter.is_valid := false;
               Converter.validation_error := Some LaTeXFormatter.MSG_BRACES |}
  /\ convert_image (Some demo_converter) (fs_of 4096 (Some "PNG"))
       (answering "\frac{a}{b")
       {| file_content_type := Some "image/png"; filename := Some "eq.png" |}
       (Returns "upload.png") EQUATION false None None None
     = Returns {| latex_code :=
                    "\begin{equation}" ++ nl ++ "\frac{a}{b" ++ nl
                    ++ "\end{equation}";
                  content_type := "equation";
                  is_valid := true;
                  validation_error := None |}
  /\ is_valid
       {| latex_code :=
            "\begin{equation}" ++ nl ++ "\frac{a}{b" ++ nl ++ "\end{equation}";
          content_type := "equation";
          is_valid := true;
          validation_error := None |} = true.
Proof.
  split; [ reflexivity | ]. split; [ reflexivity | ].
  refine (proj1 (convert_image_explicit_types_report_valid
           (Some demo_converter)
           (fs_of 4096 (Some "PNG")) (answering "\frac{a}{b")
           {| file_content_type := Some "image/png";
              filename := Some "eq.png" |}
           (Returns "upload.png") EQUATION false None None None
           {| latex_code :=
                "\begin{equation}" ++ nl ++ "\frac{a}{b" ++ nl
                ++ "\end{equation}";
              content_type := "equation";
              is_valid := true;
              validation_error := None |} _ _)).
  - left. reflexivity.
  - reflexivity.
Defined.

(** X25.  The handler [convert_image], run on a form that FastAPI has
    accepted, raises the [HTTPException] 503 with the not-initialised
    detail whenever no converter was built, before it looks at the
    upload, and 400 with the invalid-file-type detail whenever a
    converter is there and the upload declares no media type or one
    that does not begin with [image/]; past these two tests it returns
    a response or raises 500: for an upload that could not be saved,
    for an image that the validator refuses (too large, unsupported
    format, not readable), which reaches the handler wrapped in a
    [ConversionError], and for a failure of the gateway.  So 503 is
    raised exactly when no converter was built and 400 only for an
    upload that is not declared an image. *)
Theorem convert_image_status
    (converter : option Converter.ImageToLaTeXConverter)
    (fs : ImageHandler.FileSystem) (world : VisionClient.Providers)
    (file : UploadFile) (saved : result string VisionClient.Exc)
    (content_type : ContentTypeEnum) (inline : bool)
    (caption title author : option string) :
  (forall h,
      convert_image converter fs world file saved content_type inline
        caption title author = Raises h ->
      (status_code h = 503%Z <-> converter = None)
      /\ (status_code h = 400%Z ->
          LaTeXFormatter.truthy (file_content_type file) = false
          \/ startswith (LaTeXFormatter.text_of (file_content_type file))
               "image/" = false)
      /\ (status_code h = 503 \/ status_code h = 400 \/ status_code h = 500)%Z)
  /\ (forall c temp_file_path e,
        converter = Some c ->
        LaTeXFormatter.truthy (file_content_type file) = true ->
        startswith (LaTeXFormatter.text_of (file_content_type file))
          "image/" = true ->
        saved = Returns temp_file_path ->
        ImageHandler.validate_image fs temp_file_path = Raises e ->
        convert_image converter fs world file saved content_type inline
          caption title author
        = Raises {| status_code := 500;
                    detail :=
                      ConversionErrorText (Converter.ImageValidationFailed e) |})
  /\ (converter = None ->
      convert_image converter fs world file saved content_type inline
        caption title author
      = Raises {| status_code := 503;
                  detail :=
                    Text "API not initialized. Check API keys configuration." |})
  /\ (forall c,
        converter = Some c ->
        LaTeXFormatter.truthy (file_content_type file) = false
        \/ startswith (LaTeXFormatter.text_of (file_content_type file))
             "image/" = false ->
        convert_image converter fs world file saved content_type inline
          caption title author
        = Raises {| status_code := 400;
                    detail :=
                      Text ("Invalid file type: "
                            ++ LaTeXFormatter.text_of (file_content_type file)
                            ++ ". Must be an image.") |})
  /\ (forall c,
        converter = Some c ->
        LaTeXFormatter.truthy (file_content_type file) = true ->
        startswith (LaTeXFormatter.text_of (file_content_type file))
          "image/" = true ->
        (exists response,
            convert_image converter fs world file saved content_type inline
              caption title author = Returns response)
        \/ (exists h,
              convert_image converter fs world file saved content_type
                inline caption title author = Raises h
              /\ status_code h = 500%Z))
  /\ (forall c e,
        converter = Some c ->
        LaTeXFormatter.truthy (file_content_type file) = true ->
        startswith (LaTeXFormatter.text_of (file_content_type file))
          "image/" = true ->
        saved = Raises e ->
        convert_image converter fs world file saved content_type inline
          caption title author
        = Raises {| status_code := 500; detail := UnexpectedError e |})
  /\ (forall c temp_file_path b e n',
        converter = Some c ->
        LaTeXFormatter.truthy (file_content_type file) = true ->
        startswith (LaTeXFormatter.text_of (file_content_type file))
          "image/" = true ->
        saved = Returns temp_file_path ->
        ImageHandler.validate_image fs temp_file_path = Returns b ->
        VisionClient.analyze_image (Converter.vision_client c) world
          temp_file_path
          (Converter.select_prompt (content_type_map content_type)) true 0
        = (Raises e, n') ->
        convert_image converter fs world file saved content_type inline
          caption title author
        = Raises {| status_code := 500;
                    detail :=
                      ConversionErrorText (Converter.VisionModelFailed e) |}).
Proof.
  split; [ | split; [ | split; [ | split; [ | split; [ | split ] ] ] ] ].
  - intros h. unfold convert_image.
    destruct converter as [c |].
    + destruct (LaTeXFormatter.truthy (file_content_type file)) eqn:Et;
        destruct (startswith _ "image/") eqn:Es; cbn [negb orb];
        try (intros [= <-]; cbn [status_code];
             repeat split; auto; try discriminate; lia).
      destruct (convert_image_try _ _ _ _ _ _ _ _ _) as [resp | e] eqn:E;
        [ discriminate | ].
      apply convert_image_try_status in E. intros [= <-]. rewrite E.
      repeat split; auto; try discriminate; lia.
    + intros [= <-]. cbn [status_code].
      repeat split; auto; try discriminate; lia.
  - intros c temp_file_path e -> Ht Hs -> Hv. unfold convert_image.
    rewrite Ht, Hs. cbn [negb orb].
    unfold convert_image_try, Converter.convert_equation,
      Converter.convert_table, Converter.convert_to_document,
      Converter.convert.
    rewrite Hv. destruct content_type; reflexivity.
  - intros ->. reflexivity.
  - intros c -> H. unfold convert_image.
    destruct H as [-> | ->]; rewrite ?orb_true_r; reflexivity.
  - intros c -> Ht Hs. unfold convert_image.
    rewrite Ht, Hs. cbn [negb orb].
    destruct (convert_image_try _ _ _ _ _ _ _ _ _) as [resp | e] eqn:E.
    + left. exists resp. reflexivity.
    + right. eexists. split; [ reflexivity | ].
      exact (convert_image_try_status _ _ _ _ _ _ _ _ _ _ E).
  - intros c e -> Ht Hs ->. unfold convert_image.
    rewrite Ht, Hs. reflexivity.
  - intros c temp_file_path b e n' -> Ht Hs -> Hv Ha. unfold convert_image.
    rewrite Ht, Hs. cbn [negb orb].
    pose proof (analyze_image_raises_vision_client_error _ _ _ _ _ _ _ _ Ha)
      as Hclass.
    unfold convert_image_try, Converter.convert_equation,
      Converter.convert_table, Converter.convert_to_document,
      Converter.convert.
    rewrite Hv.
    destruct content_type; cbn [content_type_map] in *; rewrite Ha;
      unfold Converter.is_vision_client_error; rewrite Hclass; reflexivity.
Qed.

End Route.

(** ** The wrappers and the classifier *)

Section Wrappers.
Import LaTeXFormatter Vocabulary.

(** A text between a first character that is not white and a tail that
    trimming leaves alone is left alone. *)
Lemma strip_between (c : ascii) (a m b : string) :
  is_space c = false -> is_empty (rstrip b) = false -> rstrip b = b ->
  strip (String c a ++ m ++ b) = String c a ++ m ++ b.
Proof.
  intros Hc Hne Hb. unfold strip.
  change (String c a ++ m ++ b) with (String c (a ++ m ++ b)).
  rewrite (lstrip_fixed _ _ Hc).
  change (String c (a ++ m ++ b)) with (String c a ++ m ++ b).
  rewrite <- append_assoc, (rstrip_nonempty_append _ _ Hne), Hb.
  reflexivity.
Qed.

(** What [wrap_table] builds when the code is not already a table. *)
Lemma wrap_table_wrapped (s : string) (caption : option string) :
  startswith (strip s) "\begin{table" = false ->
  exists m, wrap_table s caption = "\begin{table}[htbp]" ++ m ++ "\end{table}".
Proof.
  intros H. unfold wrap_table. rewrite H.
  destruct (truthy caption);
    destruct (negb (startswith (strip s) "\begin{tabular"));
    rewrite !append_assoc.
  - exists (nl ++ "\centering" ++ nl ++ "\caption{" ++ text_of caption ++ "}"
            ++ nl ++ "\begin{tabular}{c}" ++ nl ++ strip s ++ nl
            ++ "\end{tabular}" ++ nl).
    rewrite !append_assoc. reflexivity.
  - exists (nl ++ "\centering" ++ nl ++ "\caption{" ++ text_of caption ++ "}"
            ++ nl ++ strip s ++ nl).
    rewrite !append_assoc. reflexivity.
  - exists (nl ++ "\centering" ++ nl ++ "\begin{tabular}{c}" ++ nl ++ strip s
            ++ nl ++ "\end{tabular}" ++ nl).
    rewrite !append_assoc. reflexivity.
  - exists (nl ++ "\centering" ++ nl ++ strip s ++ nl).
    rewrite !append_assoc. reflexivity.
Qed.

Lemma wrap_table_starts (s : string) (caption : option string) :
  startswith (wrap_table s caption) "\begin{table" = true
  /\ strip (wrap_table s caption) = wrap_table s caption.
Proof.
  destruct (startswith (strip s) "\begin{table") eqn:E.
  - unfold wrap_table. rewrite E. split; [ exact E | apply strip_idempotent ].
  - destruct (wrap_table_wrapped s caption E) as [m ->]. split.
    + reflexivity.
    + apply (strip_between "\" "begin{table}[htbp]" m "\end{table}");
        reflexivity.
Qed.

(** X1.  [wrap_table] is idempotent: wrapping its own output again, with
    any caption, returns that output unchanged. *)
Theorem wrap_table_idempotent (s : string) (caption caption' : option string) :
  wrap_table (wrap_table s caption) caption' = wrap_table s caption.
Proof.
  destruct (wrap_table_starts s caption) as [Hstart Hstrip].
  unfold wrap_table at 1. rewrite Hstrip, Hstart. reflexivity.
Qed.

Lemma startswith_lower (s p : string) :
  startswith s p = true -> contains (lower p) (lower s) = true.
Proof.
  intros H. apply contains_lower, contains_prefix, H.
Qed.

Lemma detect_not_unknown (s : string) :
  equation_marked s = true -> detect_content_type s <> UNKNOWN.
Proof.
  unfold equation_marked, detect_content_type. intros ->.
  repeat match goal with
         | |- context [ if ?b then _ else _ ] => destruct b
         end; discriminate.
Qed.

(** X2.  What [wrap_table] returns always begins with [\begin{table],
    holds the trimmed code as it was, and is classified by
    [detect_content_type] as a table, or as a document when it holds a
    document marker: never as an equation, a diagram or unknown. *)
Theorem wrap_table_is_a_table (s : string) (caption : option string) :
  startswith (wrap_table s caption) "\begin{table" = true
  /\ contains (strip s) (wrap_table s caption) = true
  /\ (detect_content_type (wrap_table s caption) = TABLE
      \/ detect_content_type (wrap_table s caption) = DOCUMENT).
Proof.
  destruct (wrap_table_starts s caption) as [Hstart _].
  split; [ exact Hstart | ]. split.
  - unfold wrap_table. destruct (startswith (strip s) "\begin{table").
    + apply contains_prefix. rewrite <- (append_nil_r (strip s)) at 2.
      apply prefix_append.
    + destruct (truthy caption);
        destruct (negb (startswith (strip s) "\begin{tabular"));
        rewrite !append_assoc;
        repeat first [ apply contains_prefix, prefix_append
                     | apply contains_append_l ].
  - apply startswith_lower in Hstart.
    change (lower "\begin{table") with "\begin{table" in Hstart.
    unfold detect_content_type. rewrite Hstart.
    destruct (_ || _); [ right | left ]; reflexivity.
Qed.

(** X3.  What [create_full_document] returns is always classified as a
    document, holds the content as it was and is longer than it: the
    preamble is added again when the content is already a complete
    document, so the function is not idempotent on any input. *)
Theorem create_full_document_is_a_document
    (content : string) (title author : option string) (cls : string) :
  detect_content_type (create_full_document content title author cls)
  = DOCUMENT
  /\ contains content (create_full_document content title author cls) = true
  /\ String.length content
     < String.length (create_full_document content title author cls)
  /\ create_full_document
       (create_full_document content title author cls) title author cls
     <> create_full_document content title author cls.
Proof.
  assert (Hlen : forall c,
             String.length c
             < String.length (create_full_document c title author cls)).
  { intros c. rewrite create_full_document_eq, !length_append.
    unfold document_foot. rewrite !length_append. simpl. lia. }
  split.
  { apply detect_document_marker. left.
    rewrite create_full_document_eq. unfold document_head.
    change "\documentclass{" with ("\documentclass" ++ "{").
    rewrite !append_assoc. apply contains_prefix, prefix_append. }
  split.
  { rewrite create_full_document_eq. apply contains_spec.
    exists (document_head cls ++ title_block title author), document_foot.
    rewrite !append_assoc. reflexivity. }
  split; [ apply Hlen | ].
  intros E. specialize (Hlen (create_full_document content title author cls)).
  rewrite E in Hlen. lia.
Qed.

Lemma count_char_dollar_pieces (body : string) :
  count_char "$" body = 0 ->
  count_char "$" ("$" ++ body ++ "$") = 2
  /\ count_char "$" ("\begin{align}" ++ nl ++ body ++ nl ++ "\end{align}") = 0
  /\ count_char "$" ("\begin{equation}" ++ nl ++ body ++ nl
                     ++ "\end{equation}") = 0.
Proof.
  intros H. rewrite !count_char_append, H. repeat split; reflexivity.
Qed.

(** X4.  Whatever the input, the inline output of [wrap_equation] holds
    exactly two dollars, the ones around it, and the display output
    holds none: dollars of the input never reach the output. *)
Theorem wrap_equation_dollars (s : string) :
  count_char "$" (wrap_equation s true) = 2
  /\ count_char "$" (wrap_equation s false) = 0.
Proof.
  pose proof (clean_equation_no_dollar s) as H.
  destruct (count_char_dollar_pieces _ H) as (H1 & H2 & H3).
  unfold wrap_equation. split; [ exact H1 | ].
  destruct (_ || _); destruct (negb _); assumption.
Qed.

(** X5.  What [wrap_equation] returns is never classified as unknown by
    [detect_content_type]: the display output begins with
    [\begin{equation] or [\begin{align], the inline output with a
    dollar. *)
Theorem wrap_equation_is_classified (s : string) (inline : bool) :
  detect_content_type (wrap_equation s inline) <> UNKNOWN
  /\ (startswith (wrap_equation s false) "\begin{equation"
      || startswith (wrap_equation s false) "\begin{align" = true)
  /\ startswith (wrap_equation s true) "$" = true.
Proof.
  assert (Hdisplay : startswith (wrap_equation s false) "\begin{equation"
                     || startswith (wrap_equation s false) "\begin{align"
                     = true).
  { unfold wrap_equation.
    destruct (contains "\\" (clean_equation s)
              || contains "align" (lower (clean_equation s))).
    - destruct (startswith (clean_equation s) "\begin{align") eqn:E;
        cbn [negb]; cbv iota;
        first [ reflexivity | apply orb_true_r | rewrite E; apply orb_true_r ].
    - destruct (startswith (clean_equation s) "\begin{equation") eqn:E;
        cbn [negb]; cbv iota;
        first [ reflexivity | rewrite E; reflexivity ]. }
  assert (Hinline : startswith (wrap_equation s true) "$" = true)
    by apply (prefix_append "$" (clean_equation s ++ "$")).
  split; [ | split; [ exact Hdisplay | exact Hinline ] ].
  apply detect_not_unknown. unfold equation_marked, any_in.
  apply existsb_exists. destruct inline.
  - exists "$". split; [ simpl; tauto | ].
    apply (startswith_lower (wrap_equation s true) "$" Hinline).
  - apply orb_true_iff in Hdisplay as [H | H].
    + exists "\begin{equation". split; [ simpl; tauto | ].
      apply (startswith_lower _ _ H).
    + exists "\begin{align". split; [ simpl; tauto | ].
      apply (startswith_lower _ _ H).
Qed.

End Wrappers.

(** ** Text without LaTeX *)

Section PlainText.
Import LaTeXFormatter Vocabulary.

(** Lowering neither makes nor removes a backslash or a dollar. *)
Lemma lower_char_backslash (d : ascii) :
  Ascii.eqb "\" (lower_char d) = Ascii.eqb "\" d.
Proof. destruct d as [[] [] [] [] [] [] [] []]; reflexivity. Qed.

Lemma lower_char_dollar (d : ascii) :
  Ascii.eqb "$" (lower_char d) = Ascii.eqb "$" d.
Proof. destruct d as [[] [] [] [] [] [] [] []]; reflexivity. Qed.

Lemma count_char_lower (s : string) :
  count_char "\" (lower s) = count_char "\" s
  /\ count_char "$" (lower s) = count_char "$" s.
Proof.
  induction s as [| d s [IH1 IH2]]; [ split; reflexivity | ].
  cbn [lower count_char].
  rewrite lower_char_backslash, lower_char_dollar, IH1, IH2.
  split; reflexivity.
Qed.

(** X6.  A text without any backslash and without any dollar is
    classified as unknown by [detect_content_type]: every marker of
    every type starts with one of the two. *)
Theorem detect_content_type_plain_text (s : string) :
  count_char "\" s = 0 -> count_char "$" s = 0 ->
  detect_content_type s = UNKNOWN.
Proof.
  intros Hb Hd. destruct (count_char_lower s) as [Eb Ed].
  rewrite <- Eb in Hb. rewrite <- Ed in Hd.
  unfold detect_content_type, any_in. cbn [existsb].
  rewrite !(contains_count_char "\" _ _ Hb).
  rewrite !(contains_count_char "$" _ _ Hd).
  reflexivity.
Qed.

Lemma detect_content_type_plain_text_witness :
  detect_content_type "The image shows E = mc^2, a table and a figure."
  = UNKNOWN.
Proof.
  apply (detect_content_type_plain_text
           "The image shows E = mc^2, a table and a figure.");
    reflexivity.
Defined.

End PlainText.

(** ** Inline wrapping *)

Section InlineWrapper.
Import LaTeXFormatter Vocabulary.

Lemma count_char_cons_zero (c d : ascii) (s : string) :
  count_char c (String d s) = 0 -> c <> d /\ count_char c s = 0.
Proof.
  cbn [count_char]. destruct (Ascii.eqb_spec c d); [ discriminate | ].
  intros H. split; assumption.
Qed.

(** Between two dollars, a text without dollars makes no double
    dollar, and removing the dollars gives it back. *)
Lemma no_double_dollar_tail (x : string) :
  count_char "$" x = 0 -> contains "$$" (x ++ "$") = false.
Proof.
  induction x as [| e x IH]; [ reflexivity | ].
  intros H. apply count_char_cons_zero in H as [Hne H0].
  change (String e x ++ "$") with (String e (x ++ "$")).
  cbn [contains]. rewrite prefix_cons.
  destruct (ascii_dec "$" e); [ contradiction | ]. apply IH, H0.
Qed.

Lemma no_double_dollar (d : ascii) (x : string) :
  count_char "$" (String d x) = 0 ->
  contains "$$" ("$" ++ String d x ++ "$") = false.
Proof.
  intros H. pose proof (no_double_dollar_tail _ H) as Ht.
  apply count_char_cons_zero in H as [Hne H0].
  change ("$" ++ String d x ++ "$") with (String "$" (String d x ++ "$")).
  cbn [contains]. rewrite Ht, orb_false_r.
  change (String d x ++ "$") with (String d (x ++ "$")).
  rewrite !prefix_cons.
  destruct (ascii_dec "$" "$"); [ | reflexivity ].
  destruct (ascii_dec "$" d); [ contradiction | reflexivity ].
Qed.

Lemma replace_dollar_tail (x : string) :
  count_char "$" x = 0 -> replace_scan "$" "" 0 (x ++ "$") = x.
Proof.
  induction x as [| e x IH]; [ reflexivity | ].
  intros H. apply count_char_cons_zero in H as [Hne H0].
  change (String e x ++ "$") with (String e (x ++ "$")).
  cbn [replace_scan]. rewrite prefix_cons.
  destruct (ascii_dec "$" e); [ contradiction | ].
  rewrite (IH H0). reflexivity.
Qed.

Lemma replace_dollar_wrapped (x : string) :
  count_char "$" x = 0 -> replace "$" "" ("$" ++ x ++ "$") = x.
Proof.
  intros H. unfold replace. cbn [is_empty].
  change ("$" ++ x ++ "$") with (String "$" (x ++ "$")).
  cbn [replace_scan]. rewrite prefix_cons, prefix_nil.
  destruct (ascii_dec "$" "$"); [ | congruence ].
  cbn [String.length Nat.sub append]. apply replace_dollar_tail, H.
Qed.

(** X7.  When the inline output of [wrap_equation] holds no [\[] and no
    [\]], wrapping it inline again returns it unchanged: the two
    dollars are removed and put back. *)
Theorem wrap_equation_inline_idempotent (s : string) :
  contains "\[" (wrap_equation s true) = false ->
  contains "\]" (wrap_equation s true) = false ->
  wrap_equation (wrap_equation s true) true = wrap_equation s true.
Proof.
  pose proof (clean_equation_no_dollar s) as Hdollar.
  pose proof (clean_equation_stripped s) as Hstrip.
  unfold wrap_equation.
  remember (clean_equation s) as body eqn:Hbody. clear Hbody s.
  intros Hopen Hclose.
  assert (E : clean_equation ("$" ++ body ++ "$") = body).
  { unfold clean_equation, equation_delims. cbn [fold_left].
    rewrite (strip_between "$" "" body "$") by reflexivity.
    change (String "$" "" ++ body ++ "$") with ("$" ++ body ++ "$").
    rewrite (replace_absent "\[" "" _ Hopen).
    rewrite (replace_absent "\]" "" _ Hclose).
    destruct body as [| d x]; [ reflexivity | ].
    rewrite (replace_absent "$$" "" _ (no_double_dollar d x Hdollar)).
    rewrite (replace_dollar_wrapped _ Hdollar). exact Hstrip. }
  rewrite E. reflexivity.
Qed.

Lemma wrap_equation_inline_idempotent_witness :
  wrap_equation (wrap_equation "E = mc^2" true) true
  = wrap_equation "E = mc^2" true.
Proof.
  apply (wrap_equation_inline_idempotent "E = mc^2"); reflexivity.
Defined.

End InlineWrapper.

(** ** The extractor: lines *)

Section ExtractorLines.
Import LaTeXFormatter Vocabulary.

Lemma split_nl_cons (s : string) : exists h t, split_nl s = h :: t.
Proof.
  destruct s as [| c s]; simpl; [ eauto | ].
  destruct (Ascii.eqb c nl_char); [ eauto | ].
  destruct (split_nl s); eauto.
Qed.

Lemma join_nl_cons (x y : string) (l : list string) :
  join_nl (x :: y :: l) = x ++ nl ++ join_nl (y :: l).
Proof. reflexivity. Qed.

(** Joining the lines of a text gives the text back. *)
Lemma join_split (s : string) : join_nl (split_nl s) = s.
Proof.
  induction s as [| c s IH]; [ reflexivity | ]. cbn [split_nl].
  destruct (split_nl_cons s) as (h & t & E). rewrite E in *.
  destruct (Ascii.eqb_spec c nl_char) as [-> | Hne].
  - rewrite join_nl_cons, IH. reflexivity.
  - destruct t as [| y t].
    + change (join_nl [ h ]) with h in IH. rewrite IH. reflexivity.
    + rewrite join_nl_cons in *. rewrite <- IH. reflexivity.
Qed.

(** The lines after some point, joined, are a piece of the joined
    whole. *)
Lemma join_suffix (pre l : list string) :
  exists a, join_nl (pre ++ l)%list = a ++ join_nl l.
Proof.
  induction pre as [| x pre [a IH]]; [ exists ""; reflexivity | ].
  cbn [app]. destruct (pre ++ l)%list as [| y ys] eqn:E.
  - apply app_eq_nil in E as [_ ->]. exists x.
    change (join_nl [ x ]) with x. change (join_nl []) with "".
    rewrite append_nil_r. reflexivity.
  - exists (x ++ nl ++ a). rewrite join_nl_cons, IH, !append_assoc.
    reflexivity.
Qed.

Lemma scan_line_started (acc : list string) (line : string) :
  scan_line (true, acc) line = (true, (acc ++ [ line ])%list).
Proof. reflexivity. Qed.

Lemma scan_line_waiting (acc : list string) (line : string) :
  scan_line (false, acc) line
  = if triggers line then (true, (acc ++ [ line ])%list) else (false, acc).
Proof.
  unfold scan_line, triggers. fold (is_explanatory line).
  destruct (is_explanatory line); [ reflexivity | ].
  destruct (is_latex_start line); reflexivity.
Qed.

(** Once started, the scan keeps every line. *)
Lemma scan_started (lines acc : list string) :
  fold_left scan_line lines (true, acc) = (true, (acc ++ lines)%list).
Proof.
  revert acc. induction lines as [| l lines IH]; intros acc.
  - rewrite app_nil_r. reflexivity.
  - cbn [fold_left]. rewrite scan_line_started, IH, <- app_assoc.
    reflexivity.
Qed.

(** The scan keeps nothing, or the lines from the first one that
    triggers to the last. *)
Lemma scan_outcome (lines acc : list string) :
  ((forall l, In l lines -> triggers l = false)
   /\ fold_left scan_line lines (false, acc) = (false, acc))
  \/ (exists pre l0 rest,
         lines = (pre ++ l0 :: rest)%list
         /\ triggers l0 = true
         /\ fold_left scan_line lines (false, acc)
            = (true, (acc ++ l0 :: rest)%list)).
Proof.
  induction lines as [| l lines IH].
  - left. split; [ intros l [] | reflexivity ].
  - cbn [fold_left]. rewrite scan_line_waiting.
    destruct (triggers l) eqn:E.
    + right. exists [], l, lines. rewrite scan_started, <- app_assoc.
      repeat split; auto.
    + destruct IH as [[Hno Hfold] | (pre & l0 & rest & -> & Ht & Hfold)].
      * left. split; [ | exact Hfold ].
        intros l' [<- | Hin]; auto.
      * right. exists (l :: pre), l0, rest. repeat split; auto.
Qed.

End ExtractorLines.

(** ** The extractor: fences *)

Section ExtractorFences.
Import LaTeXFormatter Vocabulary.

Lemma prefix_run (s : string) :
  String.prefix "```" s = (3 <=? run s)%nat.
Proof.
  destruct s as [| c1 [| c2 [| c3 s]]]; cbn [run];
    rewrite ?prefix_cons, ?prefix_nil;
    repeat match goal with
           | |- context [ Ascii.eqb ?c "`" ] =>
               destruct (Ascii.eqb_spec c "`"); subst
           | |- context [ ascii_dec ?a ?b ] =>
               destruct (ascii_dec a b); try congruence
           end; reflexivity.
Qed.

Lemma remove_fence_step (s : string) :
  replace_scan "```" "" 0 ("```" ++ s) = replace_scan "```" "" 0 s.
Proof.
  change ("```" ++ s) with (String "`" (String "`" (String "`" s))).
  cbn [replace_scan].
  replace (String.prefix "```" (String "`" (String "`" (String "`" s))))
    with true; [ reflexivity | ].
  rewrite !prefix_cons, prefix_nil. reflexivity.
Qed.

Lemma remove_fence_cons (c : ascii) (s : string) :
  String.prefix "```" (String c s) = false ->
  replace_scan "```" "" 0 (String c s)
  = String c (replace_scan "```" "" 0 s).
Proof. intros H. cbn [replace_scan]. rewrite H. reflexivity. Qed.

(** Removing the fences shortens every run of backquotes to its
    remainder by three, and leaves no fence. *)
Lemma remove_fence_run (n : nat) (s : string) :
  String.length s <= n ->
  run (replace_scan "```" "" 0 s) = run s mod 3
  /\ contains "```" (replace_scan "```" "" 0 s) = false.
Proof.
  revert s. induction n as [| n IH]; intros s Hlen.
  - destruct s; [ split; reflexivity | simpl in Hlen; lia ].
  - destruct (String.prefix "```" s) eqn:E.
    + apply prefix_split in E as [t ->].
      rewrite remove_fence_step.
      rewrite length_append in Hlen. simpl in Hlen.
      destruct (IH t) as [Hrun Hfree]; [ lia | ].
      split; [ | exact Hfree ].
      rewrite Hrun. change (run ("```" ++ t)) with (3 + run t).
      symmetry. rewrite Nat.add_comm. apply (Nat.Div0.mod_add (run t) 1 3).
    + destruct s as [| c s]; [ split; reflexivity | ].
      simpl in Hlen. destruct (IH s) as [Hrun Hfree]; [ lia | ].
      rewrite (remove_fence_cons _ _ E).
      rewrite prefix_run in E. apply Nat.leb_gt in E.
      cbn [run contains] in *. rewrite Hfree, orb_false_r.
      destruct (Ascii.eqb_spec c "`") as [-> | Hne].
      * assert (Hsmall : run s < 2) by lia.
        rewrite (Nat.mod_small (run s) 3) in Hrun by lia.
        split.
        -- rewrite Hrun. symmetry. apply Nat.mod_small. lia.
        -- assert (Hr : run (String "`" (replace_scan "```" "" 0 s))
                        = S (run (replace_scan "```" "" 0 s)))
             by reflexivity.
           rewrite prefix_run, Hr, Hrun. apply Nat.leb_gt. lia.
      * split; [ reflexivity | ].
        rewrite prefix_cons. destruct (ascii_dec "`" c); congruence.
Qed.

(** What the four substitutions return holds no fence. *)
Lemma strip_fences_free (text : string) :
  contains "```" (strip_fences text) = false.
Proof.
  unfold strip_fences, replace at 1. cbn [is_empty].
  apply (remove_fence_run _ _ (Nat.le_refl _)).
Qed.

Lemma contains_piece (n x a b : string) :
  contains n (a ++ x ++ b) = false -> contains n x = false.
Proof.
  intros H. destruct (contains n x) eqn:E; [ | reflexivity ].
  rewrite (contains_middle n a x b E) in H. discriminate.
Qed.

Lemma contains_strip (n x : string) :
  contains n x = false -> contains n (strip x) = false.
Proof.
  intros H. destruct (strip_piece x) as (a & b & E).
  rewrite E in H. apply (contains_piece _ _ _ _ H).
Qed.

(** X8.  What [extract_latex_code] returns never holds a fence marker
    of three backquotes, whatever the input. *)
Theorem extract_latex_code_no_fence (text : string) :
  contains "```" (extract_latex_code text) = false.
Proof.
  pose proof (strip_fences_free text) as Hfree.
  unfold extract_latex_code.
  remember (strip_fences text) as t eqn:Ht. clear Ht text.
  destruct (scan_outcome (split_nl t) [])
    as [[_ ->] | (pre & l0 & rest & Hlines & _ & ->)].
  - cbn. apply contains_strip, Hfree.
  - cbn [app].
    destruct (is_empty (strip (join_nl (l0 :: rest))));
      apply contains_strip; [ exact Hfree | ].
    destruct (join_suffix pre (l0 :: rest)) as [a Ha].
    rewrite <- Hlines, join_split in Ha.
    rewrite <- (append_nil_r (join_nl (l0 :: rest))) in Ha.
    rewrite Ha in Hfree. apply (contains_piece _ _ _ _ Hfree).
Qed.

End ExtractorFences.

(** ** The extractor: what is captured *)

Section ExtractorCapture.
Import LaTeXFormatter Vocabulary.

Lemma lstrip_append (a b : string) :
  is_empty (lstrip a) = false -> lstrip (a ++ b) = lstrip a ++ b.
Proof.
  induction a as [| c a IH]; [ discriminate | ].
  cbn [lstrip append]. destruct (is_space c); [ exact IH | reflexivity ].
Qed.

Lemma rstrip_head (c : ascii) (z : string) :
  is_space c = false -> rstrip (String c z) = String c (rstrip z).
Proof. intros H. cbn [rstrip]. rewrite H, andb_false_r. reflexivity. Qed.

Lemma rstrip_append_space (x : string) (c : ascii) :
  is_space c = true -> rstrip (x ++ String c "") = rstrip x.
Proof.
  intros H. induction x as [| d x IH].
  - cbn. rewrite H. reflexivity.
  - cbn [append rstrip]. rewrite IH. reflexivity.
Qed.

Lemma join_head (l0 : string) (rest : list string) :
  exists tail, join_nl (l0 :: rest) = l0 ++ tail.
Proof.
  destruct rest as [| y rest].
  - exists "". rewrite append_nil_r. reflexivity.
  - exists (nl ++ join_nl (y :: rest)). apply join_nl_cons.
Qed.

(** A line that starts LaTeX has, after its leading white space, a
    backslash or a dollar first. *)
Lemma latex_start_head (l0 : string) :
  is_latex_start l0 = true ->
  exists c y, lstrip l0 = String c y /\ (c = "\" \/ c = "$")%char.
Proof.
  unfold is_latex_start, startswith, strip. intros H.
  destruct (rstrip_prefix (lstrip l0)) as [b Hb].
  apply orb_true_iff in H as [H | H];
    apply prefix_split in H as [t Ht]; rewrite Ht in Hb;
    [ exists "\"%char, (t ++ b) | exists "$"%char, (t ++ b) ];
    (split; [ exact Hb | auto ]).
Qed.

Lemma strip_latex_start (l0 tail : string) :
  is_latex_start l0 = true ->
  exists c z, strip (l0 ++ tail) = String c z
              /\ lstrip (l0 ++ tail) = lstrip l0 ++ tail
              /\ (c = "\" \/ c = "$")%char.
Proof.
  intros H. destruct (latex_start_head l0 H) as (c & y & Hl & Hc).
  assert (Hne : is_empty (lstrip l0) = false) by (rewrite Hl; reflexivity).
  assert (Hs : is_space c = false) by (destruct Hc as [-> | ->]; reflexivity).
  exists c, (rstrip (y ++ tail)). unfold strip.
  rewrite (lstrip_append _ _ Hne), Hl. cbn [append].
  rewrite (rstrip_head _ _ Hs). auto.
Qed.

(** When the first line of the fence-stripped text triggers the scan,
    every line is kept. *)
Lemma extract_latex_code_whole (text : string) :
  triggers (hd "" (split_nl (strip_fences text))) = true ->
  extract_latex_code text = strip (strip_fences text).
Proof.
  unfold extract_latex_code. intros H.
  pose proof (join_split (strip_fences text)) as Hjoin.
  destruct (split_nl_cons (strip_fences text)) as (h & t & E).
  rewrite E in *. cbn [hd fold_left] in *.
  rewrite scan_line_waiting, H, scan_started. cbn [app].
  rewrite Hjoin. destruct (is_empty _); reflexivity.
Qed.

(** X9.  When some line of the fence-stripped text triggers the scan (it
    is not explanatory and begins, once trimmed, with a backslash or a
    dollar), what [extract_latex_code] returns begins with a backslash
    or a dollar: the prose before the first LaTeX line is dropped. *)
Theorem extract_latex_code_starts_with_latex (text : string) :
  (exists line, In line (split_nl (strip_fences text))
                /\ triggers line = true) ->
  startswith (extract_latex_code text) "\"
  || startswith (extract_latex_code text) "$" = true.
Proof.
  intros (line & Hin & Hline). unfold extract_latex_code.
  destruct (scan_outcome (split_nl (strip_fences text)) [])
    as [[Hno _] | (pre & l0 & rest & _ & Ht & ->)].
  - rewrite (Hno line Hin) in Hline. discriminate.
  - cbn [app]. apply andb_true_iff in Ht as [_ Hstart].
    destruct (join_head l0 rest) as [tail ->].
    destruct (strip_latex_start l0 tail Hstart) as (c & z & -> & _ & Hc).
    cbn [is_empty]. unfold startswith. rewrite !prefix_cons, !prefix_nil.
    destruct Hc as [-> | ->];
      [ destruct (ascii_dec "\" "\") | destruct (ascii_dec "$" "$") ];
      try congruence; auto using orb_true_r.
Qed.

Lemma extract_latex_code_starts_with_latex_witness :
  startswith
    (extract_latex_code ("Here is the LaTeX code:" ++ nl ++ "so:" ++ nl
                         ++ "  $x^2$" ++ nl ++ "done")) "\"
  || startswith
       (extract_latex_code ("Here is the LaTeX code:" ++ nl ++ "so:" ++ nl
                            ++ "  $x^2$" ++ nl ++ "done")) "$" = true.
Proof.
  apply (extract_latex_code_starts_with_latex
           ("Here is the LaTeX code:" ++ nl ++ "so:" ++ nl
            ++ "  $x^2$" ++ nl ++ "done")).
  exists "  $x^2$". split; [ vm_compute; tauto | reflexivity ].
Defined.

(** X10.  A text without fence marker whose first line triggers the
    scan is returned whole, trimmed of white space: the lines after
    the first LaTeX line are kept whatever they hold. *)
Theorem extract_latex_code_keeps_latex (text : string) :
  contains "```" text = false ->
  triggers (hd "" (split_nl text)) = true ->
  extract_latex_code text = strip text.
Proof.
  intros Hfence H. rewrite extract_latex_code_whole.
  - rewrite (strip_fences_absent _ Hfence). reflexivity.
  - rewrite (strip_fences_absent _ Hfence). exact H.
Qed.

Lemma extract_latex_code_keeps_latex_witness :
  extract_latex_code ("\begin{align}" ++ nl ++ "Note: here is x" ++ nl
                      ++ "\end{align}" ++ nl)
  = strip ("\begin{align}" ++ nl ++ "Note: here is x" ++ nl
           ++ "\end{align}" ++ nl).
Proof.
  apply (extract_latex_code_keeps_latex
           ("\begin{align}" ++ nl ++ "Note: here is x" ++ nl
            ++ "\end{align}" ++ nl)); reflexivity.
Defined.

End ExtractorCapture.

(** ** The extractor: fenced answers *)

Section ExtractorFenced.
Import LaTeXFormatter Vocabulary.

Lemma replace_scan_miss (old new : string) (c : ascii) (s : string) :
  String.prefix old (String c s) = false ->
  replace_scan old new 0 (String c s) = String c (replace_scan old new 0 s).
Proof. intros H. cbn [replace_scan]. rewrite H. reflexivity. Qed.

Lemma replace_scan_skip (old new a t : string) :
  replace_scan old new (String.length a) (a ++ t) = replace_scan old new 0 t.
Proof.
  induction a as [| c a IH]; [ destruct t; reflexivity | exact IH ].
Qed.

(** An occurrence at the head is replaced and the scan goes on after
    it. *)
Lemma replace_scan_hit (o : ascii) (old new t : string) :
  replace_scan (String o old) new 0 (String o old ++ t)
  = new ++ replace_scan (String o old) new 0 t.
Proof.
  change (String o old ++ t) with (String o (old ++ t)).
  cbn [replace_scan].
  change (String o (old ++ t)) with (String o old ++ t).
  rewrite prefix_append.
  replace (String.length (String o old) - 1) with (String.length old)
    by (cbn [String.length]; lia).
  rewrite replace_scan_skip. reflexivity.
Qed.

(** The scan passes over a stretch that lacks the first character of
    what is looked for. *)
Lemma replace_scan_no_first (c : ascii) (p new a b : string) :
  count_char c a = 0 ->
  replace_scan (String c p) new 0 (a ++ b)
  = a ++ replace_scan (String c p) new 0 b.
Proof.
  induction a as [| e a IH]; [ reflexivity | ].
  intros H. apply count_char_cons_zero in H as [Hne H0].
  change (String e a ++ b) with (String e (a ++ b)).
  rewrite replace_scan_miss, (IH H0); [ reflexivity | ].
  rewrite prefix_cons. destruct (ascii_dec c e); congruence.
Qed.

Lemma replace_no_backquote (p a b : string) :
  count_char "`" a = 0 ->
  replace (String "`" p) "" (a ++ b) = a ++ replace (String "`" p) "" b.
Proof. intros H. unfold replace. apply replace_scan_no_first, H. Qed.

Lemma replace_hit (o : ascii) (old t : string) :
  replace (String o old) "" (String o old ++ t) = replace (String o old) "" t.
Proof. unfold replace. cbn [is_empty]. apply replace_scan_hit. Qed.

(** The body of a fenced answer and the closing fence, through the four
    substitutions. *)
Lemma strip_fences_body (body : string) :
  count_char "`" body = 0 ->
  strip_fences ((body ++ nl) ++ "```") = body ++ nl.
Proof.
  intros H.
  assert (Hb : count_char "`" (body ++ nl) = 0)
    by (rewrite count_char_append, H; reflexivity).
  unfold strip_fences.
  change ("```latex" ++ nl) with (String "`" ("``latex" ++ nl)).
  rewrite (replace_no_backquote _ _ "```" Hb).
  change (replace (String "`" ("``latex" ++ nl)) "" "```") with "```".
  change ("```tex" ++ nl) with (String "`" ("``tex" ++ nl)).
  rewrite (replace_no_backquote _ _ "```" Hb).
  change (replace (String "`" ("``tex" ++ nl)) "" "```") with "```".
  change ("```" ++ nl) with (String "`" ("``" ++ nl)).
  rewrite (replace_no_backquote _ _ "```" Hb).
  change (replace (String "`" ("``" ++ nl)) "" "```") with "```".
  rewrite (replace_no_backquote "``" _ "```" Hb).
  change (replace "```" "" "```") with "".
  apply append_nil_r.
Qed.

(** The three opening fences, through the substitutions that come
    before theirs. *)
Lemma strip_fences_opening (rest : string) :
  strip_fences (("```latex" ++ nl) ++ rest) = strip_fences rest
  /\ (contains ("```latex" ++ nl) rest = false ->
      strip_fences (("```tex" ++ nl) ++ rest) = strip_fences rest)
  /\ (contains ("```latex" ++ nl) rest = false ->
      contains ("```tex" ++ nl) rest = false ->
      strip_fences (("```" ++ nl) ++ rest) = strip_fences rest).
Proof.
  unfold strip_fences. repeat split.
  - change ("```latex" ++ nl) with (String "`" ("``latex" ++ nl)).
    rewrite replace_hit. reflexivity.
  - intros H1. rewrite (replace_absent _ "" rest H1).
    assert (E : replace ("```latex" ++ nl) "" (("```tex" ++ nl) ++ rest)
                = ("```tex" ++ nl) ++ rest).
    { unfold replace, nl. cbn [is_empty append].
      do 7 (rewrite replace_scan_miss by reflexivity).
      f_equal. f_equal. f_equal. f_equal. f_equal. f_equal. f_equal.
      apply (replace_absent _ "" rest H1). }
    rewrite E.
    change ("```tex" ++ nl) with (String "`" ("``tex" ++ nl)).
    rewrite replace_hit. reflexivity.
  - intros H1 H2.
    rewrite (replace_absent _ "" rest H1), (replace_absent _ "" rest H2).
    assert (E1 : replace ("```latex" ++ nl) "" (("```" ++ nl) ++ rest)
                 = ("```" ++ nl) ++ rest).
    { unfold replace, nl. cbn [is_empty append].
      do 4 (rewrite replace_scan_miss by reflexivity).
      f_equal. f_equal. f_equal. f_equal.
      apply (replace_absent _ "" rest H1). }
    assert (E2 : replace ("```tex" ++ nl) "" (("```" ++ nl) ++ rest)
                 = ("```" ++ nl) ++ rest).
    { unfold replace, nl. cbn [is_empty append].
      do 4 (rewrite replace_scan_miss by reflexivity).
      f_equal. f_equal. f_equal. f_equal.
      apply (replace_absent _ "" rest H2). }
    rewrite E1, E2.
    change ("```" ++ nl) with (String "`" ("``" ++ nl)).
    rewrite replace_hit. reflexivity.
Qed.

Lemma contains_no_first (c : ascii) (p a b : string) :
  count_char c a = 0 ->
  contains (String c p) (a ++ b) = contains (String c p) b.
Proof.
  induction a as [| e a IH]; [ reflexivity | ].
  intros H. apply count_char_cons_zero in H as [Hne H0].
  change (String e a ++ b) with (String e (a ++ b)).
  cbn [contains]. rewrite prefix_cons, (IH H0).
  destruct (ascii_dec c e); [ congruence | reflexivity ].
Qed.

Lemma hd_split_cons (c : ascii) (s : string) :
  Ascii.eqb c nl_char = false ->
  hd "" (split_nl (String c s)) = String c (hd "" (split_nl s)).
Proof.
  intros H. cbn [split_nl]. rewrite H.
  destruct (split_nl_cons s) as (h & t & ->). reflexivity.
Qed.

(** The first line of a text is not changed by what follows a later
    line break. *)
Lemma hd_split_append (a b : string) :
  hd "" (split_nl (a ++ nl ++ b)) = hd "" (split_nl a).
Proof.
  induction a as [| c a IH]; [ reflexivity | ].
  change (String c a ++ nl ++ b) with (String c (a ++ nl ++ b)).
  destruct (Ascii.eqb c nl_char) eqn:E.
  - cbn [split_nl]. rewrite E. reflexivity.
  - rewrite !hd_split_cons, IH by exact E. reflexivity.
Qed.

(** A text whose first line starts LaTeX loses nothing but the line
    break when one is added and the whole is trimmed. *)
Lemma strip_trailing_nl (body : string) :
  is_latex_start (hd "" (split_nl body)) = true ->
  strip (body ++ nl) = strip body.
Proof.
  intros H. pose proof (join_split body) as Hjoin.
  destruct (split_nl_cons body) as (l0 & rest & E).
  rewrite E in *. cbn [hd] in H.
  destruct (join_head l0 rest) as [tail Ht]. rewrite Ht in Hjoin.
  destruct (strip_latex_start l0 tail H) as (c & z & _ & Hl & _).
  destruct (latex_start_head l0 H) as (c' & y & Hy & _).
  rewrite Hjoin in Hl. unfold strip.
  rewrite lstrip_append by (rewrite Hl, Hy; reflexivity).
  apply rstrip_append_space. reflexivity.
Qed.

(** X11.  A LaTeX body between an opening fence (with the tag [latex],
    the tag [tex] or none) and a closing fence comes back alone and
    trimmed, when the body holds no backquote and its first line
    triggers the scan. *)
Theorem extract_latex_code_fenced (body : string) :
  count_char "`" body = 0 ->
  triggers (hd "" (split_nl body)) = true ->
  extract_latex_code ("```latex" ++ nl ++ body ++ nl ++ "```") = strip body
  /\ extract_latex_code ("```tex" ++ nl ++ body ++ nl ++ "```") = strip body
  /\ extract_latex_code ("```" ++ nl ++ body ++ nl ++ "```") = strip body.
Proof.
  intros Hbq Htrig.
  assert (Hb : count_char "`" (body ++ nl) = 0)
    by (rewrite count_char_append, Hbq; reflexivity).
  assert (Habsent : forall p, contains (String "`" p) "```" = false ->
                              contains (String "`" p) ((body ++ nl) ++ "```")
                              = false).
  { intros p Hp. rewrite (contains_no_first _ _ _ _ Hb). exact Hp. }
  destruct (strip_fences_opening ((body ++ nl) ++ "```")) as (E1 & E2 & E3).
  specialize (E2 (Habsent ("``latex" ++ nl) eq_refl)).
  specialize (E3 (Habsent ("``latex" ++ nl) eq_refl)
                 (Habsent ("``tex" ++ nl) eq_refl)).
  rewrite (strip_fences_body _ Hbq) in E1, E2, E3.
  assert (Hstart : is_latex_start (hd "" (split_nl body)) = true)
    by (apply andb_true_iff in Htrig; apply Htrig).
  assert (Hwhole : forall text,
             strip_fences text = body ++ nl ->
             extract_latex_code text = strip body).
  { intros text E. rewrite extract_latex_code_whole; rewrite E.
    - apply strip_trailing_nl, Hstart.
    - rewrite <- (append_nil_r (body ++ nl)), append_assoc, hd_split_append.
      exact Htrig. }
  repeat split; apply Hwhole.
  - rewrite <- E1. f_equal. rewrite !append_assoc. reflexivity.
  - rewrite <- E2. f_equal. rewrite !append_assoc. reflexivity.
  - rewrite <- E3. f_equal. rewrite !append_assoc. reflexivity.
Qed.

Lemma extract_latex_code_fenced_witness :
  extract_latex_code ("```latex" ++ nl ++ "\frac{a}{b}" ++ nl ++ "```")
  = strip "\frac{a}{b}"
  /\ extract_latex_code ("```tex" ++ nl ++ "\frac{a}{b}" ++ nl ++ "```")
     = strip "\frac{a}{b}"
  /\ extract_latex_code ("```" ++ nl ++ "\frac{a}{b}" ++ nl ++ "```")
     = strip "\frac{a}{b}".
Proof.
  apply (extract_latex_code_fenced "\frac{a}{b}"); reflexivity.
Defined.

End ExtractorFenced.

(** ** The extractor: prose before the LaTeX *)

Section ExtractorProse.
Import LaTeXFormatter Vocabulary.

Lemma split_append_line (p t : string) :
  count_char nl_char p = 0 -> split_nl (p ++ nl ++ t) = p :: split_nl t.
Proof.
  induction p as [| c p IH]; [ reflexivity | ].
  intros H. apply count_char_cons_zero in H as [Hne H0].
  change (String c p ++ nl ++ t) with (String c (p ++ nl ++ t)).
  cbn [split_nl]. rewrite (IH H0).
  destruct (Ascii.eqb_spec c nl_char); [ congruence | reflexivity ].
Qed.

(** When a line triggers the scan, something is captured and it is what
    the function returns. *)
Lemma extract_latex_code_captured (text : string) :
  (exists line, In line (split_nl (strip_fences text))
                /\ triggers line = true) ->
  extract_latex_code text
  = strip (join_nl (snd (fold_left scan_line (split_nl (strip_fences text))
                           (false, [])))).
Proof.
  intros (line & Hin & Hline). unfold extract_latex_code.
  destruct (scan_outcome (split_nl (strip_fences text)) [])
    as [[Hno _] | (pre & l0 & rest & _ & Ht & ->)].
  - rewrite (Hno line Hin) in Hline. discriminate.
  - cbn [app snd]. apply andb_true_iff in Ht as [_ Hstart].
    destruct (join_head l0 rest) as [tail ->].
    destruct (strip_latex_start l0 tail Hstart) as (c & z & -> & _).
    reflexivity.
Qed.

(** X12.  A first line that does not trigger the scan, explanation or
    other prose, is dropped: in a text without fence marker with a
    LaTeX line further down, [extract_latex_code] returns what it
    returns without that first line. *)
Theorem extract_latex_code_drops_first_line (p t : string) :
  count_char nl_char p = 0 ->
  triggers p = false ->
  contains "```" (p ++ nl ++ t) = false ->
  (exists line, In line (split_nl t) /\ triggers line = true) ->
  extract_latex_code (p ++ nl ++ t) = extract_latex_code t.
Proof.
  intros Hline Hp Hfence (line & Hin & Ht).
  assert (Hfence' : contains "```" t = false).
  { destruct (contains "```" t) eqn:E; [ | reflexivity ].
    rewrite (contains_append_l _ p _ (contains_append_l _ nl _ E)) in Hfence.
    discriminate. }
  rewrite !extract_latex_code_captured.
  - rewrite (strip_fences_absent _ Hfence), (strip_fences_absent _ Hfence').
    rewrite (split_append_line _ _ Hline). cbn [fold_left].
    rewrite scan_line_waiting, Hp. reflexivity.
  - rewrite (strip_fences_absent _ Hfence'). eauto.
  - rewrite (strip_fences_absent _ Hfence), (split_append_line _ _ Hline).
    exists line. split; [ right; exact Hin | exact Ht ].
Qed.

Lemma extract_latex_code_drops_first_line_witness :
  extract_latex_code ("The formula in the image:" ++ nl
                      ++ "\frac{a}{b}" ++ nl ++ "as shown")
  = extract_latex_code ("\frac{a}{b}" ++ nl ++ "as shown").
Proof.
  apply (extract_latex_code_drops_first_line
           "The formula in the image:" ("\frac{a}{b}" ++ nl ++ "as shown")).
  - reflexivity.
  - reflexivity.
  - reflexivity.
  - exists "\frac{a}{b}". split; [ vm_compute; tauto | reflexivity ].
Defined.

End ExtractorProse.

(** ** The command [convert] *)

Section Command.
Import Cli Vocabulary.

Lemma emit_outcome (output : option string)
    (write_text_raises : option VisionClient.Exc) (verbose : bool)
    (said : list Line) (latex_code : string) :
  let o := emit output write_text_raises verbose said latex_code in
  (exit_code o = 1%Z /\ stdout o = [] /\ written o = None)
  \/ (exit_code o = 0%Z
      /\ (if LaTeXFormatter.truthy output
          then stdout o = []
               /\ written o = Some (LaTeXFormatter.text_of output, latex_code)
          else stdout o = [ latex_code ] /\ written o = None)).
Proof.
  unfold emit. destruct (LaTeXFormatter.truthy output).
  - destruct write_text_raises; [ left | right ]; repeat split.
  - right. repeat split.
Qed.

(** The end of the [try] block fails only when the file cannot be
    written. *)
Lemma emit_exit_code (output : option string)
    (write_text_raises : option VisionClient.Exc) (verbose : bool)
    (said : list Line) (latex_code : string) :
  exit_code (emit output write_text_raises verbose said latex_code) = 0%Z
  <-> (LaTeXFormatter.truthy output = true -> write_text_raises = None).
Proof.
  unfold emit. destruct (LaTeXFormatter.truthy output).
  - destruct write_text_raises; cbn; split; auto; try discriminate.
    intros H. specialize (H eq_refl). discriminate.
  - cbn. split; auto. discriminate.
Qed.

Lemma exit_of_outcome (e : Converter.ConvertExc) (verbose : bool)
    (said : list Line) :
  exit_code (exit_of e verbose said) = 1%Z
  /\ stdout (exit_of e verbose said) = []
  /\ written (exit_of e verbose said) = None.
Proof. destruct e; repeat split. Qed.

(** For each of the five types the function calls [convert] of the
    converter with the content type of that choice, and sends the code,
    shaped by the wrapper of the type, to the end of the [try] block. *)
Lemma convert_by_type
    (env : VisionClient.Env) (fs : ImageHandler.FileSystem)
    (world : VisionClient.Providers)
    (write_text_raises : option VisionClient.Exc)
    (image_path : string) (output : option string) (type : string)
    (inline : bool) (caption title author : option string) (verbose : bool)
    (constructed : VisionClient.Constructed) :
  In type type_choices ->
  VisionClient.__init__ env None None None None
    VisionClient.DEFAULT_CLAUDE_MODEL VisionClient.DEFAULT_OPENAI_MODEL
  = Returns constructed ->
  match Converter.convert
          {| Converter.vision_client := VisionClient.client constructed;
             Converter.validate_output := true |}
          fs world image_path (content_type_map type) true with
  | Raises e =>
      convert env fs world write_text_raises image_path output type inline
        caption title author verbose
      = exit_of e verbose []
  | Returns r =>
      exists said,
        convert env fs world write_text_raises image_path output type inline
          caption title author verbose
        = emit output write_text_raises verbose said
            (shaped type inline caption title author (Converter.latex_code r))
  end.
Proof.
  intros Htype Hinit. unfold convert. rewrite Hinit.
  unfold type_choices in Htype. cbn [In] in Htype.
  destruct Htype as [<- | [<- | [<- | [<- | [<- | []]]]]];
    unfold shaped, Converter.convert_equation, Converter.convert_table,
      Converter.convert_to_document;
    repeat match goal with
           | |- context [ String.eqb ?a ?b ] =>
               let v := eval vm_compute in (String.eqb a b) in
               change (String.eqb a b) with v
           end; cbv iota;
    repeat match goal with
           | |- context [ content_type_map ?t ] =>
               let v := eval vm_compute in (content_type_map t) in
               change (content_type_map t) with v
           end;
    match goal with
    | |- context [ Converter.convert ?c ?f ?w ?p ?d ?a ] =>
        destruct (Converter.convert c f w p d a) as [r | e]
    end;
    solve [ reflexivity | eexists; reflexivity ].
Qed.

(** X26.  Once click has accepted the command line (the image path
    exists and [--type] is one of the five choices), the command ends
    with status 0 or 1.  With status 1 nothing is sent to the standard
    output and no file is written.  The status is 0 exactly when the
    client could be built from the environment, [convert] of the
    converter, called with the content type of the choice, returned a
    result, and the output file, if one is asked for, could be written;
    the code of that result, shaped by the wrapper of the type
    ([wrap_equation], [wrap_table], [create_full_document], or nothing
    for [diagram] and [auto]), is then the only text sent to the
    standard output when [--output] is not given, and the text written
    to that file, the standard output staying empty, when it is. *)
Theorem cli_convert_outcome
    (env : VisionClient.Env) (fs : ImageHandler.FileSystem)
    (world : VisionClient.Providers)
    (write_text_raises : option VisionClient.Exc)
    (image_path : string) (output : option string) (type : string)
    (inline : bool) (caption title author : option string) (verbose : bool) :
  In type type_choices ->
  ImageHandler.path_exists (fs image_path) = true ->
  let outcome :=
    convert env fs world write_text_raises image_path output type inline
      caption title author verbose in
  let built :=
    VisionClient.__init__ env None None None None
      VisionClient.DEFAULT_CLAUDE_MODEL VisionClient.DEFAULT_OPENAI_MODEL in
  (exit_code outcome = 0%Z \/ exit_code outcome = 1%Z)
  /\ (exit_code outcome = 1%Z ->
      stdout outcome = [] /\ written outcome = None)
  /\ (exit_code outcome = 0%Z
      <-> exists constructed r,
            built = Returns constructed
            /\ Converter.convert
                 {| Converter.vision_client := VisionClient.client constructed;
                    Converter.validate_output := true |}
                 fs world image_path (content_type_map type) true
               = Returns r
            /\ (LaTeXFormatter.truthy output = true ->
                write_text_raises = None))
  /\ (forall constructed r,
        built = Returns constructed ->
        Converter.convert
          {| Converter.vision_client := VisionClient.client constructed;
             Converter.validate_output := true |}
          fs world image_path (content_type_map type) true
        = Returns r ->
        exit_code outcome = 0%Z ->
        if LaTeXFormatter.truthy output
        then stdout outcome = []
             /\ written outcome
                = Some (LaTeXFormatter.text_of output,
                        shaped type inline caption title author
                          (Converter.latex_code r))
        else stdout outcome
             = [ shaped type inline caption title author
                   (Converter.latex_code r) ]
             /\ written outcome = None).
Proof.
  intros Htype _. cbv zeta.
  destruct (VisionClient.__init__ env None None None None
              VisionClient.DEFAULT_CLAUDE_MODEL
              VisionClient.DEFAULT_OPENAI_MODEL)
    as [constructed | e0] eqn:Hinit.
  - pose proof (convert_by_type env fs world write_text_raises image_path
                  output type inline caption title author verbose
                  constructed Htype Hinit) as Hrun.
    destruct (Converter.convert
                {| Converter.vision_client := VisionClient.client constructed;
                   Converter.validate_output := true |}
                fs world image_path (content_type_map type) true)
      as [r | e] eqn:Hconv.
    + destruct Hrun as [said ->].
      pose proof (emit_outcome output write_text_raises verbose said
                    (shaped type inline caption title author
                       (Converter.latex_code r))) as Hemit.
      pose proof (emit_exit_code output write_text_raises verbose said
                    (shaped type inline caption title author
                       (Converter.latex_code r))) as Hexit.
      cbv zeta in Hemit.
      split; [ | split; [ | split ] ].
      * destruct Hemit as [[H _] | [H _]]; [ right | left ]; exact H.
      * intros H1. destruct Hemit as [[_ H] | [H _]]; [ exact H | ].
        rewrite H in H1. discriminate.
      * rewrite Hexit. split.
        -- intros H. exists constructed, r. repeat split; auto.
        -- intros (c' & r' & _ & _ & H). exact H.
      * intros c' r' [= <-] Hr' H0. rewrite Hconv in Hr'.
        injection Hr' as <-.
        destruct Hemit as [[H _] | [_ H]]; [ | exact H ].
        rewrite H in H0. discriminate.
    + rewrite Hrun. destruct (exit_of_outcome e verbose []) as (H1 & H2 & H3).
      rewrite H1, H2, H3.
      split; [ right; reflexivity | ].
      split; [ intros _; split; reflexivity | ].
      split.
      * split; [ discriminate | ].
        intros (c' & r' & [= <-] & Hr' & _). rewrite Hconv in Hr'.
        discriminate.
      * intros c' r' [= <-] Hr'. rewrite Hconv in Hr'. discriminate.
  - assert (Hout : exit_code (convert env fs world write_text_raises
                                image_path output type inline caption title
                                author verbose) = 1%Z
                   /\ stdout (convert env fs world write_text_raises
                                image_path output type inline caption title
                                author verbose) = []
                   /\ written (convert env fs world write_text_raises
                                 image_path output type inline caption title
                                 author verbose) = None).
    { unfold convert. rewrite Hinit.
      destruct (VisionClient.exc_class e0); repeat split. }
    destruct Hout as (H1 & H2 & H3). rewrite H1, H2, H3.
    split; [ right; reflexivity | ].
    split; [ intros _; split; reflexivity | ].
    split.
    + split; [ discriminate | ]. intros (c' & r' & H & _). discriminate.
    + intros c' r' H. discriminate.
Qed.

(** A run on an equation, the code going to the standard output. *)
Lemma cli_convert_outcome_witness :
  In "equation" type_choices
  /\ convert (env_of [ ("ANTHROPIC_API_KEY", "k1") ])
       (fs_of 4096 (Some "PNG")) (answering "\frac{a}{b}") None
       "eq.png" None "equation" false None None None false
     = {| exit_code := 0;
          stdout := [ "\begin{equation}" ++ nl ++ "\frac{a}{b}" ++ nl
                      ++ "\end{equation}" ];
          echoed_err := [];
          written := None |}
  /\ (exit_code (convert (env_of [ ("ANTHROPIC_API_KEY", "k1") ])
                   (fs_of 4096 (Some "PNG")) (answering "\frac{a}{b}") None
                   "eq.png" None "equation" false None None None false)
      = 0%Z
      \/ exit_code (convert (env_of [ ("ANTHROPIC_API_KEY", "k1") ])
                      (fs_of 4096 (Some "PNG")) (answering "\frac{a}{b}")
                      None "eq.png" None "equation" false None None None
                      false)
         = 1%Z).
Proof.
  split; [ left; reflexivity | ]. split; [ reflexivity | ].
  refine (proj1 (cli_convert_outcome
                   (env_of [ ("ANTHROPIC_API_KEY", "k1") ])
                   (fs_of 4096 (Some "PNG")) (answering "\frac{a}{b}") None
                   "eq.png" None "equation" false None None None false
                   _ _)).
  - left. reflexivity.
  - reflexivity.
Defined.

End Command.
